(** * ValidityPretrainAgent: trajectory recorder of [agents/agents.py]

    A shallow embedding of the class [ValidityPretrainAgent]
    (agents/agents.py, lines 725-884): its buffers, its record
    accumulators, [reset], [act], [observe], [_compute_action_validity]
    and [write_trace], followed by the properties of the recorder.  Its
    subclass [ValidityPretrainAgentNoSkill] (lines 887-915) and the
    [KeyboardAgent] (lines 917-996) follow the recorder.

    Conventions of the embedding.
    - A Python method that mutates [self], touches the disk, allocates numpy
      arrays or reads the clock is a computation in the monad [M]: a function
      from a [Machine] to either a result with the new machine or a raised
      exception.
    - A numpy array with leading axes (batch, time) is a list of rows; what
      sits at one time step of a component is a [cell], the row-major
      flattening of the component's shape.  Every numeric dtype is read as a
      rational: the properties below are about which slot holds which value,
      not about rounding.
    - [np.ndarray(shape=...)] returns uninitialised memory; its contents are
      drawn from the [heap] of the machine, a stream that is an input of the
      model.
    - [print] is not modelled. *)

From Stdlib Require Import Ascii QArith Qminmax Qround.
From stdpp Require Import base list strings pretty.

Open Scope string_scope.

(** ** Exceptions and results *)

Inductive exn :=
| KeyError | IndexError | AttributeError | TypeError | ValueError | FileExistsError.

Inductive result (A : Type) :=
| Ok (x : A)
| Raise (e : exn).
Arguments Ok {A} x.
Arguments Raise {A} e.

(** ** Ordered dictionaries

    [OrderedDict] keyed by component name, kept in insertion order. *)

Definition odict (V : Type) := list (string * V).

Definition keys {V} (d : odict V) : list string := d.*1.

Fixpoint dict_get {V} (k : string) (d : odict V) : option V :=
  match d with
  | [] => None
  | (k', v) :: d' => if String.eqb k k' then Some v else dict_get k d'
  end.

(** [d[k] = v]: overwrite in place, or append a new key at the end. *)
Fixpoint dict_set {V} (k : string) (v : V) (d : odict V) : odict V :=
  match d with
  | [] => [(k, v)]
  | (k', v') :: d' =>
      if String.eqb k k' then (k, v) :: d' else (k', v') :: dict_set k v d'
  end.

(** [OrderedDict(pairs)]. *)
Definition odict_of {V} (pairs : list (string * V)) : odict V :=
  fold_left (fun d kv => dict_set kv.1 kv.2 d) pairs [].

(** ** numpy arrays *)

Definition cell := list Q.

(** An array of shape [(rows, T) + component_shape]. *)
Definition ndarray (A : Type) := list (list A).

(** [len(x)]: the size of the first axis. *)
Definition len {A} (x : ndarray A) : nat := length x.

Definition numel (shape : list nat) : nat := fold_right Nat.mul 1%nat shape.

(** [x[r, j]] *)
Definition getitem {A} (x : ndarray A) (r j : nat) : result A :=
  match x !! r with
  | None => Raise IndexError
  | Some row => match row !! j with
                | None => Raise IndexError
                | Some v => Ok v
                end
  end.

(** [x[r, j] = v] *)
Definition setitem {A} (x : ndarray A) (r j : nat) (v : A) : result (ndarray A) :=
  match x !! r with
  | None => Raise IndexError
  | Some row => if decide (j < length row)%nat
                then Ok (<[r := <[j := v]> row]> x)
                else Raise IndexError
  end.

(** [x[r, j] = q] for a Python scalar [q]: broadcast over the cell. *)
Definition setitem_scalar (x : ndarray cell) (r j : nat) (q : Q) : result (ndarray cell) :=
  match getitem x r j with
  | Raise e => Raise e
  | Ok old => setitem x r j (map (fun _ => q) old)
  end.

(** [x[r, :n]]: slices clip, the row index does not. *)
Definition getslice {A} (x : ndarray A) (r n : nat) : result (list A) :=
  match x !! r with
  | None => Raise IndexError
  | Some row => Ok (take n row)
  end.

(** [x[r, i:j] = v] for a scalar [v]. *)
Definition fill_range {A} (i j : nat) (v : A) (row : list A) : list A :=
  take i row ++ map (fun _ => v) (take (j - i) (drop i row)) ++ drop (i + (j - i)) row.

Definition setslice {A} (x : ndarray A) (r i j : nat) (v : A) : result (ndarray A) :=
  match x !! r with
  | None => Raise IndexError
  | Some row => Ok (<[r := fill_range i j v row]> x)
  end.

Definition Qltb (a b : Q) : bool := negb (Qle_bool b a).

(** [if x == y:] on two cells: the comparison is elementwise and only an
    array of exactly one element has a truth value. *)
Definition cell_eq_truth (x y : cell) : result bool :=
  match x, y with
  | [a], [b] => Ok (Qeq_bool a b)
  | _, _ => Raise ValueError
  end.

(** ** Record accumulators

    [init_records] makes each accumulator a Python list of arrays;
    [write_trace] replaces it by the concatenated array. *)

Inductive record (A : Type) :=
| RList (l : list (list A))
| RArray (x : list A).
Arguments RList {A} l.
Arguments RArray {A} x.

(** [rec.append(x)]: an ndarray has no [append]. *)
Definition append {A} (rec : record A) (x : list A) : result (record A) :=
  match rec with
  | RList l => Ok (RList (l ++ [x]))
  | RArray _ => Raise AttributeError
  end.

(** Looking up the attribute [rec.append], before its argument is
    evaluated. *)
Definition getattr_append {A} (rec : record A) : result unit :=
  match rec with
  | RList _ => Ok tt
  | RArray _ => Raise AttributeError
  end.

(** [np.concatenate(rec)] along the time axis.  In [write_trace] it is only
    reached after [append] succeeded on the same accumulator, hence on a
    non-empty list. *)
Definition concatenate {A} (rec : record A) : result (record A) :=
  match rec with
  | RList [] => Raise ValueError
  | RList l => Ok (RArray (concat l))
  | RArray _ => Raise ValueError
  end.

(** *** The builtin [sum] over an accumulator *)

Inductive pyval :=
| Scalar (q : Q)
| Array (x : list Q).

Definition Qsum (x : list Q) : Q := fold_left Qplus x 0%Q.

(** [acc + a] with numpy broadcasting between one-dimensional arrays. *)
Definition py_add (acc : pyval) (a : list Q) : result pyval :=
  match acc with
  | Scalar q => Ok (Array (map (Qplus q) a))
  | Array x =>
      if decide (length x = length a) then Ok (Array (zip_with Qplus x a))
      else match x, a with
           | [q], _ => Ok (Array (map (Qplus q) a))
           | _, [q] => Ok (Array (map (fun v => Qplus v q) x))
           | _, _ => Raise ValueError
           end
  end.

Fixpoint py_sum_from (acc : pyval) (l : list (list Q)) : result pyval :=
  match l with
  | [] => Ok acc
  | a :: l' => match py_add acc a with
               | Raise e => Raise e
               | Ok acc' => py_sum_from acc' l'
               end
  end.

(** [sum(rec)] and [len(rec)]. *)
Definition py_sum (rec : record Q) : result pyval :=
  match rec with
  | RList l => py_sum_from (Scalar 0) l
  | RArray x => Ok (Scalar (Qsum x))
  end.

Definition py_len {A} (rec : record A) : nat :=
  match rec with
  | RList l => length l
  | RArray x => length x
  end.

(** [if s < bound:] *)
Definition lt_truth (s : pyval) (bound : Q) : result bool :=
  match s with
  | Scalar q => Ok (Qltb q bound)
  | Array [q] => Ok (Qltb q bound)
  | Array _ => Raise ValueError
  end.

(** ** The environment and the agent *)

(** One entry of the normalised [states_spec] / [actions_spec]. *)
Record Spec := { type : string; shape : list nat }.

(** What the agent uses of [MyCARLAEnvironment]. *)
Record MyCARLAEnvironment := {
  max_episode_timesteps : nat;
  states : odict Spec;
  actions : odict Spec;
  (** [aggregate_reward(rewards, r_max, r_min)] *)
  aggregate_reward : list Q -> Q -> Q -> Q;
}.

(** The arguments the behaviour planner is built from; the planner itself
    is an external collaborator. *)
Record BehaviorAgent := {
  ignore_traffic_light : bool;
  behavior : string;
  min_route_size : nat;
}.

Record ValidityPretrainAgent := {
  env : MyCARLAEnvironment;
  max_timesteps : nat;
  index : nat;
  traces_dir : option string;
  episodes : nat;
  reward_threshold : Q;
  states_spec : odict Spec;
  actions_spec : odict Spec;
  terminal_buffers : option (ndarray Q);
  reward_buffers : option (ndarray Q);
  states_buffers : option (odict (ndarray cell));
  actions_buffers : option (odict (ndarray cell));
  record_states : option (odict (record cell));
  record_actions : option (odict (record cell));
  record_terminal : option (record Q);
  record_reward : option (record Q);
  agent : option BehaviorAgent;
  args : BehaviorAgent;
}.

(** [__init__] *)
Definition __init__ (env : MyCARLAEnvironment) (traces_dir : option string)
    (ignore_traffic_light : bool) (behavior : string) (reward_threshold : Q)
    : ValidityPretrainAgent :=
  {| env := env;
     max_timesteps := max_episode_timesteps env;
     index := 0;
     traces_dir := traces_dir;
     episodes := 0;
     reward_threshold := reward_threshold;
     states_spec := states env;
     actions_spec := actions env;
     terminal_buffers := None;
     reward_buffers := None;
     states_buffers := None;
     actions_buffers := None;
     record_states := None;
     record_actions := None;
     record_terminal := None;
     record_reward := None;
     agent := None;
     args := {| ignore_traffic_light := ignore_traffic_light;
                behavior := behavior;
                min_route_size := max_episode_timesteps env |} |}.

(** Attribute assignment. *)
Definition set_index (v : nat) (a : ValidityPretrainAgent) :=
  {| env := env a; max_timesteps := max_timesteps a; index := v;
     traces_dir := traces_dir a; episodes := episodes a;
     reward_threshold := reward_threshold a; states_spec := states_spec a;
     actions_spec := actions_spec a; terminal_buffers := terminal_buffers a;
     reward_buffers := reward_buffers a; states_buffers := states_buffers a;
     actions_buffers := actions_buffers a; record_states := record_states a;
     record_actions := record_actions a; record_terminal := record_terminal a;
     record_reward := record_reward a; agent := agent a; args := args a |}.

Definition set_episodes (v : nat) (a : ValidityPretrainAgent) :=
  {| env := env a; max_timesteps := max_timesteps a; index := index a;
     traces_dir := traces_dir a; episodes := v;
     reward_threshold := reward_threshold a; states_spec := states_spec a;
     actions_spec := actions_spec a; terminal_buffers := terminal_buffers a;
     reward_buffers := reward_buffers a; states_buffers := states_buffers a;
     actions_buffers := actions_buffers a; record_states := record_states a;
     record_actions := record_actions a; record_terminal := record_terminal a;
     record_reward := record_reward a; agent := agent a; args := args a |}.

Definition set_terminal_buffers v (a : ValidityPretrainAgent) :=
  {| env := env a; max_timesteps := max_timesteps a; index := index a;
     traces_dir := traces_dir a; episodes := episodes a;
     reward_threshold := reward_threshold a; states_spec := states_spec a;
     actions_spec := actions_spec a; terminal_buffers := v;
     reward_buffers := reward_buffers a; states_buffers := states_buffers a;
     actions_buffers := actions_buffers a; record_states := record_states a;
     record_actions := record_actions a; record_terminal := record_terminal a;
     record_reward := record_reward a; agent := agent a; args := args a |}.

Definition set_reward_buffers v (a : ValidityPretrainAgent) :=
  {| env := env a; max_timesteps := max_timesteps a; index := index a;
     traces_dir := traces_dir a; episodes := episodes a;
     reward_threshold := reward_threshold a; states_spec := states_spec a;
     actions_spec := actions_spec a; terminal_buffers := terminal_buffers a;
     reward_buffers := v; states_buffers := states_buffers a;
     actions_buffers := actions_buffers a; record_states := record_states a;
     record_actions := record_actions a; record_terminal := record_terminal a;
     record_reward := record_reward a; agent := agent a; args := args a |}.

Definition set_states_buffers v (a : ValidityPretrainAgent) :=
  {| env := env a; max_timesteps := max_timesteps a; index := index a;
     traces_dir := traces_dir a; episodes := episodes a;
     reward_threshold := reward_threshold a; states_spec := states_spec a;
     actions_spec := actions_spec a; terminal_buffers := terminal_buffers a;
     reward_buffers := reward_buffers a; states_buffers := v;
     actions_buffers := actions_buffers a; record_states := record_states a;
     record_actions := record_actions a; record_terminal := record_terminal a;
     record_reward := record_reward a; agent := agent a; args := args a |}.

Definition set_actions_buffers v (a : ValidityPretrainAgent) :=
  {| env := env a; max_timesteps := max_timesteps a; index := index a;
     traces_dir := traces_dir a; episodes := episodes a;
     reward_threshold := reward_threshold a; states_spec := states_spec a;
     actions_spec := actions_spec a; terminal_buffers := terminal_buffers a;
     reward_buffers := reward_buffers a; states_buffers := states_buffers a;
     actions_buffers := v; record_states := record_states a;
     record_actions := record_actions a; record_terminal := record_terminal a;
     record_reward := record_reward a; agent := agent a; args := args a |}.

Definition set_record_states v (a : ValidityPretrainAgent) :=
  {| env := env a; max_timesteps := max_timesteps a; index := index a;
     traces_dir := traces_dir a; episodes := episodes a;
     reward_threshold := reward_threshold a; states_spec := states_spec a;
     actions_spec := actions_spec a; terminal_buffers := terminal_buffers a;
     reward_buffers := reward_buffers a; states_buffers := states_buffers a;
     actions_buffers := actions_buffers a; record_states := v;
     record_actions := record_actions a; record_terminal := record_terminal a;
     record_reward := record_reward a; agent := agent a; args := args a |}.

Definition set_record_actions v (a : ValidityPretrainAgent) :=
  {| env := env a; max_timesteps := max_timesteps a; index := index a;
     traces_dir := traces_dir a; episodes := episodes a;
     reward_threshold := reward_threshold a; states_spec := states_spec a;
     actions_spec := actions_spec a; terminal_buffers := terminal_buffers a;
     reward_buffers := reward_buffers a; states_buffers := states_buffers a;
     actions_buffers := actions_buffers a; record_states := record_states a;
     record_actions := v; record_terminal := record_terminal a;
     record_reward := record_reward a; agent := agent a; args := args a |}.

Definition set_record_terminal v (a : ValidityPretrainAgent) :=
  {| env := env a; max_timesteps := max_timesteps a; index := index a;
     traces_dir := traces_dir a; episodes := episodes a;
     reward_threshold := reward_threshold a; states_spec := states_spec a;
     actions_spec := actions_spec a; terminal_buffers := terminal_buffers a;
     reward_buffers := reward_buffers a; states_buffers := states_buffers a;
     actions_buffers := actions_buffers a; record_states := record_states a;
     record_actions := record_actions a; record_terminal := v;
     record_reward := record_reward a; agent := agent a; args := args a |}.

Definition set_record_reward v (a : ValidityPretrainAgent) :=
  {| env := env a; max_timesteps := max_timesteps a; index := index a;
     traces_dir := traces_dir a; episodes := episodes a;
     reward_threshold := reward_threshold a; states_spec := states_spec a;
     actions_spec := actions_spec a; terminal_buffers := terminal_buffers a;
     reward_buffers := reward_buffers a; states_buffers := states_buffers a;
     actions_buffers := actions_buffers a; record_states := record_states a;
     record_actions := record_actions a; record_terminal := record_terminal a;
     record_reward := v; agent := agent a; args := args a |}.

Definition set_agent v (a : ValidityPretrainAgent) :=
  {| env := env a; max_timesteps := max_timesteps a; index := index a;
     traces_dir := traces_dir a; episodes := episodes a;
     reward_threshold := reward_threshold a; states_spec := states_spec a;
     actions_spec := actions_spec a; terminal_buffers := terminal_buffers a;
     reward_buffers := reward_buffers a; states_buffers := states_buffers a;
     actions_buffers := actions_buffers a; record_states := record_states a;
     record_actions := record_actions a; record_terminal := record_terminal a;
     record_reward := record_reward a; agent := v; args := args a |}.

(** ** The machine: the agent, the disk, the allocator and the clock *)

(** One array of an [.npz] archive. *)
Inductive npy :=
| Npy1 (x : list Q)
| NpyN (x : list cell).

Record Disk := {
  dirs : list string;
  files : list (string * list (string * npy));
}.

Record Machine := {
  self : ValidityPretrainAgent;
  disk : Disk;
  (** the scalars the next allocations will find in memory *)
  heap : nat -> Q;
  (** what [time.strftime('%Y%m%d-%H%M%S')] returns *)
  clock : string;
}.

Definition M (A : Type) := Machine -> result (A * Machine).

Definition ret {A} (x : A) : M A := fun m => Ok (x, m).

Definition bind {A B} (c : M A) (k : A -> M B) : M B :=
  fun m => match c m with
           | Raise e => Raise e
           | Ok (x, m') => k x m'
           end.

Definition raise {A} (e : exn) : M A := fun _ => Raise e.

Declare Scope py_scope.
Delimit Scope py_scope with py.
Notation "x <- c ;; k" := (bind c (fun x => k))
  (at level 20, c at level 99, k at level 200, only parsing) : py_scope.
Notation "c ;; k" := (bind c (fun _ => k))
  (at level 100, k at level 200, only parsing, right associativity) : py_scope.
Open Scope py_scope.

Definition lift {A} (r : result A) : M A :=
  fun m => match r with Ok x => Ok (x, m) | Raise e => Raise e end.

(** Reading an attribute, and using one that may still be [None]. *)
Definition attr {A} (f : ValidityPretrainAgent -> A) : M A :=
  fun m => Ok (f (self m), m).

Definition not_none {A} (e : exn) (f : ValidityPretrainAgent -> option A) : M A :=
  fun m => match f (self m) with Some x => Ok (x, m) | None => Raise e end.

Definition update (f : ValidityPretrainAgent -> ValidityPretrainAgent) : M unit :=
  fun m => Ok (tt, {| self := f (self m); disk := disk m; heap := heap m; clock := clock m |}).

(** [d[k]] *)
Definition subscript {V} (d : odict V) (k : string) : M V :=
  match dict_get k d with
  | Some v => ret v
  | None => raise KeyError
  end.

Fixpoint for_each {A} (xs : list A) (body : A -> M unit) : M unit :=
  match xs with
  | [] => ret tt
  | x :: xs' => body x ;; for_each xs' body
  end.

(** [np.ndarray(shape=(1, T) + shape)]: [T] cells of [numel shape] scalars,
    taken from the heap. *)
Definition chunks (f : nat -> Q) (T n : nat) : list cell :=
  map (fun t => map f (seq (t * n) n)) (seq 0 T).

Definition np_ndarray (T : nat) (shape : list nat) : M (ndarray cell) :=
  fun m =>
    let n := numel shape in
    Ok ([chunks (heap m) T n],
        {| self := self m; disk := disk m;
           heap := (fun k => heap m (T * n + k)%nat); clock := clock m |}).

(** [np.ndarray(shape=(1, T))] *)
Definition np_ndarray_flat (T : nat) : M (ndarray Q) :=
  fun m =>
    Ok ([map (heap m) (seq 0 T)],
        {| self := self m; disk := disk m;
           heap := (fun k => heap m (T + k)%nat); clock := clock m |}).

(** ** The operating system: [os], [time] and [np.savez_compressed] *)

Definition time_strftime : M string :=
  fun m => Ok (clock m, m).

Definition os_path_isdir (p : string) : M bool :=
  fun m => Ok (bool_decide (p ∈ dirs (disk m)), m).

Definition os_makedirs (p : string) : M unit :=
  fun m =>
    if bool_decide (p ∈ dirs (disk m)) || bool_decide (p ∈ (files (disk m)).*1)
    then Raise FileExistsError
    else Ok (tt, {| self := self m;
                    disk := {| dirs := p :: dirs (disk m); files := files (disk m) |};
                    heap := heap m; clock := clock m |}).

Fixpoint ends_with_sep (s : string) : bool :=
  match s with
  | EmptyString => false
  | String c EmptyString => Ascii.eqb c "/"%char
  | String _ s' => ends_with_sep s'
  end.

(** [os.path.join(a, b)] for a relative [b]. *)
Definition os_path_join (a b : string) : string :=
  if String.eqb a "" then b
  else if ends_with_sep a then a ++ b
  else a ++ "/" ++ b.

(** [np.savez_compressed(file, **kwds)]: a keyword given twice, or named
    like the positional parameter, is a [TypeError]; otherwise the archive
    replaces whatever was stored under that path. *)
Definition np_savez_compressed (file : string) (kwds : list (string * npy)) : M unit :=
  fun m =>
    if bool_decide (NoDup ("file" :: kwds.*1))
    then Ok (tt, {| self := self m;
                    disk := {| dirs := dirs (disk m);
                               files := dict_set file kwds (files (disk m)) |};
                    heap := heap m; clock := clock m |})
    else Raise TypeError.

(** ** Methods of [ValidityPretrainAgent] *)

Definition init_buffers : M unit :=
  T <- attr max_timesteps ;;
  tb <- np_ndarray_flat T ;;
  update (set_terminal_buffers (Some tb)) ;;
  rb <- np_ndarray_flat T ;;
  update (set_reward_buffers (Some rb)) ;;
  update (set_states_buffers (Some [])) ;;
  update (set_actions_buffers (Some [])) ;;
  sspec <- attr states_spec ;;
  for_each sspec (fun item =>
    buf <- np_ndarray T (shape item.2) ;;
    bufs <- not_none TypeError states_buffers ;;
    update (set_states_buffers (Some (dict_set item.1 buf bufs)))) ;;
  aspec <- attr actions_spec ;;
  for_each aspec (fun item =>
    buf <- np_ndarray T (shape item.2) ;;
    bufs <- not_none TypeError actions_buffers ;;
    update (set_actions_buffers (Some (dict_set item.1 buf bufs)))).

Definition empty_records {V A} (spec : odict V) : odict (record A) :=
  odict_of (map (fun name => (name, RList [])) (keys spec)).

Definition init_records : M unit :=
  sspec <- attr states_spec ;;
  update (set_record_states (Some (empty_records sspec))) ;;
  aspec <- attr actions_spec ;;
  update (set_record_actions (Some (empty_records aspec))) ;;
  update (set_record_terminal (Some (RList []))) ;;
  update (set_record_reward (Some (RList []))).

(** [reset]: the planner is rebuilt from [args]; its route is external. *)
Definition reset : M unit :=
  init_buffers ;;
  init_records ;;
  update (set_index 0) ;;
  a <- attr args ;;
  update (set_agent (Some a)).

(** [act(states)].  [policy_actions] is what
    [self.env.control_to_actions(self._run_step())] returned for this tick:
    planner and converter are external, their answer is an input. *)
Definition act (states : odict cell) (policy_actions : odict cell) : M (odict cell) :=
  not_none AttributeError agent ;;
  let actions := policy_actions in
  sspec <- attr states_spec ;;
  for_each (keys sspec) (fun name =>
    v <- subscript states name ;;
    bufs <- not_none TypeError states_buffers ;;
    buf <- subscript bufs name ;;
    i <- attr index ;;
    buf' <- lift (setitem buf 0 i v) ;;
    update (set_states_buffers (Some (dict_set name buf' bufs)))) ;;
  aspec <- attr actions_spec ;;
  for_each (keys aspec) (fun name =>
    v <- subscript actions name ;;
    bufs <- not_none TypeError actions_buffers ;;
    buf <- subscript bufs name ;;
    i <- attr index ;;
    buf' <- lift (setitem buf 0 i v) ;;
    update (set_actions_buffers (Some (dict_set name buf' bufs)))) ;;
  ret actions.

(** The test at the head of [write_trace]:
    [sum(self.record_reward) < self.reward_threshold * len(self.record_reward)]. *)
Definition below_threshold (record_reward : record Q) (reward_threshold : Q) : result bool :=
  match py_sum record_reward with
  | Raise e => Raise e
  | Ok s => lt_truth s (reward_threshold * inject_Z (Z.of_nat (py_len record_reward)))
  end.

Fixpoint fmap_concatenate {A} (xs : odict (record A)) : result (odict (record A)) :=
  match xs with
  | [] => Ok []
  | (name, x) :: xs' =>
      match concatenate x with
      | Raise e => Raise e
      | Ok y => match fmap_concatenate xs' with
                | Raise e => Raise e
                | Ok ys => Ok ((name, y) :: ys)
                end
      end
  end.

(** How a value of an accumulator is stored by [np.savez_compressed]. *)
Definition npy_of_cells (x : record cell) : npy :=
  match x with
  | RArray x => NpyN x
  | RList l => NpyN (concat l)
  end.

Definition npy_of_scalars (x : record Q) : npy :=
  match x with
  | RArray x => Npy1 x
  | RList l => Npy1 (concat l)
  end.

Definition trace_filename (episodes : nat) (stamp : string) : string :=
  "trace-" ++ pretty episodes ++ "-" ++ stamp ++ ".npz".

Definition write_trace : M unit :=
  index <- attr max_timesteps ;;
  rr <- not_none TypeError record_reward ;;
  threshold <- attr reward_threshold ;;
  rejected <- lift (below_threshold rr threshold) ;;
  if rejected : bool then
    time_strftime ;;
    ret tt
  else
    sspec <- attr states_spec ;;
    for_each (keys sspec) (fun name =>
      recs <- not_none TypeError record_states ;;
      rec <- subscript recs name ;;
      lift (getattr_append rec) ;;
      bufs <- not_none TypeError states_buffers ;;
      buf <- subscript bufs name ;;
      x <- lift (getslice buf 0 index) ;;
      rec' <- lift (append rec x) ;;
      update (set_record_states (Some (dict_set name rec' recs)))) ;;
    aspec <- attr actions_spec ;;
    for_each (keys aspec) (fun name =>
      recs <- not_none TypeError record_actions ;;
      rec <- subscript recs name ;;
      lift (getattr_append rec) ;;
      bufs <- not_none TypeError actions_buffers ;;
      buf <- subscript bufs name ;;
      x <- lift (getslice buf 0 index) ;;
      rec' <- lift (append rec x) ;;
      update (set_record_actions (Some (dict_set name rec' recs)))) ;;
    rt <- not_none AttributeError record_terminal ;;
    lift (getattr_append rt) ;;
    tb <- not_none TypeError terminal_buffers ;;
    x <- lift (getslice tb 0 index) ;;
    rt' <- lift (append rt x) ;;
    update (set_record_terminal (Some rt')) ;;
    rr <- not_none AttributeError record_reward ;;
    lift (getattr_append rr) ;;
    rb <- not_none TypeError reward_buffers ;;
    x <- lift (getslice rb 0 index) ;;
    rr' <- lift (append rr x) ;;
    update (set_record_reward (Some rr')) ;;
    dir <- not_none TypeError traces_dir ;;
    isdir <- os_path_isdir dir ;;
    (if isdir : bool then ret tt else os_makedirs dir) ;;
    episodes <- attr episodes ;;
    stamp <- time_strftime ;;
    let filename := os_path_join dir (trace_filename episodes stamp) in
    rs <- not_none TypeError record_states ;;
    rs' <- lift (fmap_concatenate rs) ;;
    update (set_record_states (Some rs')) ;;
    ra <- not_none TypeError record_actions ;;
    ra' <- lift (fmap_concatenate ra) ;;
    update (set_record_actions (Some ra')) ;;
    rt <- not_none TypeError record_terminal ;;
    rt' <- lift (concatenate rt) ;;
    update (set_record_terminal (Some rt')) ;;
    rr <- not_none TypeError record_reward ;;
    rr' <- lift (concatenate rr) ;;
    update (set_record_reward (Some rr')) ;;
    np_savez_compressed filename
      (map (fun kv => (kv.1, npy_of_cells kv.2)) rs'
       ++ map (fun kv => (kv.1, npy_of_cells kv.2)) ra'
       ++ [("terminal", npy_of_scalars rt'); ("reward", npy_of_scalars rr')]).

(** The inner loop of [_compute_action_validity] for one start [i]:
    [js] is what is left of [range(i, len(control_buffer) - 1)]; the result
    is [validity] when the loop ends or breaks. *)
Fixpoint scan_forward (control_buffer : ndarray cell) (i : nat) (js : list nat)
    (validity : nat) (rewards : list Q) : M nat :=
  match js with
  | [] => ret validity
  | j :: js' =>
      x <- lift (getitem control_buffer 0 j) ;;
      y <- lift (getitem control_buffer 0 (j + 1)) ;;
      same <- lift (cell_eq_truth x y) ;;
      if same : bool then
        rb <- not_none TypeError reward_buffers ;;
        r <- lift (getitem rb 0 j) ;;
        scan_forward control_buffer i js' (validity + 1) (rewards ++ [r])
      else
        e <- attr env ;;
        rb <- not_none TypeError reward_buffers ;;
        rb' <- lift (setslice rb 0 i j (aggregate_reward e rewards 150 (-2000))) ;;
        update (set_reward_buffers (Some rb')) ;;
        ret validity
  end.

(** [control_buffer] is bound once to the array under ['control']; that array
    is not written by the loops, so passing its value is the same as sharing
    it. *)
Definition _compute_action_validity : M unit :=
  bufs <- not_none TypeError actions_buffers ;;
  control_buffer <- subscript bufs "control" ;;
  for_each (seq 0 (len control_buffer)) (fun i =>
    validity <- scan_forward control_buffer i
                  (seq i (len control_buffer - 1 - i)) 1 [] ;;
    bufs <- not_none TypeError actions_buffers ;;
    vb <- subscript bufs "validity" ;;
    vb' <- lift (setitem_scalar vb 0 i (inject_Z (Z.of_nat validity))) ;;
    update (set_actions_buffers (Some (dict_set "validity" vb' bufs)))).

Definition observe (reward : Q) (terminal : bool) : M unit :=
  rb <- not_none TypeError reward_buffers ;;
  i <- attr index ;;
  rb' <- lift (setitem rb 0 i reward) ;;
  update (set_reward_buffers (Some rb')) ;;
  tb <- not_none TypeError terminal_buffers ;;
  i <- attr index ;;
  tb' <- lift (setitem tb 0 i (if terminal then 1%Q else 0%Q)) ;;
  update (set_terminal_buffers (Some tb')) ;;
  update (fun a => set_index (index a + 1) a) ;;
  if terminal then
    update (fun a => set_episodes (episodes a + 1) a) ;;
    _compute_action_validity ;;
    write_trace
  else ret tt.

(** ** The control loop

    The environment drives the agent: its RESET event calls [reset], and each
    tick calls [act] and then [observe]. *)

Inductive call :=
| Reset
| Act (states policy_actions : odict cell)
| Observe (reward : Q) (terminal : bool).

Definition step (c : call) : M unit :=
  match c with
  | Reset => reset
  | Act s a => act s a ;; ret tt
  | Observe r t => observe r t
  end.

Definition run (cs : list call) : M unit := for_each cs step.

(** A call that is not an [observe] with [terminal=True]. *)
Definition not_terminal (c : call) : Prop :=
  match c with
  | Observe _ true => False
  | _ => True
  end.

(** The machine a computation leaves behind (the start machine if it
    raised). *)
Definition after {A} (c : M A) (m : Machine) : Machine :=
  match c m with
  | Ok (_, m') => m'
  | Raise _ => m
  end.

(** ** Concrete episodes *)

(** The aggregation of the scenarios: the sum, clamped to [r_min, r_max]. *)
Definition clamp_sum (rewards : list Q) (r_max r_min : Q) : Q :=
  Qmin r_max (Qmax r_min (Qsum rewards)).

Definition env_T (T : nat) : MyCARLAEnvironment :=
  {| max_episode_timesteps := T;
     states := [("speed", {| type := "float"; shape := [] |})];
     actions := [("control", {| type := "float"; shape := [] |});
                 ("validity", {| type := "int"; shape := [] |})];
     aggregate_reward := clamp_sum |}.

(** A machine holding a newly constructed agent, an empty disk and memory
    full of the scalar [garbage]. *)
Definition boot (T : nat) (reward_threshold garbage : Q) : Machine :=
  {| self := __init__ (env_T T) (Some "data/traces") true "cautious" reward_threshold;
     disk := {| dirs := []; files := [] |};
     heap := fun _ => garbage;
     clock := "20200101-000000" |}.

(** One tick: the policy answers [control], the environment then reports
    [reward] and [terminal]. *)
Definition tick (control reward : Q) (terminal : bool) : list call :=
  [Act [("speed", [0%Q])] [("control", [control]); ("validity", [0%Q])];
   Observe reward terminal].

(** [T = 5], [control = [1,1,1,2,2]], [rewards = [1,2,3,4,5]]. *)
Definition episode_A : list call :=
  Reset :: tick 1 1 false ++ tick 1 2 false ++ tick 1 3 false
        ++ tick 2 4 false ++ tick 2 5 true.

(** Four steps of reward 3. *)
Definition episode_B : list call :=
  Reset :: tick 1 3 false ++ tick 2 3 false ++ tick 1 3 false ++ tick 2 3 true.

(** Two steps, the second one terminal. *)
Definition episode_short : list call :=
  Reset :: tick 1 20 false ++ tick 2 30 true.

(** Two steps and no terminal. *)
Definition episode_abandoned : list call :=
  Reset :: tick 1 1 false ++ tick 1 2 false.

(** Three recorded steps of one and the same control, the third not yet
    observed as terminal. *)
Definition episode_constant : list call :=
  Reset :: tick 1 1 false ++ tick 1 2 false ++ tick 1 3 false.

(** ** Specification functions

    A loop [for name in names: d[name] = f(name, d[name])] over one
    dictionary attribute, as a function of the dictionary. *)

Fixpoint modify_each {V} (f : string -> V -> result V) (names : list string)
    (d : odict V) : result (odict V) :=
  match names with
  | [] => Ok d
  | name :: names' =>
      match dict_get name d with
      | None => Raise KeyError
      | Some x => match f name x with
                  | Raise e => Raise e
                  | Ok x' => modify_each f names' (dict_set name x' d)
                  end
      end
  end.

Definition with_self (a : ValidityPretrainAgent) (m : Machine) : Machine :=
  {| self := a; disk := disk m; heap := heap m; clock := clock m |}.

(** What one iteration of the recording loops of [act] does to the buffer
    of [name]: [buffer[0, i] = values[name]]. *)
Definition record_at (values : odict cell) (i : nat) (name : string)
    (buf : ndarray cell) : result (ndarray cell) :=
  match dict_get name values with
  | None => Raise KeyError
  | Some v => setitem buf 0 i v
  end.

(** The entry of [name] in a dictionary attribute that may be [None]. *)
Definition component {V} (o : option (odict V)) (name : string) : option V :=
  match o with
  | Some d => dict_get name d
  | None => None
  end.

(** [x] has shape [(1, T, ...)]. *)
Definition one_row {A} (T : nat) (x : ndarray A) : Prop :=
  match x with
  | [row] => length row = T
  | _ => False
  end.

Definition one_row_opt {A} (T : nat) (o : option (ndarray A)) : Prop :=
  match o with
  | Some x => one_row T x
  | None => False
  end.

(** The agent between [reset] and the end of the episode: the planner
    exists and every buffer has its allocated shape. *)
Definition recording (m : Machine) : Prop :=
  let a := self m in
  is_Some (agent a)
  /\ NoDup (keys (states_spec a))
  /\ NoDup (keys (actions_spec a))
  /\ one_row_opt (max_timesteps a) (reward_buffers a)
  /\ one_row_opt (max_timesteps a) (terminal_buffers a)
  /\ is_Some (states_buffers a)
  /\ is_Some (actions_buffers a)
  /\ Forall (fun name => one_row_opt (max_timesteps a)
                          (component (states_buffers a) name))
            (keys (states_spec a))
  /\ Forall (fun name => one_row_opt (max_timesteps a)
                          (component (actions_buffers a) name))
            (keys (actions_spec a)).

(** The allocation loops of [init_buffers], as a function of the dictionary
    being filled and of the memory still to hand out. *)
Fixpoint alloc_each (T : nat) (spec : odict Spec) (h : nat -> Q)
    (d : odict (ndarray cell)) : odict (ndarray cell) * (nat -> Q) :=
  match spec with
  | [] => (d, h)
  | (name, sp) :: spec' =>
      alloc_each T spec' (fun k => h (T * numel (shape sp) + k)%nat)
        (dict_set name [chunks h T (numel (shape sp))] d)
  end.

(** The agent and the memory that [init_buffers] leaves. *)
Definition allocated (a : ValidityPretrainAgent) (h : nat -> Q)
    : ValidityPretrainAgent * (nat -> Q) :=
  let T := max_timesteps a in
  let h1 := fun k => h (T + k)%nat in
  let h2 := fun k => h1 (T + k)%nat in
  let s := alloc_each T (states_spec a) h2 [] in
  let c := alloc_each T (actions_spec a) s.2 [] in
  (set_actions_buffers (Some c.1)
     (set_states_buffers (Some s.1)
        (set_reward_buffers (Some [map h1 (seq 0 T)])
           (set_terminal_buffers (Some [map h (seq 0 T)]) a))),
   c.2).

(** The agent that [reset] leaves, given the one [init_buffers] left. *)
Definition cleared (a : ValidityPretrainAgent) : ValidityPretrainAgent :=
  set_agent (Some (args a))
    (set_index 0
       (set_record_reward (Some (RList []))
          (set_record_terminal (Some (RList []))
             (set_record_actions (Some (empty_records (actions_spec a)))
                (set_record_states (Some (empty_records (states_spec a))) a))))).

(** A computation that leaves directories and files as they are. *)
Definition preserves_disk {A} (c : M A) : Prop :=
  forall m x m', c m = Ok (x, m') -> disk m' = disk m.

(** Every scalar of the flat buffer, and of each cell of a named buffer,
    satisfies [P]. *)
Definition flat_all (P : Q -> Prop) (T : nat) (o : option (ndarray Q)) : Prop :=
  exists row, o = Some [row] /\ length row = T /\ Forall P row.

Definition cells_all (P : Q -> Prop) (T : nat) (shape : list nat)
    (o : option (ndarray cell)) : Prop :=
  exists row, o = Some [row] /\ length row = T
    /\ Forall (fun c => length c = numel shape /\ Forall P c) row.

(** The agent with its configuration and episode counter, and nothing
    recorded. *)
Definition unset (a : ValidityPretrainAgent) : ValidityPretrainAgent :=
  {| env := env a; max_timesteps := max_timesteps a; index := 0;
     traces_dir := traces_dir a; episodes := episodes a;
     reward_threshold := reward_threshold a; states_spec := states_spec a;
     actions_spec := actions_spec a; terminal_buffers := None;
     reward_buffers := None; states_buffers := None;
     actions_buffers := None; record_states := None;
     record_actions := None; record_terminal := None;
     record_reward := None; agent := None; args := args a |}.

(** What one iteration of the appending loops of [write_trace] does to the
    accumulator of [name]: [rec.append(np.array(buffers[name][0, :n]))]. *)
Definition append_slice {A} (buffers : option (odict (ndarray A))) (n : nat)
    (name : string) (rec : record A) : result (record A) :=
  match getattr_append rec with
  | Raise e => Raise e
  | Ok _ =>
      match buffers with
      | None => Raise TypeError
      | Some bufs =>
          match dict_get name bufs with
          | None => Raise KeyError
          | Some buf =>
              match getslice buf 0 n with
              | Raise e => Raise e
              | Ok x => append rec x
              end
          end
      end
  end.

Definition is_list {A} (rec : record A) : Prop :=
  match rec with
  | RList _ => True
  | RArray _ => False
  end.

(** Every accumulator is still a Python list, and the named ones are those
    of the specifications. *)
Definition accumulating (m : Machine) : Prop :=
  let a := self m in
  (exists rs, record_states a = Some rs
     /\ keys rs = keys (states_spec a) /\ Forall (fun kv => is_list kv.2) rs)
  /\ (exists ra, record_actions a = Some ra
        /\ keys ra = keys (actions_spec a) /\ Forall (fun kv => is_list kv.2) ra)
  /\ (exists l, record_terminal a = Some (RList l))
  /\ (exists l, record_reward a = Some (RList l)).

(** The test at the head of [write_trace] does not reject. *)
Definition accepted (m : Machine) : Prop :=
  exists rr, record_reward (self m) = Some rr
    /\ below_threshold rr (reward_threshold (self m)) = Ok false.

(** The archive can be stored: a directory is configured, no file sits
    where the directory would be created, and the names of the components
    can be passed as keywords. *)
Definition storable (m : Machine) : Prop :=
  (exists dir, traces_dir (self m) = Some dir
     /\ (dir ∈ dirs (disk m) \/ dir ∉ (files (disk m)).*1))
  /\ NoDup ("file" :: keys (states_spec (self m))
                   ++ keys (actions_spec (self m)) ++ ["terminal"; "reward"])%list.

(** The archive [write_trace] stores, from the four accumulators. *)
Definition archive (rs ra : odict (record cell)) (rt rr : record Q)
    : list (string * npy) :=
  (map (fun kv => (kv.1, npy_of_cells kv.2)) rs
   ++ map (fun kv => (kv.1, npy_of_cells kv.2)) ra
   ++ [("terminal", npy_of_scalars rt); ("reward", npy_of_scalars rr)])%list.

(** The statements of [write_trace] from [# init directory] on: make the
    directory, name the file, concatenate the accumulators, store the
    archive. *)
Definition store_records : M unit :=
  dir <- not_none TypeError traces_dir ;;
  isdir <- os_path_isdir dir ;;
  (if isdir : bool then ret tt else os_makedirs dir) ;;
  episodes <- attr episodes ;;
  stamp <- time_strftime ;;
  let filename := os_path_join dir (trace_filename episodes stamp) in
  rs <- not_none TypeError record_states ;;
  rs' <- lift (fmap_concatenate rs) ;;
  update (set_record_states (Some rs')) ;;
  ra <- not_none TypeError record_actions ;;
  ra' <- lift (fmap_concatenate ra) ;;
  update (set_record_actions (Some ra')) ;;
  rt <- not_none TypeError record_terminal ;;
  rt' <- lift (concatenate rt) ;;
  update (set_record_terminal (Some rt')) ;;
  rr <- not_none TypeError record_reward ;;
  rr' <- lift (concatenate rr) ;;
  update (set_record_reward (Some rr')) ;;
  np_savez_compressed filename
    (map (fun kv => (kv.1, npy_of_cells kv.2)) rs'
     ++ map (fun kv => (kv.1, npy_of_cells kv.2)) ra'
     ++ [("terminal", npy_of_scalars rt'); ("reward", npy_of_scalars rr')]).

(** All four accumulators have been replaced by arrays, as a completed
    [write_trace] leaves them. *)
Definition is_array {A} (rec : record A) : Prop :=
  match rec with
  | RList _ => False
  | RArray _ => True
  end.

Definition archived (m : Machine) : Prop :=
  let a := self m in
  (exists rs, record_states a = Some rs
     /\ Forall (fun name => exists x, dict_get name rs = Some (RArray x))
               (keys (states_spec a)))
  /\ (exists ra, record_actions a = Some ra
        /\ Forall (fun name => exists x, dict_get name ra = Some (RArray x))
                  (keys (actions_spec a)))
  /\ (exists x, record_terminal a = Some (RArray x))
  /\ (exists x, record_reward a = Some (RArray x)).

(** A machine holding a newly constructed agent for the environment [e]. *)
Definition boot_env (e : MyCARLAEnvironment) (traces_dir : option string)
    (reward_threshold garbage : Q) : Machine :=
  {| self := __init__ e traces_dir true "cautious" reward_threshold;
     disk := {| dirs := []; files := [] |};
     heap := fun _ => garbage;
     clock := "20200101-000000" |}.

(** An environment one of whose states is called like the keyword
    [reward] of the archive. *)
Definition env_clash : MyCARLAEnvironment :=
  {| max_episode_timesteps := 2;
     states := [("reward", {| type := "float"; shape := [] |})];
     actions := [("control", {| type := "float"; shape := [] |});
                 ("validity", {| type := "int"; shape := [] |})];
     aggregate_reward := clamp_sum |}.

(** An environment whose actions have no [control] and no [validity]. *)
Definition env_plain : MyCARLAEnvironment :=
  {| max_episode_timesteps := 2;
     states := [("speed", {| type := "float"; shape := [] |})];
     actions := [("steer", {| type := "float"; shape := [] |})];
     aggregate_reward := clamp_sum |}.

(** The agent can record an episode to its end: it is recording into empty
    accumulators, the archive can be stored, and the actions have the two
    components the validity analysis reads and writes. *)
Definition ready (m : Machine) : Prop :=
  recording m /\ accumulating m /\ accepted m /\ storable m
  /\ "control" ∈ keys (actions_spec (self m))
  /\ "validity" ∈ keys (actions_spec (self m)).

(** The calls of a run of non-terminal ticks, each given by the states, the
    policy's actions and the reward. *)
Definition play (ticks : list (odict cell * odict cell * Q)) : list call :=
  flat_map (fun t => [Act t.1.1 t.1.2; Observe t.2 false]) ticks.

(** What the constructor fixes: the environment, the capacity, the
    directory, the threshold, the specifications and the planner's
    arguments. *)
Definition configuration (a : ValidityPretrainAgent) :=
  (env a, max_timesteps a, traces_dir a, reward_threshold a,
   states_spec a, actions_spec a, args a).

(** A computation that, when it returns, leaves [g] of the agent as it
    was. *)
Definition keeps {B A} (g : ValidityPretrainAgent -> B) (c : M A) : Prop :=
  forall m x m', c m = Ok (x, m') -> g (self m') = g (self m).

(** The cursor after a sequence of calls that started at [i], and the number
    of terminal observations in it. *)
Fixpoint cursor_after (cs : list call) (i : nat) : nat :=
  match cs with
  | [] => i
  | Reset :: cs' => cursor_after cs' 0
  | Act _ _ :: cs' => cursor_after cs' i
  | Observe _ _ :: cs' => cursor_after cs' (i + 1)
  end.

Fixpoint terminals (cs : list call) : nat :=
  match cs with
  | [] => 0
  | Observe _ true :: cs' => S (terminals cs')
  | _ :: cs' => terminals cs'
  end.

(** ** [ValidityPretrainAgentNoSkill]

    The subclass overrides [act], whose converter returns the actions alone,
    and [observe], which skips the validity analysis. *)

Module ValidityPretrainAgentNoSkill.

Definition act (states : odict cell) (policy_actions : odict cell) : M (odict cell) :=
  not_none AttributeError agent ;;
  let actions := policy_actions in
  sspec <- attr states_spec ;;
  for_each (keys sspec) (fun name =>
    v <- subscript states name ;;
    bufs <- not_none TypeError states_buffers ;;
    buf <- subscript bufs name ;;
    i <- attr index ;;
    buf' <- lift (setitem buf 0 i v) ;;
    update (set_states_buffers (Some (dict_set name buf' bufs)))) ;;
  aspec <- attr actions_spec ;;
  for_each (keys aspec) (fun name =>
    v <- subscript actions name ;;
    bufs <- not_none TypeError actions_buffers ;;
    buf <- subscript bufs name ;;
    i <- attr index ;;
    buf' <- lift (setitem buf 0 i v) ;;
    update (set_actions_buffers (Some (dict_set name buf' bufs)))) ;;
  ret actions.

Definition observe (reward : Q) (terminal : bool) : M unit :=
  rb <- not_none TypeError reward_buffers ;;
  i <- attr index ;;
  rb' <- lift (setitem rb 0 i reward) ;;
  update (set_reward_buffers (Some rb')) ;;
  tb <- not_none TypeError terminal_buffers ;;
  i <- attr index ;;
  tb' <- lift (setitem tb 0 i (if terminal then 1%Q else 0%Q)) ;;
  update (set_terminal_buffers (Some tb')) ;;
  update (fun a => set_index (index a + 1) a) ;;
  if terminal then
    update (fun a => set_episodes (episodes a + 1) a) ;;
    write_trace
  else ret tt.

End ValidityPretrainAgentNoSkill.

(** ** [KeyboardAgent]

    A human drives with the keyboard.  What pygame and the simulator report
    during one [act] is an input: the queued events, the modifier keys, the
    keys held down and the milliseconds of the last frame.  Floats are
    rationals, as for the buffers. *)

Module Keyboard.

Inductive key :=
  | K_q | K_UP | K_w | K_LEFT | K_a | K_RIGHT | K_d | K_DOWN | K_s | K_SPACE
  | K_ESCAPE
  | K_other (code : nat).

#[global] Instance key_eq_dec : EqDecision key.
Proof. solve_decision. Defined.

(** [KMOD_LCTRL | KMOD_RCTRL]. *)
Definition KMOD_CTRL : Z := 192.

(** An event of [pygame.event.get()], by its [type]. *)
Inductive event :=
  | QUIT
  | KEYUP (key : key)
  | other_event.

Record Pygame := {
  event_get : list event;          (* pygame.event.get() *)
  key_get_mods : Z;                (* pygame.key.get_mods() *)
  key_get_pressed : key -> bool;   (* pygame.key.get_pressed() *)
  clock_get_time : Z               (* self.env.clock.get_time() *)
}.

(** The two fields of [carla.VehicleControl] the agent uses. *)
Record VehicleControl := {
  reverse : bool;
  gear : Z
}.

(** [carla.VehicleControl()]. *)
Definition VehicleControl_default : VehicleControl :=
  {| reverse := false; gear := 0%Z |}.

(** [env], [mode] and [fps] are set by [__init__] and never assigned again;
    of [env] only the clock is read. *)
Record KeyboardAgent := {
  control : VehicleControl;
  _steer_cache : Q
}.

Definition __init__ : KeyboardAgent :=
  {| control := VehicleControl_default; _steer_cache := 0%Q |}.

Definition reset (self : KeyboardAgent) : KeyboardAgent :=
  {| control := VehicleControl_default; _steer_cache := 0%Q |}.

(** [close] raises [Exception('closing...')]: [None]. *)
Definition close {A} : option A := None.

(** [(key == K_ESCAPE) or (key == K_q and pygame.key.get_mods() & KMOD_CTRL)],
    as its truth value. *)
Definition _is_quit_shortcut (mods : Z) (k : key) : bool :=
  bool_decide (k = K_ESCAPE)
  || (bool_decide (k = K_q) && negb (Z.land mods KMOD_CTRL =? 0)%Z).

(** Python's [round] to one decimal: to the nearest tenth, a tie to the even
    one. *)
Definition round_half_even (x : Q) : Z :=
  let f := Qfloor x in
  match Qcompare (x - inject_Z f)%Q (1 # 2)%Q with
  | Lt => f
  | Gt => (f + 1)%Z
  | Eq => if Z.even f then f else (f + 1)%Z
  end.

Definition round1 (x : Q) : Q := (inject_Z (round_half_even (x * 10)) / 10)%Q.

(** The returned list [[throttle, steer, brake, reverse, hand_brake]]. *)
Definition actions : Type := (Q * Q * Q * Q * bool)%type.

Definition steer_of (a : actions) : Q := a.1.1.1.2.
Definition reverse_of (a : actions) : Q := a.1.2.

Definition _parse_vehicle_keys (io : Pygame) (self : KeyboardAgent)
    : actions * KeyboardAgent :=
  let keys := key_get_pressed io in
  let steer_increment := ((5 # 10000) * inject_Z (clock_get_time io))%Q in
  let cache :=
    (if keys K_LEFT || keys K_a then
       if Qltb 0 (_steer_cache self) then 0
       else _steer_cache self - steer_increment
     else if keys K_RIGHT || keys K_d then
       if Qltb (_steer_cache self) 0 then 0
       else _steer_cache self + steer_increment
     else 0)%Q in
  let cache := Qmin 1 (Qmax (-1) cache) in
  let control := {| reverse := (gear (control self) <? 0)%Z;
                    gear := gear (control self) |} in
  let throttle := (if keys K_UP || keys K_w then 1 else 0)%Q in
  let steer := round1 cache in
  let brake := (if keys K_DOWN || keys K_s then 1 else 0)%Q in
  let reverse := (if reverse control then 1 else 0)%Q in
  let hand_brake := keys K_SPACE in
  ((throttle, steer, brake, reverse, hand_brake),
   {| control := control; _steer_cache := cache |}).

(** The loop of [_parse_events] over the queued events. *)
Fixpoint handle_events (mods : Z) (events : list event) (self : KeyboardAgent)
    : option KeyboardAgent :=
  match events with
  | [] => Some self
  | QUIT :: _ => close
  | KEYUP k :: events' =>
      if _is_quit_shortcut mods k then close
      else if bool_decide (k = K_q) then
        handle_events mods events'
          {| control := {| reverse := reverse (control self);
                           gear := (if reverse (control self) then 1 else (-1))%Z |};
             _steer_cache := _steer_cache self |}
      else handle_events mods events' self
  | other_event :: events' => handle_events mods events' self
  end.

Definition _parse_events (io : Pygame) (self : KeyboardAgent)
    : option (actions * KeyboardAgent) :=
  match handle_events (key_get_mods io) (event_get io) self with
  | Some self' => Some (_parse_vehicle_keys io self')
  | None => None
  end.

Definition act (io : Pygame) (self : KeyboardAgent)
    : option (actions * KeyboardAgent) :=
  _parse_events io self.

Definition observe (reward : Q) (terminal : bool) (self : KeyboardAgent) : bool :=
  false.

(** The agent after a sequence of frames, one [act] per frame. *)
Fixpoint drive (frames : list Pygame) (self : KeyboardAgent) : option KeyboardAgent :=
  match frames with
  | [] => Some self
  | io :: frames' =>
      match act io self with
      | Some (_, self') => drive frames' self'
      | None => None
      end
  end.

(** An event that closes the agent. *)
Definition closes (mods : Z) (ev : event) : bool :=
  match ev with
  | QUIT => true
  | KEYUP k => _is_quit_shortcut mods k
  | other_event => false
  end.

(** A frame in which the key [q] was released. *)
Definition q_released (io : Pygame) : bool :=
  existsb (fun ev => match ev with
                     | KEYUP k => bool_decide (k = K_q)
                     | _ => false
                     end) (event_get io).

(** The number of frames in which [q] was released. *)
Fixpoint q_releases (frames : list Pygame) : nat :=
  match frames with
  | [] => 0
  | io :: frames' => (if q_released io then 1 else 0) + q_releases frames'
  end.

(** A frame, from its events, its modifiers, the keys held and its length in
    milliseconds. *)
Definition frame (events : list event) (mods : Z) (held : list key) (ms : Z)
    : Pygame :=
  {| event_get := events;
     key_get_mods := mods;
     key_get_pressed := fun k => bool_decide (k ∈ held);
     clock_get_time := ms |}.

End Keyboard.

(** * Properties *)

(** Unfolding the plumbing of the monad. *)
Ltac mred :=
  repeat (progress (unfold bind, ret, raise, lift, attr, not_none, update, subscript;
                    cbv beta iota)).

(** ** Ordered dictionaries *)

Lemma dict_get_set_eq {V} (k : string) (v : V) (d : odict V) :
  dict_get k (dict_set k v d) = Some v.
Proof.
  induction d as [|[k' v'] d IH]; simpl.
  - by rewrite String.eqb_refl.
  - destruct (String.eqb k k') eqn:E; simpl.
    + by rewrite String.eqb_refl.
    + by rewrite E.
Qed.

Lemma dict_get_set_ne {V} (k k' : string) (v : V) (d : odict V) :
  k ≠ k' -> dict_get k' (dict_set k v d) = dict_get k' d.
Proof.
  intros Hne. induction d as [|[k0 v0] d IH]; simpl.
  - destruct (String.eqb k' k) eqn:E; [|done].
    apply String.eqb_eq in E. congruence.
  - destruct (String.eqb k k0) eqn:E; simpl.
    + apply String.eqb_eq in E. subst k0.
      destruct (String.eqb k' k) eqn:E'; [|done].
      apply String.eqb_eq in E'. congruence.
    + by rewrite IH.
Qed.

Lemma keys_dict_set {V} (k : string) (v : V) (d : odict V) :
  is_Some (dict_get k d) -> keys (dict_set k v d) = keys d.
Proof.
  unfold keys. induction d as [|[k0 v0] d IH]; simpl.
  - by intros [? ?].
  - destruct (String.eqb k k0) eqn:E; simpl.
    + apply String.eqb_eq in E. by subst.
    + intros H. cbn. f_equal. by apply IH.
Qed.

Lemma dict_get_is_Some {V} (k : string) (d : odict V) :
  is_Some (dict_get k d) <-> k ∈ keys d.
Proof.
  unfold keys. induction d as [|[k0 v0] d IH]; simpl.
  - split; [by intros [? ?] | by intros ?%elem_of_nil].
  - destruct (String.eqb k k0) eqn:E.
    + apply String.eqb_eq in E. subst. split; [intros _; left | eauto].
    + apply String.eqb_neq in E. rewrite IH. split; [by right|].
      intros [?|?]%elem_of_cons; [done|done].
Qed.

Lemma dict_get_elem_of {V} (k : string) (v : V) (d : odict V) :
  NoDup (keys d) -> (k, v) ∈ d -> dict_get k d = Some v.
Proof.
  unfold keys. induction d as [|[k0 v0] d IH]; simpl.
  - by intros _ ?%elem_of_nil.
  - intros [Hnin Hnd]%NoDup_cons [Heq|Hin]%elem_of_cons.
    + inversion Heq; subst. by rewrite String.eqb_refl.
    + destruct (String.eqb k k0) eqn:E; [|by apply IH].
      apply String.eqb_eq in E. subst. exfalso. apply Hnin.
      apply list_elem_of_fmap. by exists (k0, v).
Qed.

(** ** The validity analysis *)

(** [len(control_buffer)] is the size of the batch axis: the outer loop runs
    for [i = 0] only, its inner range is empty, and the analysis comes down to
    writing [1] at [validity[0, 0]]. *)
Lemma compute_action_validity_run (m : Machine) bufs crow vrow old :
  actions_buffers (self m) = Some bufs ->
  dict_get "control" bufs = Some [crow] ->
  dict_get "validity" bufs = Some [vrow] ->
  vrow !! 0%nat = Some old ->
  _compute_action_validity m =
    Ok (tt, {| self := set_actions_buffers
                         (Some (dict_set "validity"
                                  [<[0%nat := map (fun _ => 1%Q) old]> vrow] bufs))
                         (self m);
               disk := disk m; heap := heap m; clock := clock m |}).
Proof.
  intros Hb Hc Hv Ho.
  unfold _compute_action_validity. mred. rewrite Hb, Hc.
  cbn [len length seq for_each Nat.sub scan_forward]. mred. rewrite Hb, Hv.
  destruct vrow as [|c vrow]; [done|]. injection Ho as ->.
  unfold setitem_scalar, getitem, setitem. reflexivity.
Qed.

(** ** Loops over the names of a specification *)

Lemma modify_each_ok {V} (f : string -> V -> result V) (names : list string) :
  NoDup names ->
  forall d : odict V,
  (forall n, n ∈ names -> exists x x', dict_get n d = Some x /\ f n x = Ok x') ->
  exists d', modify_each f names d = Ok d'
    /\ keys d' = keys d
    /\ (forall n x, n ∈ names -> dict_get n d = Some x ->
          exists x', f n x = Ok x' /\ dict_get n d' = Some x')
    /\ (forall n, n ∉ names -> dict_get n d' = dict_get n d).
Proof.
  induction 1 as [|name names Hnin Hnd IH]; intros d Hall.
  - exists d. simpl. split; [done|]. split; [done|]. split; [|done].
    by intros n x ?%elem_of_nil.
  - destruct (Hall name) as (x & x' & Hx & Hf); [left|].
    simpl. rewrite Hx, Hf.
    destruct (IH (dict_set name x' d)) as (d' & Hrun & Hkeys & Hin & Hout).
    { intros n Hn. assert (name <> n) by (intros ->; done).
      rewrite dict_get_set_ne by done. apply Hall. by right. }
    exists d'. split; [done|]. split.
    { rewrite Hkeys. apply keys_dict_set. by rewrite Hx. }
    split.
    + intros n y [->|Hn]%elem_of_cons Hy.
      * assert (y = x) as -> by congruence.
        exists x'. split; [done|]. rewrite (Hout _ Hnin). apply dict_get_set_eq.
      * assert (name <> n) by (intros ->; done).
        apply Hin; [done|]. by rewrite dict_get_set_ne.
    + intros n Hn. apply not_elem_of_cons in Hn as [Hne Hn].
      rewrite (Hout _ Hn). by apply dict_get_set_ne.
Qed.

Section for_each_modify.
Context {V : Type}.
Variable get : ValidityPretrainAgent -> option (odict V).
Variable set : option (odict V) -> ValidityPretrainAgent -> ValidityPretrainAgent.
Variable f : ValidityPretrainAgent -> string -> V -> result V.
Variable body : string -> M unit.

Hypothesis get_set : forall v a, get (set v a) = v.
Hypothesis set_set : forall v w a, set v (set w a) = set v a.
Hypothesis set_get : forall a, set (get a) a = a.
Hypothesis f_set : forall v a, f (set v a) = f a.
Hypothesis body_spec : forall name m d,
  get (self m) = Some d ->
  body name m =
    match dict_get name d with
    | None => Raise KeyError
    | Some x =>
        match f (self m) name x with
        | Raise e => Raise e
        | Ok x' => Ok (tt, with_self (set (Some (dict_set name x' d)) (self m)) m)
        end
    end.

Lemma for_each_modify (names : list string) (m : Machine) (d : odict V) :
  get (self m) = Some d ->
  for_each names body m =
    match modify_each (f (self m)) names d with
    | Raise e => Raise e
    | Ok d' => Ok (tt, with_self (set (Some d') (self m)) m)
    end.
Proof.
  revert m d. induction names as [|name names IH]; intros m d Hd; simpl.
  - unfold ret, with_self. rewrite <- Hd, set_get. by destruct m.
  - unfold bind. rewrite (body_spec _ _ _ Hd).
    destruct (dict_get name d) as [x|]; [|done].
    destruct (f (self m) name x) as [x'|e]; [|done].
    rewrite (IH _ (dict_set name x' d)) by apply get_set.
    simpl. rewrite f_set.
    destruct (modify_each _ _ _); [|done].
    unfold with_self. simpl. by rewrite set_set.
Qed.
End for_each_modify.

(** ** [act] and [observe] *)

Lemma bind_ok {A B} (c : M A) (k : A -> M B) (m m' : Machine) (x : A) :
  c m = Ok (x, m') -> bind c k m = k x m'.
Proof. intros H. unfold bind. by rewrite H. Qed.

Lemma act_run (m : Machine) (states pa : odict cell) sb ab sb' ab' :
  is_Some (agent (self m)) ->
  states_buffers (self m) = Some sb ->
  actions_buffers (self m) = Some ab ->
  modify_each (record_at states (index (self m))) (keys (states_spec (self m))) sb
    = Ok sb' ->
  modify_each (record_at pa (index (self m))) (keys (actions_spec (self m))) ab
    = Ok ab' ->
  act states pa m =
    Ok (pa, with_self (set_actions_buffers (Some ab')
                         (set_states_buffers (Some sb') (self m))) m).
Proof.
  intros [pl Hpl] Hsb Hab Hs Ha. unfold act.
  erewrite bind_ok by (unfold not_none; rewrite Hpl; reflexivity).
  cbv zeta. erewrite bind_ok by reflexivity.
  erewrite bind_ok; cycle 1.
  { erewrite (for_each_modify states_buffers set_states_buffers
               (fun a => record_at states (index a)));
      [ rewrite Hs; reflexivity | done | done | by intros [] | done | | exact Hsb ].
    intros name m0 d Hd. mred. unfold record_at.
    destruct (dict_get name states) as [v|]; cbv beta iota.
    - rewrite Hd. destruct (dict_get name d); [|reflexivity].
      destruct (setitem _ _ _ _); reflexivity.
    - destruct (dict_get name d); reflexivity. }
  erewrite bind_ok by reflexivity.
  erewrite bind_ok; cycle 1.
  { erewrite (for_each_modify actions_buffers set_actions_buffers
               (fun a => record_at pa (index a)));
      [ simpl; rewrite Ha; reflexivity | done | done | by intros [] | done | | exact Hab ].
    intros name m0 d Hd. mred. unfold record_at.
    destruct (dict_get name pa) as [v|]; cbv beta iota.
    - rewrite Hd. destruct (dict_get name d); [|reflexivity].
      destruct (setitem _ _ _ _); reflexivity.
    - destruct (dict_get name d); reflexivity. }
  reflexivity.
Qed.

Lemma observe_run (m : Machine) (reward : Q) rrow trow :
  reward_buffers (self m) = Some [rrow] ->
  terminal_buffers (self m) = Some [trow] ->
  (index (self m) < length rrow)%nat ->
  (index (self m) < length trow)%nat ->
  observe reward false m =
    Ok (tt, with_self
              (set_index (index (self m) + 1)
                 (set_terminal_buffers (Some [<[index (self m) := 0%Q]> trow])
                    (set_reward_buffers (Some [<[index (self m) := reward]> rrow])
                       (self m)))) m).
Proof.
  intros Hr Ht Hir Hit. unfold observe. mred. rewrite Hr.
  unfold setitem. simpl. destruct (decide _); [|lia].
  rewrite Ht. simpl. destruct (decide _); [|lia]. reflexivity.
Qed.

Lemma getitem_one_row {A} (row : list A) (j : nat) :
  getitem [row] 0 j = match row !! j with Some v => Ok v | None => Raise IndexError end.
Proof. reflexivity. Qed.

Lemma setitem_one_row {A} (row : list A) (j : nat) (v : A) :
  (j < length row)%nat -> setitem [row] 0 j v = Ok [<[j := v]> row].
Proof. intros H. unfold setitem. simpl. by destruct (decide _). Qed.

Lemma one_row_opt_inv {A} (T : nat) (o : option (ndarray A)) :
  one_row_opt T o -> exists row, o = Some [row] /\ length row = T.
Proof.
  destruct o as [[|row [|]]|]; simpl; try done. intros H. by exists row.
Qed.

Lemma record_all_ok (values : odict cell) (i T : nat) (names : list string)
    (d : odict (ndarray cell)) :
  NoDup names ->
  (i < T)%nat ->
  names ⊆ keys values ->
  Forall (fun name => one_row_opt T (dict_get name d)) names ->
  exists d', modify_each (record_at values i) names d = Ok d'
    /\ (forall name, name ∈ names ->
          exists v row, dict_get name values = Some v
            /\ dict_get name d = Some [row]
            /\ dict_get name d' = Some [<[i := v]> row])
    /\ (forall name, name ∉ names -> dict_get name d' = dict_get name d).
Proof.
  intros Hnd Hi Hsub Hall.
  assert (Hpre : forall n, n ∈ names -> exists v row,
             dict_get n values = Some v /\ dict_get n d = Some [row]
             /\ length row = T).
  { intros n Hn. rewrite Forall_forall in Hall.
    destruct (one_row_opt_inv _ _ (Hall n Hn)) as (row & Hrow & Hlen).
    assert (is_Some (dict_get n values)) as [v Hv]
      by (apply dict_get_is_Some, Hsub, Hn).
    by exists v, row. }
  destruct (modify_each_ok (record_at values i) names Hnd d) as (d' & Hrun & _ & Hin & Hout).
  { intros n Hn. destruct (Hpre n Hn) as (v & row & Hv & Hrow & Hlen).
    exists [row], [<[i := v]> row]. split; [done|].
    unfold record_at. rewrite Hv. apply setitem_one_row. lia. }
  exists d'. split; [done|]. split; [|done].
  intros n Hn. destruct (Hpre n Hn) as (v & row & Hv & Hrow & Hlen).
  destruct (Hin n _ Hn Hrow) as (x' & Hx' & Hget).
  exists v, row. split; [done|]. split; [done|].
  unfold record_at in Hx'. rewrite Hv, setitem_one_row in Hx' by lia.
  by injection Hx' as <-.
Qed.

(** C6.  One tick of a recording episode.  [act] returns the policy's
    actions, stores each named state and action at the step cursor and leaves
    the cursor where it was; the [observe] that follows, when not terminal,
    stores the reward and the terminal flag at the cursor and advances the
    cursor by exactly one.  Nothing else changes in that [observe]: putting
    the cursor and the two flat buffers back gives the agent as it was, the
    two buffers differ from before at the cursor only, and disk, memory and
    clock are untouched.  The agent is still recording afterwards, so the
    same holds for the next tick. *)
Theorem act_then_observe (m : Machine) (states pa : odict cell) (reward : Q) :
  recording m ->
  (index (self m) < max_timesteps (self m))%nat ->
  keys (states_spec (self m)) ⊆ keys states ->
  keys (actions_spec (self m)) ⊆ keys pa ->
  exists m1 m2,
    act states pa m = Ok (pa, m1)
    /\ index (self m1) = index (self m)
    /\ (forall name, name ∈ keys (states_spec (self m)) ->
          exists buf v, component (states_buffers (self m1)) name = Some buf
            /\ dict_get name states = Some v
            /\ getitem buf 0 (index (self m)) = Ok v)
    /\ (forall name, name ∈ keys (actions_spec (self m)) ->
          exists buf v, component (actions_buffers (self m1)) name = Some buf
            /\ dict_get name pa = Some v
            /\ getitem buf 0 (index (self m)) = Ok v)
    /\ observe reward false m1 = Ok (tt, m2)
    /\ index (self m2) = S (index (self m1))
    /\ (exists rb rb', reward_buffers (self m1) = Some rb
          /\ reward_buffers (self m2) = Some rb'
          /\ getitem rb' 0 (index (self m1)) = Ok reward
          /\ forall j, j <> index (self m1) -> getitem rb' 0 j = getitem rb 0 j)
    /\ (exists tb tb', terminal_buffers (self m1) = Some tb
          /\ terminal_buffers (self m2) = Some tb'
          /\ getitem tb' 0 (index (self m1)) = Ok 0%Q
          /\ forall j, j <> index (self m1) -> getitem tb' 0 j = getitem tb 0 j)
    /\ set_index (index (self m1))
         (set_terminal_buffers (terminal_buffers (self m1))
            (set_reward_buffers (reward_buffers (self m1)) (self m2))) = self m1
    /\ m2 = with_self (self m2) m1
    /\ recording m2.
Proof.
  intros (Hag & Hnds & Hnda & Hrb & Htb & [sb Esb] & [ab Eab] & Hsb & Hab)
         Hi Hks Hka.
  cbv zeta in *. rewrite Esb in Hsb. rewrite Eab in Hab. simpl in Hsb, Hab.
  destruct (one_row_opt_inv _ _ Hrb) as (rrow & Hrrow & Hrlen).
  destruct (one_row_opt_inv _ _ Htb) as (trow & Htrow & Htlen).
  destruct (record_all_ok states _ _ _ sb Hnds Hi Hks Hsb) as (sb' & Hs & Hsin & _).
  destruct (record_all_ok pa _ _ _ ab Hnda Hi Hka Hab) as (ab' & Ha & Hain & _).
  pose proof (act_run m states pa sb ab sb' ab' Hag Esb Eab Hs Ha) as Hact.
  set (m1 := with_self _ m) in Hact.
  pose proof (observe_run m1 reward rrow trow Hrrow Htrow) as Hobs.
  simpl in Hobs. specialize (Hobs ltac:(lia) ltac:(lia)).
  set (m2 := with_self _ m1) in Hobs.
  assert (Hrows : forall (d d' : odict (ndarray cell)) names name v row,
             Forall (fun name => one_row_opt (max_timesteps (self m)) (dict_get name d)) names ->
             name ∈ names ->
             dict_get name d = Some [row] ->
             dict_get name d' = Some [<[index (self m) := v]> row] ->
             one_row_opt (max_timesteps (self m)) (dict_get name d')
             /\ exists buf, dict_get name d' = Some buf
                  /\ getitem buf 0 (index (self m)) = Ok v).
  { intros d d' names name v row HF Hn Hd Hd'.
    rewrite Forall_forall in HF. specialize (HF name Hn).
    rewrite Hd in HF. simpl in HF. rewrite Hd'. split.
    - simpl. by rewrite length_insert.
    - eexists. split; [done|]. rewrite getitem_one_row.
      rewrite list_lookup_insert_eq by lia. done. }
  exists m1, m2. split; [exact Hact|]. split; [reflexivity|]. split.
  { intros name Hn. destruct (Hsin name Hn) as (v & row & Hv & Hrow & Hrow').
    destruct (Hrows _ _ _ _ _ _ Hsb Hn Hrow Hrow') as (_ & buf & Hbuf & Hget).
    by exists buf, v. }
  split.
  { intros name Hn. destruct (Hain name Hn) as (v & row & Hv & Hrow & Hrow').
    destruct (Hrows _ _ _ _ _ _ Hab Hn Hrow Hrow') as (_ & buf & Hbuf & Hget).
    by exists buf, v. }
  split; [exact Hobs|]. split; [simpl; lia|]. split.
  { exists [rrow], [<[index (self m) := reward]> rrow].
    split; [exact Hrrow|]. split; [reflexivity|]. split.
    - simpl. rewrite getitem_one_row, list_lookup_insert_eq by lia. done.
    - intros j Hj. simpl in Hj.
      rewrite !getitem_one_row, list_lookup_insert_ne by done. done. }
  split.
  { exists [trow], [<[index (self m) := 0%Q]> trow].
    split; [exact Htrow|]. split; [reflexivity|]. split.
    - simpl. rewrite getitem_one_row, list_lookup_insert_eq by lia. done.
    - intros j Hj. simpl in Hj.
      rewrite !getitem_one_row, list_lookup_insert_ne by done. done. }
  split; [reflexivity|]. split; [reflexivity|].
  unfold recording. simpl.
  split; [done|]. split; [done|]. split; [done|].
  split; [by rewrite length_insert|]. split; [by rewrite length_insert|].
  split; [done|]. split; [done|]. split.
  - rewrite Forall_forall. intros name Hn.
    destruct (Hsin name Hn) as (v & row & Hv & Hrow & Hrow').
    by destruct (Hrows _ _ _ _ _ _ Hsb Hn Hrow Hrow') as (? & _).
  - rewrite Forall_forall. intros name Hn.
    destruct (Hain name Hn) as (v & row & Hv & Hrow & Hrow').
    by destruct (Hrows _ _ _ _ _ _ Hab Hn Hrow Hrow') as (? & _).
Qed.

(** Deciding a closed proposition by evaluation. *)
Ltac by_evaluation := apply (bool_decide_unpack _); vm_compute; exact I.

Lemma act_then_observe_witness :
  let m := after reset (boot 5 15 7) in
  recording m /\ exists m1 m2,
    act [("speed", [0%Q])] [("control", [1%Q]); ("validity", [0%Q])] m
      = Ok ([("control", [1%Q]); ("validity", [0%Q])], m1)
    /\ observe 4 false m1 = Ok (tt, m2)
    /\ index (self m1) = 0%nat
    /\ index (self m2) = 1%nat.
Proof.
  intros m.
  assert (Hrec : recording m).
  { subst m. unfold recording. cbv zeta.
    split; [vm_compute; eexists; reflexivity|].
    split; [by_evaluation|]. split; [by_evaluation|].
    split; [vm_compute; reflexivity|]. split; [vm_compute; reflexivity|].
    split; [vm_compute; eexists; reflexivity|].
    split; [vm_compute; eexists; reflexivity|].
    split; vm_compute; repeat constructor. }
  split; [exact Hrec|].
  destruct (act_then_observe m [("speed", [0%Q])]
              [("control", [1%Q]); ("validity", [0%Q])] 4 Hrec)
    as (m1 & m2 & Hact & Hi1 & _ & _ & Hobs & Hi2 & _);
    [vm_compute; lia | by_evaluation | by_evaluation |].
  exists m1, m2. split; [exact Hact|]. split; [exact Hobs|].
  split; [exact Hi1|]. rewrite Hi2, Hi1. vm_compute. reflexivity.
Defined.

(** ** The validity analysis on episodes *)

(** The analysis never writes the reward buffer. *)
Lemma compute_action_validity_rewards (m : Machine) bufs crow vrow :
  actions_buffers (self m) = Some bufs ->
  dict_get "control" bufs = Some [crow] ->
  dict_get "validity" bufs = Some [vrow] ->
  (0 < length vrow)%nat ->
  exists m', _compute_action_validity m = Ok (tt, m')
    /\ reward_buffers (self m') = reward_buffers (self m)
    /\ (exists vrow', component (actions_buffers (self m')) "validity" = Some [vrow']
          /\ (forall old, vrow !! 0%nat = Some old ->
                vrow' !! 0%nat = Some (map (fun _ => 1%Q) old))
          /\ forall j, j <> 0%nat -> vrow' !! j = vrow !! j).
Proof.
  intros Hb Hc Hv Hlen.
  destruct vrow as [|old vrow]; [simpl in Hlen; lia|].
  eexists. split; [by eapply compute_action_validity_run|].
  split; [reflexivity|]. simpl.
  eexists. split; [apply dict_get_set_eq|]. split.
  - by intros ? [= <-].
  - by intros [|j] Hj.
Qed.

(** C1.  Scenario A on the code: [T = 5], the recorded controls are
    [1,1,1,2,2], and after the terminal [observe] has run the validity
    analysis the validity buffer is [1,0,0,0,0]: slot 0 holds 1, not the run
    length 3, and slots 1 and 2 still hold the 0 that [act] recorded, not 2
    and 1.  The outer loop ranges over [len(control_buffer)], the batch
    axis of size 1, instead of the [T] time steps. *)
Theorem scenario_A_validity :
  exists m', run episode_A (boot 5 15 7) = Ok (tt, m')
    /\ component (actions_buffers (self m')) "control"
         = Some [[[1%Q]; [1%Q]; [1%Q]; [2%Q]; [2%Q]]]
    /\ component (actions_buffers (self m')) "validity"
         = Some [[[1%Q]; [0%Q]; [0%Q]; [0%Q]; [0%Q]]].
Proof.
  eexists. split; [vm_compute; reflexivity|].
  split; vm_compute; reflexivity.
Qed.

(** C2.  Scenario A on the code: the rewards observed are [1,2,3,4,5] and
    the reward buffer is still [1,2,3,4,5] after the terminal [observe]:
    slots 0 and 1 were not overwritten with the aggregate 3, because the
    inner scan of the analysis has an empty range. *)
Theorem scenario_A_rewards :
  exists m', run episode_A (boot 5 15 7) = Ok (tt, m')
    /\ reward_buffers (self m') = Some [[1%Q; 2%Q; 3%Q; 4%Q; 5%Q]]
    /\ clamp_sum [1%Q; 2%Q] 150 (-2000) = 3%Q.
Proof.
  eexists. split; [vm_compute; reflexivity|].
  split; vm_compute; reflexivity.
Qed.

(** C7.  When the control recorded at every one of the [T] time steps is
    the same, the validity analysis returns and leaves the reward buffer as
    it was. *)
Theorem constant_control_keeps_rewards (m : Machine) bufs (c : cell) vrow :
  (0 < max_timesteps (self m))%nat ->
  actions_buffers (self m) = Some bufs ->
  dict_get "control" bufs = Some [replicate (max_timesteps (self m)) c] ->
  dict_get "validity" bufs = Some [vrow] ->
  length vrow = max_timesteps (self m) ->
  exists m', _compute_action_validity m = Ok (tt, m')
    /\ reward_buffers (self m') = reward_buffers (self m).
Proof.
  intros HT Hb Hc Hv Hlen.
  destruct (compute_action_validity_rewards m bufs _ vrow Hb Hc Hv)
    as (m' & Hrun & Hrew & _); [lia|].
  by exists m'.
Qed.

Lemma constant_control_keeps_rewards_witness :
  let m := after (run episode_constant) (boot 3 15 7) in
  reward_buffers (self m) = Some [[1%Q; 2%Q; 3%Q]]
  /\ exists m', _compute_action_validity m = Ok (tt, m')
       /\ reward_buffers (self m') = reward_buffers (self m).
Proof.
  intros m. split; [vm_compute; reflexivity|].
  apply (constant_control_keeps_rewards m
           [("control", [[[1%Q]; [1%Q]; [1%Q]]]);
            ("validity", [[[0%Q]; [0%Q]; [0%Q]]])]
           [1%Q] [[0%Q]; [0%Q]; [0%Q]]).
  - vm_compute. lia.
  - vm_compute. reflexivity.
  - vm_compute. reflexivity.
  - vm_compute. reflexivity.
  - vm_compute. reflexivity.
Defined.

(** ** The gate of [write_trace] *)

(** On the empty list that [init_records] leaves in [record_reward], the
    test compares [0] with [threshold * 0]: it rejects for no threshold. *)
Lemma below_threshold_after_reset (threshold : Q) :
  below_threshold (RList []) threshold = Ok false.
Proof.
  unfold below_threshold, lt_truth, Qltb, Qle_bool. simpl.
  rewrite Z.mul_0_r. reflexivity.
Qed.

(** C10.  When the test at the head of [write_trace] rejects, [write_trace]
    returns and the whole machine is as before: the agent with its four
    accumulators, and the disk with its directories and files. *)
Theorem rejected_trace_changes_nothing (m : Machine) (rr : record Q) :
  record_reward (self m) = Some rr ->
  below_threshold rr (reward_threshold (self m)) = Ok true ->
  write_trace m = Ok (tt, m).
Proof.
  intros Hrr Hgate. unfold write_trace. mred. rewrite Hrr, Hgate.
  unfold time_strftime. reflexivity.
Qed.

Lemma rejected_trace_changes_nothing_witness :
  let m := after (run episode_B) (boot 4 15 7) in
  record_reward (self m) = Some (RArray [3%Q; 3%Q; 3%Q; 3%Q])
  /\ write_trace m = Ok (tt, m).
Proof.
  intros m. split; [vm_compute; reflexivity|].
  apply (rejected_trace_changes_nothing m (RArray [3%Q; 3%Q; 3%Q; 3%Q])).
  - vm_compute. reflexivity.
  - vm_compute. reflexivity.
Defined.

(** C3.  Scenario B on the code: threshold 15, four steps of reward 3 (sum
    12, below 15 * 4).  The terminal [observe] writes the trace all the same:
    the test reads [record_reward], which [reset] left empty, not the rewards
    of the episode. *)
Theorem scenario_B_is_persisted :
  exists m', run episode_B (boot 4 15 7) = Ok (tt, m')
    /\ reward_buffers (self m') = Some [[3%Q; 3%Q; 3%Q; 3%Q]]
    /\ Qltb (Qsum [3%Q; 3%Q; 3%Q; 3%Q]) (15 * inject_Z 4) = true
    /\ keys (files (disk m')) = ["data/traces/trace-1-20200101-000000.npz"].
Proof.
  eexists. split; [vm_compute; reflexivity|].
  split; [vm_compute; reflexivity|].
  split; vm_compute; reflexivity.
Qed.

(** ** Calls that do not touch the disk *)

Lemma pd_ret {A} (x : A) : preserves_disk (ret x).
Proof. intros m y m' H. unfold ret in H. by simplify_eq. Qed.

Lemma pd_raise {A} (e : exn) : preserves_disk (@raise A e).
Proof. intros m y m' H. unfold raise in H. done. Qed.

Lemma pd_bind {A B} (c : M A) (k : A -> M B) :
  preserves_disk c -> (forall x, preserves_disk (k x)) -> preserves_disk (bind c k).
Proof.
  intros Hc Hk m y m' H. unfold bind in H.
  destruct (c m) as [[x m1]|e] eqn:E; [|done].
  rewrite (Hk x _ _ _ H). by eapply Hc.
Qed.

Lemma pd_lift {A} (r : result A) : preserves_disk (lift r).
Proof. intros m y m' H. unfold lift in H. destruct r; by simplify_eq. Qed.

Lemma pd_attr {A} (f : ValidityPretrainAgent -> A) : preserves_disk (attr f).
Proof. intros m y m' H. unfold attr in H. by simplify_eq. Qed.

Lemma pd_not_none {A} e (f : ValidityPretrainAgent -> option A) :
  preserves_disk (not_none e f).
Proof.
  intros m y m' H. unfold not_none in H. destruct (f (self m)); by simplify_eq.
Qed.

Lemma pd_update f : preserves_disk (update f).
Proof. intros m y m' H. unfold update in H. by simplify_eq. Qed.

Lemma pd_subscript {V} (d : odict V) k : preserves_disk (subscript d k).
Proof. unfold subscript. destruct (dict_get k d); [apply pd_ret | apply pd_raise]. Qed.

Lemma pd_np_ndarray T shape : preserves_disk (np_ndarray T shape).
Proof. intros m y m' H. unfold np_ndarray in H. by simplify_eq. Qed.

Lemma pd_np_ndarray_flat T : preserves_disk (np_ndarray_flat T).
Proof. intros m y m' H. unfold np_ndarray_flat in H. by simplify_eq. Qed.

Lemma pd_for_each {A} (xs : list A) (body : A -> M unit) :
  (forall x, preserves_disk (body x)) -> preserves_disk (for_each xs body).
Proof.
  intros Hb. induction xs as [|x xs IH]; simpl.
  - apply pd_ret.
  - apply pd_bind; [apply Hb | intros _; apply IH].
Qed.

Ltac pd_step :=
  first [ apply pd_ret | apply pd_raise | apply pd_lift | apply pd_attr
        | apply pd_not_none | apply pd_update | apply pd_subscript
        | apply pd_np_ndarray | apply pd_np_ndarray_flat
        | apply pd_for_each; intros ?
        | apply pd_bind; [|intros ?] ].

Lemma pd_reset : preserves_disk reset.
Proof. unfold reset, init_buffers, init_records. repeat pd_step. Qed.

Lemma pd_act states pa : preserves_disk (act states pa).
Proof. unfold act. cbv zeta. repeat pd_step. Qed.

Lemma pd_observe reward : preserves_disk (observe reward false).
Proof. unfold observe. repeat pd_step. Qed.

Lemma pd_run (cs : list call) :
  Forall not_terminal cs -> preserves_disk (run cs).
Proof.
  intros Hcs. unfold run. induction Hcs as [|c cs Hc _ IH]; simpl.
  - apply pd_ret.
  - apply pd_bind; [|intros _; exact IH].
    destruct c as [| s a | r [|]]; simpl in *; [| |done|].
    + apply pd_reset.
    + apply pd_bind; [apply pd_act | intros _; apply pd_ret].
    + apply pd_observe.
Qed.

(** ** Allocation *)

(** Normalising projections and attribute assignments. *)
Ltac agent_simpl :=
  cbn [self disk heap clock env max_timesteps index traces_dir episodes
       reward_threshold states_spec actions_spec terminal_buffers reward_buffers
       states_buffers actions_buffers record_states record_actions
       record_terminal record_reward agent args
       set_index set_episodes set_terminal_buffers set_reward_buffers
       set_states_buffers set_actions_buffers set_record_states
       set_record_actions set_record_terminal set_record_reward set_agent
       with_self fst snd] in *.

(** One statement of a method body that is known to return. *)
Ltac mstep_by tac := erewrite bind_ok by (agent_simpl; tac); agent_simpl.
Ltac mstep := erewrite bind_ok by reflexivity; agent_simpl.

Section for_each_alloc.
Variable get : ValidityPretrainAgent -> option (odict (ndarray cell)).
Variable set : option (odict (ndarray cell)) -> ValidityPretrainAgent -> ValidityPretrainAgent.
Variable T : nat.

Hypothesis get_set : forall v a, get (set v a) = v.
Hypothesis set_set : forall v w a, set v (set w a) = set v a.
Hypothesis set_get : forall a, set (get a) a = a.

Lemma for_each_alloc (spec : odict Spec) (m : Machine) (d : odict (ndarray cell)) :
  get (self m) = Some d ->
  for_each spec (fun item =>
      buf <- np_ndarray T (shape item.2) ;;
      bufs <- not_none TypeError get ;;
      update (set (Some (dict_set item.1 buf bufs)))) m
  = Ok (tt, {| self := set (Some (alloc_each T spec (heap m) d).1) (self m);
               disk := disk m;
               heap := (alloc_each T spec (heap m) d).2;
               clock := clock m |}).
Proof.
  revert m d. induction spec as [|[name sp] spec IH]; intros m d Hd.
  - simpl. unfold ret. rewrite <- Hd, set_get. by destruct m.
  - cbn [for_each]. erewrite bind_ok; cycle 1.
    { mred. unfold np_ndarray. cbn [self]. rewrite Hd. reflexivity. }
    rewrite (IH _ (dict_set name [chunks (heap m) T (numel (shape sp))] d))
      by apply get_set.
    cbn [alloc_each self disk heap clock fst snd]. by rewrite set_set.
Qed.
End for_each_alloc.

Lemma init_buffers_run (m : Machine) :
  init_buffers m =
    Ok (tt, {| self := (allocated (self m) (heap m)).1;
               disk := disk m;
               heap := (allocated (self m) (heap m)).2;
               clock := clock m |}).
Proof.
  destruct m as [a dk hp ck].
  destruct a as [e T i td ep th ss asp tb rb sb ab rs ra rt rr ag ar].
  unfold init_buffers, allocated.
  do 8 mstep.
  erewrite bind_ok; cycle 1.
  { apply (for_each_alloc states_buffers set_states_buffers); [done|done|by intros []|].
    reflexivity. }
  agent_simpl. mstep.
  erewrite (for_each_alloc actions_buffers set_actions_buffers);
    [|done|done|by intros []|reflexivity].
  agent_simpl. reflexivity.
Qed.

Lemma reset_run (m : Machine) :
  reset m =
    Ok (tt, {| self := cleared (allocated (self m) (heap m)).1;
               disk := disk m;
               heap := (allocated (self m) (heap m)).2;
               clock := clock m |}).
Proof.
  unfold reset. erewrite bind_ok by apply init_buffers_run.
  destruct (allocated (self m) (heap m)) as [a h].
  destruct a as [e T i td ep th ss asp tb rb sb ab rs ra rt rr ag ar].
  unfold init_records, cleared. do 3 mstep.
  unfold update. agent_simpl. reflexivity.
Qed.

Lemma chunks_length (h : nat -> Q) (T n : nat) : length (chunks h T n) = T.
Proof. unfold chunks. by rewrite length_map, length_seq. Qed.

Lemma chunks_all (P : Q -> Prop) (h : nat -> Q) (T n : nat) :
  (forall k, P (h k)) ->
  Forall (fun c => length c = n /\ Forall P c) (chunks h T n).
Proof.
  intros HP. unfold chunks. apply Forall_map, Forall_forall. intros t _. simpl.
  split; [by rewrite length_map, length_seq|].
  apply Forall_map, Forall_forall. intros k _. apply HP.
Qed.

Lemma flat_all_alloc (P : Q -> Prop) (h : nat -> Q) (T : nat) :
  (forall k, P (h k)) -> flat_all P T (Some [map h (seq 0 T)]).
Proof.
  intros HP. eexists. split; [done|]. split; [by rewrite length_map, length_seq|].
  apply Forall_map, Forall_forall. intros k _. apply HP.
Qed.

(** The named buffers after the allocation loop: one buffer per name of the
    specification, [T] cells of the component's size each, every scalar taken
    from the memory. *)
Lemma alloc_each_spec (P : Q -> Prop) (T : nat) (spec : odict Spec) :
  NoDup (keys spec) ->
  forall (h : nat -> Q) (d : odict (ndarray cell)),
  (forall k, P (h k)) ->
  (forall k, P ((alloc_each T spec h d).2 k))
  /\ (forall name sp, dict_get name spec = Some sp ->
        cells_all P T (shape sp) (dict_get name (alloc_each T spec h d).1))
  /\ (forall name, name ∉ keys spec ->
        dict_get name (alloc_each T spec h d).1 = dict_get name d).
Proof.
  unfold keys. induction spec as [|[name sp] spec IH]; intros Hnd h d HP.
  - simpl. split; [done|]. split; [done|done].
  - cbn in Hnd. apply NoDup_cons in Hnd as [Hnin Hnd].
    destruct (IH Hnd (fun k => h (T * numel (shape sp) + k)%nat)
                (dict_set name [chunks h T (numel (shape sp))] d))
      as (Hh & Hin & Hout); [intros k; apply HP|].
    cbn [alloc_each]. split; [exact Hh|]. split.
    + intros n sp0. simpl. destruct (String.eqb n name) eqn:E.
      * apply String.eqb_eq in E. subst n. intros [= <-].
        rewrite (Hout _ Hnin), dict_get_set_eq.
        eexists. split; [done|]. split; [apply chunks_length|by apply chunks_all].
      * apply Hin.
    + intros n Hn. cbn in Hn. apply not_elem_of_cons in Hn as [Hne Hn].
      rewrite (Hout _ Hn). by apply dict_get_set_ne.
Qed.

Lemma dict_set_fresh {V} (k : string) (v : V) (d : odict V) :
  k ∉ keys d -> dict_set k v d = (d ++ [(k, v)])%list.
Proof.
  unfold keys. induction d as [|[k0 v0] d IH]; [done|].
  cbn. intros [Hne Hn]%not_elem_of_cons.
  apply String.eqb_neq in Hne. rewrite Hne. by rewrite IH.
Qed.

Lemma odict_of_fresh {V} (pairs : list (string * V)) :
  NoDup (keys pairs) -> odict_of pairs = pairs.
Proof.
  unfold odict_of.
  enough (forall acc : odict V, NoDup (keys (acc ++ pairs)%list) ->
            fold_left (fun d kv => dict_set kv.1 kv.2 d) pairs acc
            = (acc ++ pairs)%list)
    as H by (intros Hnd; by apply (H [])).
  induction pairs as [|[k v] pairs IH]; intros acc Hnd; simpl.
  - by rewrite app_nil_r.
  - rewrite dict_set_fresh.
    + rewrite IH; [by rewrite <- app_assoc|]. by rewrite <- app_assoc.
    + unfold keys in *. rewrite fmap_app in Hnd.
      apply NoDup_app in Hnd as (_ & Hdisj & _). intros Hk.
      apply (Hdisj _ Hk). cbn. left.
Qed.

Lemma empty_records_fresh {V A} (spec : odict V) :
  NoDup (keys spec) ->
  @empty_records V A spec = map (fun name => (name, RList [])) (keys spec).
Proof.
  intros Hnd. unfold empty_records. apply odict_of_fresh.
  assert (H : forall l : list string,
             keys (map (fun name => (name, @RList A [])) l) = l).
  { unfold keys. induction l as [|x l IH]; [done|]. cbn. by f_equal. }
  by rewrite H.
Qed.

(** C5, as stated, fails: with memory full of 7s the reward buffer that
    [init_buffers] allocates for [T = 3] is [7,7,7], not zero. *)
Lemma init_buffers_not_zeroed :
  exists m', init_buffers (boot 3 15 7) = Ok (tt, m')
    /\ reward_buffers (self m') = Some [[7%Q; 7%Q; 7%Q]]
    /\ ~ flat_all (fun q => q == 0) 3 (reward_buffers (self m')).
Proof.
  eexists. split; [vm_compute; reflexivity|].
  split; [vm_compute; reflexivity|].
  intros (row & Hrow & _ & Hall). vm_compute in Hrow.
  injection Hrow as <-. inversion Hall as [|? ? H0 _]. vm_compute in H0.
  discriminate.
Qed.

(** C5, amended.  [init_buffers] returns, and then each named state and
    action buffer has shape [(1, T) + component_shape] and the reward and
    terminal buffers have shape [(1, T)].  The arrays are not initialised:
    whatever holds for every scalar of the memory handed out holds for every
    element; the elements are zero when that memory is. *)
Theorem init_buffers_allocates (P : Q -> Prop) (m : Machine) :
  NoDup (keys (states_spec (self m))) ->
  NoDup (keys (actions_spec (self m))) ->
  (forall k, P (heap m k)) ->
  exists m', init_buffers m = Ok (tt, m')
    /\ flat_all P (max_timesteps (self m)) (terminal_buffers (self m'))
    /\ flat_all P (max_timesteps (self m)) (reward_buffers (self m'))
    /\ (forall name sp, dict_get name (states_spec (self m)) = Some sp ->
          cells_all P (max_timesteps (self m)) (shape sp)
            (component (states_buffers (self m')) name))
    /\ (forall name sp, dict_get name (actions_spec (self m)) = Some sp ->
          cells_all P (max_timesteps (self m)) (shape sp)
            (component (actions_buffers (self m')) name)).
Proof.
  intros Hs Ha HP. eexists. split; [apply init_buffers_run|].
  unfold allocated. agent_simpl.
  set (T := max_timesteps (self m)).
  set (h1 := fun k => heap m (T + k)%nat).
  set (h2 := fun k => h1 (T + k)%nat).
  assert (HP2 : forall k, P (h2 k)) by (intros k; apply HP).
  destruct (alloc_each_spec P T _ Hs h2 [] HP2) as (HP3 & Hsb & _).
  destruct (alloc_each_spec P T _ Ha _ [] HP3) as (_ & Hab & _).
  split; [by apply flat_all_alloc|].
  split; [apply flat_all_alloc; intros k; apply HP|].
  split; [exact Hsb | exact Hab].
Qed.

Lemma init_buffers_allocates_witness :
  exists m', init_buffers (boot 3 15 0) = Ok (tt, m')
    /\ flat_all (fun q => q == 0) 3 (reward_buffers (self m'))
    /\ cells_all (fun q => q == 0) 3 []
         (component (actions_buffers (self m')) "control").
Proof.
  destruct (init_buffers_allocates (fun q => q == 0) (boot 3 15 0))
    as (m' & Hrun & _ & Hr & _ & Ha).
  - by_evaluation.
  - by_evaluation.
  - intros k. vm_compute. reflexivity.
  - exists m'. split; [exact Hrun|]. split; [exact Hr|].
    apply (Ha "control" {| type := "float"; shape := [] |}).
    vm_compute. reflexivity.
Defined.

(** ** [reset] *)

Lemma reset_recording (m : Machine) :
  NoDup (keys (states_spec (self m))) ->
  NoDup (keys (actions_spec (self m))) ->
  recording (after reset m).
Proof.
  intros Hs Ha. unfold after. rewrite reset_run.
  pose (P := fun _ : Q => True).
  assert (Hshapes :
    let a' := (allocated (self m) (heap m)).1 in
    flat_all P (max_timesteps (self m)) (terminal_buffers a')
    /\ flat_all P (max_timesteps (self m)) (reward_buffers a')
    /\ (forall name sp, dict_get name (states_spec (self m)) = Some sp ->
          cells_all P (max_timesteps (self m)) (shape sp)
            (component (states_buffers a') name))
    /\ (forall name sp, dict_get name (actions_spec (self m)) = Some sp ->
          cells_all P (max_timesteps (self m)) (shape sp)
            (component (actions_buffers a') name))).
  { unfold allocated. agent_simpl.
    set (T := max_timesteps (self m)).
    set (h1 := fun k => heap m (T + k)%nat).
    set (h2 := fun k => h1 (T + k)%nat).
    destruct (alloc_each_spec P T _ Hs h2 [] ltac:(done)) as (HP3 & Hsb & _).
    destruct (alloc_each_spec P T _ Ha _ [] HP3) as (_ & Hab & _).
    split; [by apply flat_all_alloc|].
    split; [by apply flat_all_alloc|].
    split; [exact Hsb | exact Hab]. }
  destruct Hshapes as (Ht & Hr & Hsb & Hab).
  unfold recording, cleared, allocated in *. agent_simpl.
  destruct Ht as (trow & -> & Htl & _). destruct Hr as (rrow & -> & Hrl & _).
  split; [by eexists|]. split; [done|]. split; [done|].
  split; [done|]. split; [done|].
  split; [by eexists|]. split; [by eexists|]. split.
  - apply Forall_forall. intros name Hn.
    apply dict_get_is_Some in Hn as [sp Hsp].
    destruct (Hsb _ _ Hsp) as (row & -> & Hl & _). done.
  - apply Forall_forall. intros name Hn.
    apply dict_get_is_Some in Hn as [sp Hsp].
    destruct (Hab _ _ Hsp) as (row & -> & Hl & _). done.
Qed.

(** C8.  Over any sequence of calls none of which is an [observe] with
    [terminal=True], directories and files stay as they were: no trace is
    written.  A [reset] after such a sequence returns, writes nothing either,
    and leaves the cursor at 0, newly allocated buffers of shape [(1, T)],
    the planner, and an empty list in every accumulator; what it leaves is
    what it would leave on an agent that had recorded nothing. *)
Theorem reset_discards_unfinished_episode (cs : list call) (m m1 : Machine) :
  Forall not_terminal cs ->
  run cs m = Ok (tt, m1) ->
  NoDup (keys (states_spec (self m1))) ->
  NoDup (keys (actions_spec (self m1))) ->
  disk m1 = disk m
  /\ exists m2, reset m1 = Ok (tt, m2)
       /\ disk m2 = disk m
       /\ index (self m2) = 0%nat
       /\ recording m2
       /\ record_states (self m2)
            = Some (map (fun name => (name, RList [])) (keys (states_spec (self m1))))
       /\ record_actions (self m2)
            = Some (map (fun name => (name, RList [])) (keys (actions_spec (self m1))))
       /\ record_terminal (self m2) = Some (RList [])
       /\ record_reward (self m2) = Some (RList [])
       /\ self m2 = cleared (allocated (unset (self m1)) (heap m1)).1.
Proof.
  intros Hcs Hrun Hs Ha.
  pose proof (pd_run cs Hcs _ _ _ Hrun) as Hdisk. split; [exact Hdisk|].
  pose proof (reset_recording m1 Hs Ha) as Hrec. unfold after in Hrec.
  rewrite reset_run in *. eexists. split; [reflexivity|]. agent_simpl.
  split; [exact Hdisk|]. split; [reflexivity|]. split; [exact Hrec|].
  destruct m1 as [a dk hp ck]. agent_simpl.
  destruct a as [e T i td ep th ss asp tb rb sb ab rs ra rt rr ag ar].
  unfold cleared, allocated, unset in *. agent_simpl.
  rewrite !empty_records_fresh by done. done.
Qed.

Lemma reset_discards_unfinished_episode_witness :
  let m := boot 5 15 7 in
  let m1 := after (run episode_abandoned) m in
  index (self m1) = 2%nat
  /\ disk m1 = disk m
  /\ exists m2, reset m1 = Ok (tt, m2)
       /\ files (disk m2) = []
       /\ index (self m2) = 0%nat
       /\ record_reward (self m2) = Some (RList []).
Proof.
  intros m m1. split; [vm_compute; reflexivity|].
  destruct (reset_discards_unfinished_episode episode_abandoned m m1)
    as (Hdisk & m2 & Hreset & Hd2 & Hi & _ & _ & _ & _ & Hrr & _).
  - repeat constructor.
  - vm_compute. reflexivity.
  - by_evaluation.
  - by_evaluation.
  - split; [exact Hdisk|]. exists m2. split; [exact Hreset|].
    split; [by rewrite Hd2|]. split; [exact Hi | exact Hrr].
Defined.

(** ** [write_trace] *)

Lemma concatenate_snoc {A} (l : list (list A)) (x : list A) :
  concatenate (RList (l ++ [x])) = Ok (RArray (concat (l ++ [x]))).
Proof. by destruct l. Qed.

Lemma fmap_concatenate_lookup {A} (d dc : odict (record A)) :
  fmap_concatenate d = Ok dc ->
  keys dc = keys d
  /\ forall k v, dict_get k d = Some v ->
       exists y, concatenate v = Ok y /\ dict_get k dc = Some y.
Proof.
  revert dc. induction d as [|[k0 v0] d IH]; intros dc H; simpl in H.
  - injection H as <-. split; [done|]. by intros k v.
  - destruct (concatenate v0) as [y0|] eqn:E0; [|done].
    destruct (fmap_concatenate d) as [dc'|] eqn:E; [|done].
    injection H as <-. destruct (IH _ eq_refl) as [Hk Hl]. split.
    + unfold keys in *. cbn. by f_equal.
    + intros k v. simpl. destruct (String.eqb k k0).
      * intros [= <-]. by exists y0.
      * apply Hl.
Qed.

Lemma fmap_concatenate_ok {A} (d : odict (record A)) :
  Forall (fun kv => exists y, concatenate kv.2 = Ok y) d ->
  exists dc, fmap_concatenate d = Ok dc.
Proof.
  induction 1 as [|[k v] d [y Hy] _ [dc IH]]; simpl.
  - by eexists.
  - simpl in Hy. rewrite Hy, IH. by eexists.
Qed.

Lemma dict_get_elem_of_keys {V} (k : string) (d : odict V) :
  NoDup (keys d) -> k ∈ keys d -> exists v, (k, v) ∈ d /\ dict_get k d = Some v.
Proof.
  intros Hnd Hk. unfold keys in Hk.
  apply list_elem_of_fmap in Hk as ([k' v] & -> & Hin).
  exists v. split; [done|]. by apply dict_get_elem_of.
Qed.

(** The appending loop followed by the concatenation, on one dictionary of
    accumulators. *)
Lemma append_all_ok {A} (T : nat) (bufs : odict (ndarray A)) (names : list string)
    (recs : odict (record A)) :
  NoDup names ->
  keys recs = names ->
  Forall (fun kv => is_list kv.2) recs ->
  Forall (fun name => one_row_opt T (dict_get name bufs)) names ->
  exists recs' recsc,
    modify_each (append_slice (Some bufs) T) names recs = Ok recs'
    /\ fmap_concatenate recs' = Ok recsc
    /\ keys recsc = names
    /\ forall name, name ∈ names ->
         exists l row, dict_get name recs = Some (RList l)
           /\ dict_get name bufs = Some [row]
           /\ length row = T
           /\ dict_get name recsc = Some (RArray (concat (l ++ [row]))).
Proof.
  intros Hnd Hkeys Hlists Hbufs.
  assert (Hpre : forall n, n ∈ names -> exists l row,
             dict_get n recs = Some (RList l) /\ dict_get n bufs = Some [row]
             /\ length row = T
             /\ append_slice (Some bufs) T n (RList l) = Ok (RList (l ++ [row]))).
  { intros n Hn.
    destruct (dict_get_elem_of_keys n recs) as (v & Hin & Hv);
      [by rewrite Hkeys | by rewrite Hkeys |].
    rewrite Forall_forall in Hlists. specialize (Hlists _ Hin). simpl in Hlists.
    destruct v as [l|]; [|done].
    rewrite Forall_forall in Hbufs.
    destruct (one_row_opt_inv _ _ (Hbufs n Hn)) as (row & Hrow & Hlen).
    exists l, row. split; [done|]. split; [done|]. split; [done|].
    unfold append_slice, getslice. simpl. rewrite Hrow. simpl.
    by rewrite firstn_all2 by lia. }
  destruct (modify_each_ok (append_slice (Some bufs) T) names Hnd recs)
    as (recs' & Hrun & Hk' & Hin' & _).
  { intros n Hn. destruct (Hpre n Hn) as (l & row & Hl & _ & _ & Hf). eauto. }
  assert (Hpost : forall n, n ∈ names -> exists l row,
             dict_get n recs = Some (RList l) /\ dict_get n bufs = Some [row]
             /\ length row = T
             /\ dict_get n recs' = Some (RList (l ++ [row]))).
  { intros n Hn. destruct (Hpre n Hn) as (l & row & Hl & Hrow & Hlen & Hf).
    destruct (Hin' n _ Hn Hl) as (x' & Hx' & Hget).
    exists l, row. repeat (split; [done|]). congruence. }
  destruct (fmap_concatenate_ok recs') as [recsc Hc].
  { apply Forall_forall. intros [k v] Hin. simpl.
    assert (Hk : k ∈ names).
    { rewrite <- Hkeys, <- Hk'. unfold keys. apply list_elem_of_fmap. by exists (k, v). }
    destruct (Hpost k Hk) as (l & row & _ & _ & _ & Hget).
    rewrite (dict_get_elem_of k v recs') in Hget;
      [| by rewrite Hk', Hkeys | done].
    injection Hget as ->. eexists. apply concatenate_snoc. }
  destruct (fmap_concatenate_lookup _ _ Hc) as [Hkc Hlc].
  exists recs', recsc. split; [done|]. split; [done|].
  split; [by rewrite Hkc, Hk'|].
  intros n Hn. destruct (Hpost n Hn) as (l & row & Hl & Hrow & Hlen & Hget).
  destruct (Hlc _ _ Hget) as (y & Hy & Hgetc).
  rewrite concatenate_snoc in Hy. injection Hy as <-.
  exists l, row. done.
Qed.

Lemma makedirs_if_absent (dir : string) (m : Machine) :
  dir ∈ dirs (disk m) \/ dir ∉ (files (disk m)).*1 ->
  (if bool_decide (dir ∈ dirs (disk m)) then ret tt else os_makedirs dir) m
  = Ok (tt, {| self := self m;
               disk := {| dirs := if bool_decide (dir ∈ dirs (disk m))
                                  then dirs (disk m) else dir :: dirs (disk m);
                          files := files (disk m) |};
               heap := heap m; clock := clock m |}).
Proof.
  intros Hfree. destruct (bool_decide (dir ∈ dirs (disk m))) eqn:Edir.
  - unfold ret. destruct m as [a [ds fs] h c]. reflexivity.
  - unfold os_makedirs. rewrite Edir.
    destruct Hfree as [Hin|Hnin];
      [by rewrite (bool_decide_eq_true_2 _ Hin) in Edir|].
    by rewrite (bool_decide_eq_false_2 _ Hnin).
Qed.

Lemma write_trace_run (m : Machine) lt lr rs ra rs' ra' rsc rac trow rrow dir :
  let a := self m in
  let T := max_timesteps a in
  let rtc := RArray (concat (lt ++ [take T trow])) in
  let rrc := RArray (concat (lr ++ [take T rrow])) in
  record_reward a = Some (RList lr) ->
  below_threshold (RList lr) (reward_threshold a) = Ok false ->
  record_terminal a = Some (RList lt) ->
  record_states a = Some rs ->
  record_actions a = Some ra ->
  modify_each (append_slice (states_buffers a) T) (keys (states_spec a)) rs = Ok rs' ->
  modify_each (append_slice (actions_buffers a) T) (keys (actions_spec a)) ra = Ok ra' ->
  fmap_concatenate rs' = Ok rsc ->
  fmap_concatenate ra' = Ok rac ->
  terminal_buffers a = Some [trow] ->
  reward_buffers a = Some [rrow] ->
  traces_dir a = Some dir ->
  dir ∈ dirs (disk m) \/ dir ∉ (files (disk m)).*1 ->
  NoDup ("file" :: keys (archive rsc rac rtc rrc)) ->
  write_trace m =
    Ok (tt, {| self := set_record_reward (Some rrc)
                         (set_record_terminal (Some rtc)
                            (set_record_actions (Some rac)
                               (set_record_states (Some rsc) a)));
               disk := {| dirs := if bool_decide (dir ∈ dirs (disk m))
                                  then dirs (disk m) else dir :: dirs (disk m);
                          files := dict_set
                                     (os_path_join dir
                                        (trace_filename (episodes a) (clock m)))
                                     (archive rsc rac rtc rrc) (files (disk m)) |};
               heap := heap m; clock := clock m |}).
Proof.
  intros a T rtc rrc Hrr Hgate Hrt Hrs Hra Hms Hma Hcs Hca Htb Hrb Hdir Hfree Hkw.
  subst a T rtc rrc.
  destruct m as [a dk hp ck].
  destruct a as [e T i td ep th ss asp tb rb sb ab rs0 ra0 rt rr ag ar].
  agent_simpl. subst.
  unfold write_trace. mstep.
  mstep. mstep.
  mstep_by ltac:(rewrite Hgate; reflexivity).
  mstep.
  erewrite bind_ok; cycle 1.
  { erewrite (for_each_modify record_states set_record_states
               (fun a => append_slice (states_buffers a) T));
      [ agent_simpl; rewrite Hms; reflexivity | done | done | by intros []
      | done | | reflexivity ].
    intros name m0 d Hd. mred. rewrite Hd. unfold append_slice.
    destruct (dict_get name d) as [rec|]; [|reflexivity]. cbv beta iota.
    destruct (getattr_append rec); [|reflexivity]. cbv beta iota.
    destruct (states_buffers (self m0)) as [bufs|]; [|reflexivity]. cbv beta iota.
    destruct (dict_get name bufs) as [buf|]; [|reflexivity]. cbv beta iota.
    destruct (getslice buf 0 _); [|reflexivity]. cbv beta iota.
    destruct (append rec _); reflexivity. }
  agent_simpl. mstep.
  erewrite bind_ok; cycle 1.
  { erewrite (for_each_modify record_actions set_record_actions
               (fun a => append_slice (actions_buffers a) T));
      [ agent_simpl; rewrite Hma; reflexivity | done | done | by intros []
      | done | | reflexivity ].
    intros name m0 d Hd. mred. rewrite Hd. unfold append_slice.
    destruct (dict_get name d) as [rec|]; [|reflexivity]. cbv beta iota.
    destruct (getattr_append rec); [|reflexivity]. cbv beta iota.
    destruct (actions_buffers (self m0)) as [bufs|]; [|reflexivity]. cbv beta iota.
    destruct (dict_get name bufs) as [buf|]; [|reflexivity]. cbv beta iota.
    destruct (getslice buf 0 _); [|reflexivity]. cbv beta iota.
    destruct (append rec _); reflexivity. }
  agent_simpl. do 14 mstep.
  erewrite bind_ok
    by (apply (makedirs_if_absent dir
                 {| self := _; disk := dk; heap := hp; clock := ck |});
        exact Hfree).
  agent_simpl.
  do 3 mstep.
  mstep_by ltac:(rewrite Hcs; reflexivity). do 2 mstep.
  mstep_by ltac:(rewrite Hca; reflexivity). do 2 mstep.
  mstep_by ltac:(rewrite concatenate_snoc; reflexivity). do 2 mstep.
  mstep_by ltac:(rewrite concatenate_snoc; reflexivity). mstep.
  unfold np_savez_compressed. agent_simpl.
  unfold archive, keys in Hkw. rewrite (bool_decide_eq_true_2 _ Hkw).
  reflexivity.
Qed.

Lemma dict_get_app {V} (k : string) (d1 d2 : odict V) :
  dict_get k (d1 ++ d2)%list =
    match dict_get k d1 with
    | Some v => Some v
    | None => dict_get k d2
    end.
Proof.
  induction d1 as [|[k0 v0] d1 IH]; [done|]. simpl.
  by destruct (String.eqb k k0).
Qed.

Lemma dict_get_map {V W} (g : V -> W) (k : string) (d : odict V) :
  dict_get k (map (fun kv => (kv.1, g kv.2)) d) = g <$> dict_get k d.
Proof.
  induction d as [|[k0 v0] d IH]; [done|]. simpl.
  by destruct (String.eqb k k0).
Qed.

Lemma dict_get_None {V} (k : string) (d : odict V) :
  k ∉ keys d -> dict_get k d = None.
Proof.
  intros Hk. destruct (dict_get k d) eqn:E; [|done].
  exfalso. apply Hk, dict_get_is_Some. by rewrite E.
Qed.

Lemma keys_archive rs ra rt rr :
  keys (archive rs ra rt rr) = (keys rs ++ keys ra ++ ["terminal"; "reward"])%list.
Proof.
  unfold archive, keys. rewrite !fmap_app. f_equal; [|f_equal].
  - induction rs as [|[k v] rs IH]; [done|]. cbn. by f_equal.
  - induction ra as [|[k v] ra IH]; [done|]. cbn. by f_equal.
Qed.

(** What an accepted [write_trace] does, under the conditions in which
    [observe] calls it after a [reset]. *)
Lemma write_trace_accepts (m : Machine) :
  recording m -> accumulating m -> accepted m -> storable m ->
  let a := self m in
  exists dir rsc rac lt lr trow rrow,
    traces_dir a = Some dir
    /\ record_terminal a = Some (RList lt)
    /\ record_reward a = Some (RList lr)
    /\ terminal_buffers a = Some [trow]
    /\ reward_buffers a = Some [rrow]
    /\ length trow = max_timesteps a
    /\ length rrow = max_timesteps a
    /\ keys rsc = keys (states_spec a)
    /\ keys rac = keys (actions_spec a)
    /\ (forall name, name ∈ keys (states_spec a) ->
          exists l row, component (record_states a) name = Some (RList l)
            /\ component (states_buffers a) name = Some [row]
            /\ length row = max_timesteps a
            /\ dict_get name rsc = Some (RArray (concat (l ++ [row]))))
    /\ (forall name, name ∈ keys (actions_spec a) ->
          exists l row, component (record_actions a) name = Some (RList l)
            /\ component (actions_buffers a) name = Some [row]
            /\ length row = max_timesteps a
            /\ dict_get name rac = Some (RArray (concat (l ++ [row]))))
    /\ write_trace m =
         Ok (tt, {| self := set_record_reward (Some (RArray (concat (lr ++ [rrow]))))
                              (set_record_terminal (Some (RArray (concat (lt ++ [trow]))))
                                 (set_record_actions (Some rac)
                                    (set_record_states (Some rsc) a)));
                    disk := {| dirs := if bool_decide (dir ∈ dirs (disk m))
                                       then dirs (disk m) else dir :: dirs (disk m);
                               files := dict_set
                                          (os_path_join dir
                                             (trace_filename (episodes a) (clock m)))
                                          (archive rsc rac
                                             (RArray (concat (lt ++ [trow])))
                                             (RArray (concat (lr ++ [rrow]))))
                                          (files (disk m)) |};
                    heap := heap m; clock := clock m |}).
Proof.
  intros (_ & Hnds & Hnda & Hrb & Htb & [sb Esb] & [ab Eab] & Hsb & Hab)
         ((rs & Ers & Hkrs & Hlrs) & (ra & Era & Hkra & Hlra) & [lt Elt] & [lr Elr])
         (rr & Err & Hgate)
         ((dir & Edir & Hfree) & Hkw) a.
  subst a. cbv zeta in *. rewrite Esb in Hsb. rewrite Eab in Hab. simpl in Hsb, Hab.
  rewrite Elr in Err. injection Err as <-.
  destruct (one_row_opt_inv _ _ Hrb) as (rrow & Errow & Hrlen).
  destruct (one_row_opt_inv _ _ Htb) as (trow & Etrow & Htlen).
  destruct (append_all_ok _ sb _ rs Hnds Hkrs Hlrs Hsb)
    as (rs' & rsc & Hms & Hcs & Hkc & Hsin).
  destruct (append_all_ok _ ab _ ra Hnda Hkra Hlra Hab)
    as (ra' & rac & Hma & Hca & Hkac & Hain).
  exists dir, rsc, rac, lt, lr, trow, rrow.
  do 9 (split; [done|]).
  split; [by rewrite Ers, Esb|]. split; [by rewrite Era, Eab|].
  pose proof (write_trace_run m lt lr rs ra rs' ra' rsc rac trow rrow dir) as Hrun.
  cbv zeta in Hrun. rewrite !firstn_all2 in Hrun by lia.
  apply Hrun; try done.
  - by rewrite Esb.
  - by rewrite Eab.
  - by rewrite keys_archive, Hkc, Hkac.
Qed.

(** C4, as stated, fails: in an episode of capacity [T = 5] that ends at
    its second step the cursor is 2 when the trace is written, and the
    reward array that was appended has all 5 slots of the buffer, the three
    unwritten ones included, not the 2 observed. *)
Lemma short_episode_keeps_whole_rows :
  exists m', run episode_short (boot 5 15 7) = Ok (tt, m')
    /\ index (self m') = 2%nat
    /\ record_reward (self m') = Some (RArray [20%Q; 30%Q; 7%Q; 7%Q; 7%Q])
    /\ record_reward (self m')
         <> Some (RArray (take (index (self m')) [20%Q; 30%Q; 7%Q; 7%Q; 7%Q])).
Proof.
  eexists. split; [vm_compute; reflexivity|].
  split; [vm_compute; reflexivity|].
  split; [vm_compute; reflexivity|].
  vm_compute. discriminate.
Qed.

(** C4, amended.  When an accepted episode is appended to the accumulators,
    each of its state and action arrays, and likewise its terminal and reward
    arrays, is the whole row of the buffer, all [max_timesteps] slots of it,
    whatever the cursor. *)
Theorem accepted_episode_keeps_whole_rows (m : Machine) :
  recording m -> accumulating m -> accepted m -> storable m ->
  exists m', write_trace m = Ok (tt, m')
    /\ (forall name, name ∈ keys (states_spec (self m)) ->
          exists l row, component (record_states (self m)) name = Some (RList l)
            /\ component (states_buffers (self m)) name = Some [row]
            /\ length row = max_timesteps (self m)
            /\ component (record_states (self m')) name
                 = Some (RArray (concat (l ++ [row]))))
    /\ (forall name, name ∈ keys (actions_spec (self m)) ->
          exists l row, component (record_actions (self m)) name = Some (RList l)
            /\ component (actions_buffers (self m)) name = Some [row]
            /\ length row = max_timesteps (self m)
            /\ component (record_actions (self m')) name
                 = Some (RArray (concat (l ++ [row]))))
    /\ (exists l row, record_terminal (self m) = Some (RList l)
          /\ terminal_buffers (self m) = Some [row]
          /\ length row = max_timesteps (self m)
          /\ record_terminal (self m') = Some (RArray (concat (l ++ [row]))))
    /\ (exists l row, record_reward (self m) = Some (RList l)
          /\ reward_buffers (self m) = Some [row]
          /\ length row = max_timesteps (self m)
          /\ record_reward (self m') = Some (RArray (concat (l ++ [row])))).
Proof.
  intros Hrec Hacc Hok Hst.
  destruct (write_trace_accepts m Hrec Hacc Hok Hst)
    as (dir & rsc & rac & lt & lr & trow & rrow & _ & Elt & Elr & Etb & Erb
        & Htl & Hrl & _ & _ & Hsin & Hain & Hrun).
  eexists. split; [exact Hrun|]. agent_simpl.
  split; [exact Hsin|]. split; [exact Hain|].
  split; [by exists lt, trow | by exists lr, rrow].
Qed.

(** C9.  An accepted [write_trace] returns and then: the configured
    directory exists, created if it was absent and the directories otherwise
    as before; exactly one file is stored, under
    [trace-<episodes>-<timestamp>.npz] in that directory; the archive has one
    array per named state, per named action, then [terminal] and [reward];
    and each array is the concatenation along the time axis of what its
    accumulator held followed by the row of the episode. *)
Theorem accepted_flush_writes_archive (m : Machine) :
  recording m -> accumulating m -> accepted m -> storable m ->
  exists m' dir contents,
    write_trace m = Ok (tt, m')
    /\ traces_dir (self m) = Some dir
    /\ dir ∈ dirs (disk m')
    /\ dirs (disk m') = (if bool_decide (dir ∈ dirs (disk m))
                         then dirs (disk m) else dir :: dirs (disk m))
    /\ files (disk m')
         = dict_set
             (os_path_join dir
                ("trace-" ++ pretty (episodes (self m)) ++ "-" ++ clock m ++ ".npz"))
             contents (files (disk m))
    /\ keys contents = (keys (states_spec (self m))
                        ++ keys (actions_spec (self m))
                        ++ ["terminal"; "reward"])%list
    /\ (forall name, name ∈ keys (states_spec (self m)) ->
          exists l row, component (record_states (self m)) name = Some (RList l)
            /\ component (states_buffers (self m)) name = Some [row]
            /\ dict_get name contents = Some (NpyN (concat (l ++ [row]))))
    /\ (forall name, name ∈ keys (actions_spec (self m)) ->
          exists l row, component (record_actions (self m)) name = Some (RList l)
            /\ component (actions_buffers (self m)) name = Some [row]
            /\ dict_get name contents = Some (NpyN (concat (l ++ [row]))))
    /\ (exists l row, record_terminal (self m) = Some (RList l)
          /\ terminal_buffers (self m) = Some [row]
          /\ dict_get "terminal" contents = Some (Npy1 (concat (l ++ [row]))))
    /\ (exists l row, record_reward (self m) = Some (RList l)
          /\ reward_buffers (self m) = Some [row]
          /\ dict_get "reward" contents = Some (Npy1 (concat (l ++ [row])))).
Proof.
  intros Hrec Hacc Hok Hst.
  destruct (write_trace_accepts m Hrec Hacc Hok Hst)
    as (dir & rsc & rac & lt & lr & trow & rrow & Edir & Elt & Elr & Etb & Erb
        & Htl & Hrl & Hkc & Hkac & Hsin & Hain & Hrun).
  destruct Hst as [_ Hkw]. apply NoDup_cons in Hkw as [_ Hkw].
  apply NoDup_app in Hkw as (_ & Hsa & Hkw).
  apply NoDup_app in Hkw as (_ & Hat & _).
  assert (Hs_none : forall name, name ∈ keys (actions_spec (self m))
                      \/ name = "terminal" \/ name = "reward" ->
            dict_get name (map (fun kv => (kv.1, npy_of_cells kv.2)) rsc) = None).
  { intros name Hn. apply dict_get_None. intros Hin.
    assert (Hin' : name ∈ keys (states_spec (self m))).
    { rewrite <- Hkc. unfold keys in *. rewrite <- list_fmap_compose in Hin.
      exact Hin. }
    apply (Hsa _ Hin'). rewrite elem_of_app.
    destruct Hn as [?|[->| ->]]; [by left| |]; right.
    - apply list_elem_of_here.
    - apply list_elem_of_further, list_elem_of_here. }
  assert (Ha_none : forall name, name = "terminal" \/ name = "reward" ->
            dict_get name (map (fun kv => (kv.1, npy_of_cells kv.2)) rac) = None).
  { intros name Hn. apply dict_get_None. intros Hin.
    assert (Hin' : name ∈ keys (actions_spec (self m))).
    { rewrite <- Hkac. unfold keys in *. rewrite <- list_fmap_compose in Hin.
      exact Hin. }
    apply (Hat _ Hin'). destruct Hn as [->| ->].
    - apply list_elem_of_here.
    - apply list_elem_of_further, list_elem_of_here. }
  eexists. exists dir. eexists. split; [exact Hrun|]. agent_simpl.
  split; [exact Edir|]. split.
  { destruct (bool_decide (dir ∈ dirs (disk m))) eqn:E.
    - by apply bool_decide_eq_true in E.
    - left. }
  split; [reflexivity|]. split; [reflexivity|].
  split; [by rewrite keys_archive, Hkc, Hkac|]. unfold archive. split.
  { intros name Hn. destruct (Hsin name Hn) as (l & row & Hl & Hrow & _ & Hget).
    exists l, row. split; [done|]. split; [done|].
    by rewrite dict_get_app, dict_get_map, Hget. }
  split.
  { intros name Hn. destruct (Hain name Hn) as (l & row & Hl & Hrow & _ & Hget).
    exists l, row. split; [done|]. split; [done|].
    rewrite dict_get_app, Hs_none by (by left).
    by rewrite dict_get_app, dict_get_map, Hget. }
  split.
  { exists lt, trow. split; [done|]. split; [done|].
    rewrite dict_get_app, Hs_none by (right; by left).
    rewrite dict_get_app, Ha_none by (by left). reflexivity. }
  exists lr, rrow. split; [done|]. split; [done|].
  rewrite dict_get_app, Hs_none by (right; by right).
  rewrite dict_get_app, Ha_none by (by right). reflexivity.
Qed.

(** The machine of the witnesses: [T = 5] and two steps recorded. *)
Lemma two_steps_recorded :
  let m := after (run episode_abandoned) (boot 5 15 7) in
  recording m /\ accumulating m /\ accepted m /\ storable m.
Proof.
  intros m. subst m. split; [|split; [|split]].
  - unfold recording. cbv zeta.
    split; [vm_compute; eexists; reflexivity|].
    split; [by_evaluation|]. split; [by_evaluation|].
    split; [vm_compute; reflexivity|]. split; [vm_compute; reflexivity|].
    split; [vm_compute; eexists; reflexivity|].
    split; [vm_compute; eexists; reflexivity|].
    split; vm_compute; repeat constructor.
  - unfold accumulating. cbv zeta.
    split; [eexists; split; [vm_compute; reflexivity|];
            split; [vm_compute; reflexivity | vm_compute; repeat constructor]|].
    split; [eexists; split; [vm_compute; reflexivity|];
            split; [vm_compute; reflexivity | vm_compute; repeat constructor]|].
    split; eexists; vm_compute; reflexivity.
  - eexists. split; vm_compute; reflexivity.
  - split; [|by_evaluation].
    eexists. split; [vm_compute; reflexivity|]. right. by_evaluation.
Qed.

Lemma accepted_episode_keeps_whole_rows_witness :
  let m := after (run episode_abandoned) (boot 5 15 7) in
  index (self m) = 2%nat
  /\ exists m', write_trace m = Ok (tt, m')
       /\ record_reward (self m') = Some (RArray [1%Q; 2%Q; 7%Q; 7%Q; 7%Q]).
Proof.
  intros m. split; [vm_compute; reflexivity|].
  destruct two_steps_recorded as (Hrec & Hacc & Hok & Hst).
  destruct (accepted_episode_keeps_whole_rows m Hrec Hacc Hok Hst)
    as (m' & Hrun & _ & _ & _ & l & row & El & Erow & _ & Hrr).
  exists m'. split; [exact Hrun|]. rewrite Hrr.
  vm_compute in El, Erow. injection El as <-. injection Erow as <-.
  reflexivity.
Defined.

Lemma accepted_flush_writes_archive_witness :
  let m := after (run episode_abandoned) (boot 5 15 7) in
  exists m' contents, write_trace m = Ok (tt, m')
    /\ dirs (disk m') = ["data/traces"]
    /\ files (disk m')
         = [("data/traces/trace-0-20200101-000000.npz", contents)]
    /\ keys contents = ["speed"; "control"; "validity"; "terminal"; "reward"].
Proof.
  intros m.
  destruct two_steps_recorded as (Hrec & Hacc & Hok & Hst).
  destruct (accepted_flush_writes_archive m Hrec Hacc Hok Hst)
    as (m' & dir & contents & Hrun & Edir & _ & Hdirs & Hfiles & Hkeys & _).
  vm_compute in Edir. injection Edir as <-.
  exists m', contents. split; [exact Hrun|].
  split; [rewrite Hdirs; vm_compute; reflexivity|].
  split; [rewrite Hfiles; vm_compute; reflexivity|].
  rewrite Hkeys. vm_compute. reflexivity.
Defined.

(** ** From [reset] to [write_trace] *)

(** What [reset] leaves is what an accepted [write_trace] starts from: every
    accumulator an empty list, on which the test does not reject. *)
Lemma reset_accepting (m : Machine) :
  NoDup (keys (states_spec (self m))) ->
  NoDup (keys (actions_spec (self m))) ->
  accumulating (after reset m) /\ accepted (after reset m).
Proof.
  intros Hs Ha. unfold after. rewrite reset_run.
  unfold accumulating, accepted, cleared, allocated. agent_simpl.
  rewrite !empty_records_fresh by done.
  assert (Hk : forall (A : Type) (l : list string),
             keys (map (fun name => (name, @RList A [])) l) = l).
  { intros A l. unfold keys. induction l as [|x l IH]; [done|]. cbn. by f_equal. }
  assert (Hl : forall (A : Type) (l : list string),
             Forall (fun kv : string * record A => is_list kv.2)
                    (map (fun name => (name, RList [])) l)).
  { intros A l. by apply Forall_map, Forall_forall. }
  split; [|eexists; split; [done | apply below_threshold_after_reset]].
  split; [eexists; split; [done|]; split; [apply Hk | apply Hl]|].
  split; [eexists; split; [done|]; split; [apply Hk | apply Hl]|].
  split; by eexists.
Qed.

(** * Further properties of the recorder *)

(** ** Calls out of protocol *)

(** X1.  An episode holds at most [max_timesteps] observations: once the
    cursor has reached the capacity, [observe] raises [IndexError] on its
    first statement, whether terminal or not. *)
Theorem observe_beyond_capacity (m : Machine) (reward : Q) (terminal : bool) :
  recording m ->
  (max_timesteps (self m) <= index (self m))%nat ->
  observe reward terminal m = Raise IndexError.
Proof.
  intros (_ & _ & _ & Hrb & _) Hi. cbv zeta in Hrb.
  destruct (one_row_opt_inv _ _ Hrb) as (rrow & Hrrow & Hlen).
  unfold observe. mred. rewrite Hrrow. unfold setitem. simpl.
  destruct (decide _); [lia | reflexivity].
Qed.

Lemma observe_beyond_capacity_witness :
  let m := after (run episode_constant) (boot 3 15 7) in
  index (self m) = 3%nat
  /\ observe 4 false m = Raise IndexError
  /\ observe 4 true m = Raise IndexError.
Proof.
  intros m.
  assert (Hrec : recording m).
  { subst m. unfold recording. cbv zeta.
    split; [vm_compute; eexists; reflexivity|].
    split; [by_evaluation|]. split; [by_evaluation|].
    split; [vm_compute; reflexivity|]. split; [vm_compute; reflexivity|].
    split; [vm_compute; eexists; reflexivity|].
    split; [vm_compute; eexists; reflexivity|].
    split; vm_compute; repeat constructor. }
  split; [vm_compute; reflexivity|].
  split; apply (observe_beyond_capacity m 4 _ Hrec); vm_compute; lia.
Defined.

(** X2.  Before the first [reset] nothing can be recorded: on a newly
    constructed agent [act] raises [AttributeError] (there is no planner),
    and [observe] and [write_trace] raise [TypeError] (the buffers and the
    accumulators are [None]). *)
Theorem calls_before_reset env traces_dir ignore_traffic_light behavior
    reward_threshold (d : Disk) (h : nat -> Q) (c : string)
    (states pa : odict cell) (reward : Q) (terminal : bool) :
  let m := {| self := __init__ env traces_dir ignore_traffic_light behavior
                        reward_threshold;
              disk := d; heap := h; clock := c |} in
  act states pa m = Raise AttributeError
  /\ observe reward terminal m = Raise TypeError
  /\ write_trace m = Raise TypeError.
Proof. intros m. split; [reflexivity|]. split; reflexivity. Qed.

(** A loop over names fails with [e] when one name fails with [e] and the
    names before it succeed or fail with [e] too. *)
Lemma modify_each_raise {V} (P : V -> Prop) (f : string -> V -> result V)
    (names : list string) (e : exn) :
  (forall n x, n ∈ names -> P x ->
     (exists x', f n x = Ok x' /\ P x') \/ f n x = Raise e) ->
  (exists n, n ∈ names /\ forall x, P x -> f n x = Raise e) ->
  forall d : odict V,
  (forall n, n ∈ names -> exists x, dict_get n d = Some x /\ P x) ->
  modify_each f names d = Raise e.
Proof.
  induction names as [|name names IH]; intros Hf (bad & Hbad & Hraise) d Hd.
  - by apply elem_of_nil in Hbad.
  - destruct (Hd name) as (x & Hx & HP); [left|]. simpl. rewrite Hx.
    destruct (Hf name x) as [(x' & Hx' & HP')|Hx']; [left|done| |by rewrite Hx'].
    rewrite Hx'. apply IH.
    + intros n y Hn. apply Hf. by right.
    + exists bad. split; [|done].
      apply elem_of_cons in Hbad as [->|?]; [|done]. by rewrite Hraise in Hx'.
    + intros n Hn. destruct (decide (name = n)) as [<-|Hne].
      * exists x'. by rewrite dict_get_set_eq.
      * rewrite dict_get_set_ne by done. apply Hd. by right.
Qed.

Lemma record_all_raise (values : odict cell) (i T : nat) (names : list string)
    (d : odict (ndarray cell)) :
  (i < T)%nat ->
  (exists name, name ∈ names /\ name ∉ keys values) ->
  Forall (fun name => one_row_opt T (dict_get name d)) names ->
  modify_each (record_at values i) names d = Raise KeyError.
Proof.
  intros Hi (bad & Hbad & Hmiss) Hall.
  apply (modify_each_raise (fun buf => exists row, buf = [row] /\ length row = T)).
  - intros n buf _ (row & -> & Hlen). unfold record_at.
    destruct (dict_get n values) as [v|]; [left|by right].
    rewrite setitem_one_row by lia. eexists. split; [done|].
    eexists. split; [done|]. by rewrite length_insert.
  - exists bad. split; [done|]. intros x _. unfold record_at.
    by rewrite (dict_get_None _ _ Hmiss).
  - intros n Hn. rewrite Forall_forall in Hall.
    destruct (one_row_opt_inv _ _ (Hall n Hn)) as (row & Hrow & Hlen).
    exists [row]. split; [done|]. by exists row.
Qed.

(** X3.  [act] needs every declared component: when [states] lacks a name of
    [states_spec], or the policy's actions lack a name of [actions_spec],
    [act] raises [KeyError]. *)
Theorem act_missing_component (m : Machine) (states pa : odict cell) :
  recording m ->
  (index (self m) < max_timesteps (self m))%nat ->
  (exists name, name ∈ keys (states_spec (self m)) /\ name ∉ keys states)
  \/ (exists name, name ∈ keys (actions_spec (self m)) /\ name ∉ keys pa) ->
  act states pa m = Raise KeyError.
Proof.
  intros ([pl Hpl] & Hnds & Hnda & _ & _ & [sb Esb] & [ab Eab] & Hsb & Hab) Hi Hmiss.
  cbv zeta in *. rewrite Esb in Hsb. rewrite Eab in Hab. simpl in Hsb, Hab.
  assert (Hloop_s : forall m0 : Machine,
            states_buffers (self m0) = Some sb ->
            states_spec (self m0) = states_spec (self m) ->
            index (self m0) = index (self m) ->
            for_each (keys (states_spec (self m)))
              (fun name =>
                 v <- subscript states name ;;
                 bufs <- not_none TypeError states_buffers ;;
                 buf <- subscript bufs name ;;
                 i <- attr index ;;
                 buf' <- lift (setitem buf 0 i v) ;;
                 update (set_states_buffers (Some (dict_set name buf' bufs)))) m0
            = match modify_each (record_at states (index (self m)))
                      (keys (states_spec (self m))) sb with
              | Raise e => Raise e
              | Ok sb' => Ok (tt, with_self (set_states_buffers (Some sb') (self m0)) m0)
              end).
  { intros m0 E0 _ Ei.
    erewrite (for_each_modify states_buffers set_states_buffers
               (fun a => record_at states (index a)));
      [ rewrite Ei; reflexivity | done | done | by intros [] | done | | exact E0 ].
    intros name m1 d Hd. mred. unfold record_at.
    destruct (dict_get name states) as [v|]; cbv beta iota.
    - rewrite Hd. destruct (dict_get name d); [|reflexivity].
      destruct (setitem _ _ _ _); reflexivity.
    - destruct (dict_get name d); reflexivity. }
  assert (Hloop_a : forall m0 : Machine,
            actions_buffers (self m0) = Some ab ->
            index (self m0) = index (self m) ->
            for_each (keys (actions_spec (self m)))
              (fun name =>
                 v <- subscript pa name ;;
                 bufs <- not_none TypeError actions_buffers ;;
                 buf <- subscript bufs name ;;
                 i <- attr index ;;
                 buf' <- lift (setitem buf 0 i v) ;;
                 update (set_actions_buffers (Some (dict_set name buf' bufs)))) m0
            = match modify_each (record_at pa (index (self m)))
                      (keys (actions_spec (self m))) ab with
              | Raise e => Raise e
              | Ok ab' => Ok (tt, with_self (set_actions_buffers (Some ab') (self m0)) m0)
              end).
  { intros m0 E0 Ei.
    erewrite (for_each_modify actions_buffers set_actions_buffers
               (fun a => record_at pa (index a)));
      [ rewrite Ei; reflexivity | done | done | by intros [] | done | | exact E0 ].
    intros name m1 d Hd. mred. unfold record_at.
    destruct (dict_get name pa) as [v|]; cbv beta iota.
    - rewrite Hd. destruct (dict_get name d); [|reflexivity].
      destruct (setitem _ _ _ _); reflexivity.
    - destruct (dict_get name d); reflexivity. }
  unfold act.
  erewrite bind_ok by (unfold not_none; rewrite Hpl; reflexivity).
  cbv zeta. erewrite bind_ok by reflexivity.
  destruct (decide (Forall (fun n => n ∈ keys states) (keys (states_spec (self m)))))
    as [Hall|Hnot].
  - destruct Hmiss as [(bad & Hbad & Hb)|Hmiss].
    { rewrite Forall_forall in Hall. by destruct (Hb (Hall _ Hbad)). }
    destruct (record_all_ok states _ _ _ sb Hnds Hi) as (sb' & Hs & _);
      [intros n Hn; rewrite Forall_forall in Hall; by apply Hall | done |].
    erewrite bind_ok by (rewrite (Hloop_s m Esb eq_refl eq_refl), Hs; reflexivity).
    erewrite bind_ok by reflexivity.
    unfold bind at 1. agent_simpl.
    rewrite Hloop_a; [|exact Eab|reflexivity].
    by rewrite (record_all_raise pa _ _ _ ab Hi Hmiss Hab).
  - apply not_Forall_Exists in Hnot; [|apply _].
    apply Exists_exists in Hnot as (bad & Hbad & Hb).
    unfold bind at 1. rewrite (Hloop_s m Esb eq_refl eq_refl).
    rewrite (record_all_raise states _ _ _ sb Hi); [done| |done].
    by exists bad.
Qed.

Lemma act_missing_component_witness :
  let m := after reset (boot 5 15 7) in
  act [] [("control", [1%Q]); ("validity", [0%Q])] m = Raise KeyError
  /\ act [("speed", [0%Q])] [("control", [1%Q])] m = Raise KeyError.
Proof.
  intros m.
  assert (Hrec : recording m).
  { subst m. unfold recording. cbv zeta.
    split; [vm_compute; eexists; reflexivity|].
    split; [by_evaluation|]. split; [by_evaluation|].
    split; [vm_compute; reflexivity|]. split; [vm_compute; reflexivity|].
    split; [vm_compute; eexists; reflexivity|].
    split; [vm_compute; eexists; reflexivity|].
    split; vm_compute; repeat constructor. }
  split; apply (act_missing_component m _ _ Hrec); try (vm_compute; lia).
  - left. exists "speed". split; by_evaluation.
  - right. exists "validity". split; by_evaluation.
Defined.

(** ** [write_trace] out of protocol *)

(** The accepting branch of [write_trace] up to the appended accumulators. *)
Lemma write_trace_appends (m : Machine) lt lr rs ra rs' ra' trow rrow :
  let a := self m in
  let T := max_timesteps a in
  record_reward a = Some (RList lr) ->
  below_threshold (RList lr) (reward_threshold a) = Ok false ->
  record_terminal a = Some (RList lt) ->
  record_states a = Some rs ->
  record_actions a = Some ra ->
  modify_each (append_slice (states_buffers a) T) (keys (states_spec a)) rs = Ok rs' ->
  modify_each (append_slice (actions_buffers a) T) (keys (actions_spec a)) ra = Ok ra' ->
  terminal_buffers a = Some [trow] ->
  reward_buffers a = Some [rrow] ->
  write_trace m =
    store_records
      (with_self (set_record_reward (Some (RList (lr ++ [take T rrow])))
                    (set_record_terminal (Some (RList (lt ++ [take T trow])))
                       (set_record_actions (Some ra')
                          (set_record_states (Some rs') a)))) m).
Proof.
  intros a T Hrr Hgate Hrt Hrs Hra Hms Hma Htb Hrb. subst a T.
  destruct m as [a dk hp ck].
  destruct a as [e T i td ep th ss asp tb rb sb ab rs0 ra0 rt rr ag ar].
  agent_simpl. subst.
  unfold write_trace. mstep. mstep. mstep.
  mstep_by ltac:(rewrite Hgate; reflexivity).
  mstep.
  erewrite bind_ok; cycle 1.
  { erewrite (for_each_modify record_states set_record_states
               (fun a => append_slice (states_buffers a) T));
      [ agent_simpl; rewrite Hms; reflexivity | done | done | by intros []
      | done | | reflexivity ].
    intros name m0 d Hd. mred. rewrite Hd. unfold append_slice.
    destruct (dict_get name d) as [rec|]; [|reflexivity]. cbv beta iota.
    destruct (getattr_append rec); [|reflexivity]. cbv beta iota.
    destruct (states_buffers (self m0)) as [bufs|]; [|reflexivity]. cbv beta iota.
    destruct (dict_get name bufs) as [buf|]; [|reflexivity]. cbv beta iota.
    destruct (getslice buf 0 _); [|reflexivity]. cbv beta iota.
    destruct (append rec _); reflexivity. }
  agent_simpl. mstep.
  erewrite bind_ok; cycle 1.
  { erewrite (for_each_modify record_actions set_record_actions
               (fun a => append_slice (actions_buffers a) T));
      [ agent_simpl; rewrite Hma; reflexivity | done | done | by intros []
      | done | | reflexivity ].
    intros name m0 d Hd. mred. rewrite Hd. unfold append_slice.
    destruct (dict_get name d) as [rec|]; [|reflexivity]. cbv beta iota.
    destruct (getattr_append rec); [|reflexivity]. cbv beta iota.
    destruct (actions_buffers (self m0)) as [bufs|]; [|reflexivity]. cbv beta iota.
    destruct (dict_get name bufs) as [buf|]; [|reflexivity]. cbv beta iota.
    destruct (getslice buf 0 _); [|reflexivity]. cbv beta iota.
    destruct (append rec _); reflexivity. }
  agent_simpl. do 12 mstep. reflexivity.
Qed.

Lemma write_trace_to_store (m : Machine) :
  recording m -> accumulating m -> accepted m ->
  exists rs' ra' rsc rac lt lr trow rrow,
    let a := self m in
    record_terminal a = Some (RList lt)
    /\ record_reward a = Some (RList lr)
    /\ terminal_buffers a = Some [trow]
    /\ reward_buffers a = Some [rrow]
    /\ fmap_concatenate rs' = Ok rsc
    /\ fmap_concatenate ra' = Ok rac
    /\ keys rsc = keys (states_spec a)
    /\ keys rac = keys (actions_spec a)
    /\ write_trace m =
         store_records
           (with_self (set_record_reward (Some (RList (lr ++ [rrow])))
                         (set_record_terminal (Some (RList (lt ++ [trow])))
                            (set_record_actions (Some ra')
                               (set_record_states (Some rs') a)))) m).
Proof.
  intros (_ & Hnds & Hnda & Hrb & Htb & [sb Esb] & [ab Eab] & Hsb & Hab)
         ((rs & Ers & Hkrs & Hlrs) & (ra & Era & Hkra & Hlra) & [lt Elt] & [lr Elr])
         (rr & Err & Hgate).
  cbv zeta in *. rewrite Esb in Hsb. rewrite Eab in Hab. simpl in Hsb, Hab.
  rewrite Elr in Err. injection Err as <-.
  destruct (one_row_opt_inv _ _ Hrb) as (rrow & Errow & Hrlen).
  destruct (one_row_opt_inv _ _ Htb) as (trow & Etrow & Htlen).
  destruct (append_all_ok _ sb _ rs Hnds Hkrs Hlrs Hsb)
    as (rs' & rsc & Hms & Hcs & Hkc & _).
  destruct (append_all_ok _ ab _ ra Hnda Hkra Hlra Hab)
    as (ra' & rac & Hma & Hca & Hkac & _).
  exists rs', ra', rsc, rac, lt, lr, trow, rrow.
  do 8 (split; [done|]).
  pose proof (write_trace_appends m lt lr rs ra rs' ra' trow rrow) as Hrun.
  cbv zeta in Hrun. rewrite !firstn_all2 in Hrun by lia.
  apply Hrun; try done.
  - by rewrite Esb.
  - by rewrite Eab.
Qed.

(** X4.  Without a configured directory ([traces_dir=None], the default of
    the constructor) an accepted [write_trace] raises [TypeError]: no
    archive can be stored. *)
Theorem write_trace_without_directory (m : Machine) :
  recording m -> accumulating m -> accepted m ->
  traces_dir (self m) = None ->
  write_trace m = Raise TypeError.
Proof.
  intros Hrec Hacc Hok Hdir.
  destruct (write_trace_to_store m Hrec Hacc Hok)
    as (rs' & ra' & rsc & rac & lt & lr & trow & rrow & _ & _ & _ & _ & _ & _ & _ & _ & ->).
  unfold store_records, bind, not_none. agent_simpl. by rewrite Hdir.
Qed.

(** X5.  When the configured directory does not exist and a file has its
    name, an accepted [write_trace] raises [FileExistsError]. *)
Theorem write_trace_directory_is_a_file (m : Machine) (dir : string) :
  recording m -> accumulating m -> accepted m ->
  traces_dir (self m) = Some dir ->
  dir ∉ dirs (disk m) ->
  dir ∈ (files (disk m)).*1 ->
  write_trace m = Raise FileExistsError.
Proof.
  intros Hrec Hacc Hok Hdir Hnd Hf.
  destruct (write_trace_to_store m Hrec Hacc Hok)
    as (rs' & ra' & rsc & rac & lt & lr & trow & rrow & _ & _ & _ & _ & _ & _ & _ & _ & ->).
  unfold store_records. mstep_by ltac:(unfold not_none; agent_simpl; rewrite Hdir; reflexivity).
  mstep. rewrite (bool_decide_eq_false_2 _ Hnd).
  unfold bind at 1, os_makedirs. agent_simpl.
  rewrite (bool_decide_eq_false_2 _ Hnd), (bool_decide_eq_true_2 _ Hf). reflexivity.
Qed.

(** X6.  The names of the components are passed to
    [np.savez_compressed] as keywords beside [terminal] and [reward]: when
    two of them coincide, or one is [file], an accepted [write_trace] raises
    [TypeError]. *)
Theorem write_trace_keyword_clash (m : Machine) (dir : string) :
  recording m -> accumulating m -> accepted m ->
  traces_dir (self m) = Some dir ->
  dir ∈ dirs (disk m) \/ dir ∉ (files (disk m)).*1 ->
  ~ NoDup ("file" :: keys (states_spec (self m))
                  ++ keys (actions_spec (self m)) ++ ["terminal"; "reward"])%list ->
  write_trace m = Raise TypeError.
Proof.
  intros Hrec Hacc Hok Hdir Hfree Hdup.
  destruct (write_trace_to_store m Hrec Hacc Hok)
    as (rs' & ra' & rsc & rac & lt & lr & trow & rrow
        & _ & _ & _ & _ & Hcs & Hca & Hkc & Hkac & ->).
  destruct m as [a dk hp ck]. agent_simpl.
  unfold store_records.
  mstep_by ltac:(unfold not_none; agent_simpl; rewrite Hdir; reflexivity).
  mstep.
  erewrite bind_ok
    by (apply (makedirs_if_absent dir
                 {| self := _; disk := dk; heap := hp; clock := ck |});
        exact Hfree).
  agent_simpl. do 3 mstep.
  mstep_by ltac:(rewrite Hcs; reflexivity). do 2 mstep.
  mstep_by ltac:(rewrite Hca; reflexivity). do 2 mstep.
  mstep_by ltac:(rewrite concatenate_snoc; reflexivity). do 2 mstep.
  mstep_by ltac:(rewrite concatenate_snoc; reflexivity). mstep.
  unfold np_savez_compressed. agent_simpl.
  rewrite bool_decide_eq_false_2; [reflexivity|].
  intros Hnd. apply Hdup.
  pose proof (keys_archive rsc rac (RArray (concat (lt ++ [trow])))
                (RArray (concat (lr ++ [rrow])))) as Hk.
  unfold archive, keys in Hk. rewrite Hk in Hnd.
  unfold keys in *. by rewrite <- Hkc, <- Hkac.
Qed.

(** ** A second [write_trace] without [reset] *)

Lemma append_slice_array {A} (bufs : option (odict (ndarray A))) (n : nat)
    (name : string) (x : list A) :
  append_slice bufs n name (RArray x) = Raise AttributeError.
Proof. reflexivity. Qed.

Lemma append_loop_on_arrays {A} (bufs : option (odict (ndarray A))) (n : nat)
    (names : list string) (recs : odict (record A)) :
  Forall (fun name => exists x, dict_get name recs = Some (RArray x)) names ->
  modify_each (append_slice bufs n) names recs
  = match names with [] => Ok recs | _ => Raise AttributeError end.
Proof.
  intros Hall. destruct names as [|name names]; [done|].
  apply (modify_each_raise is_array).
  - intros k [l|x] _ HP; [done|]. by right.
  - exists name. split; [left|]. by intros [l|x] HP.
  - intros k Hk. rewrite Forall_forall in Hall.
    destruct (Hall k Hk) as [x Hx]. by exists (RArray x).
Qed.

(** Once the accumulators are arrays, [write_trace] either rejects, or
    fails at the first [append]. *)
Lemma write_trace_on_arrays (m : Machine) (x : list Q) :
  archived m ->
  record_reward (self m) = Some (RArray x) ->
  write_trace m =
    if Qltb (Qsum x) (reward_threshold (self m) * inject_Z (Z.of_nat (length x)))
    then Ok (tt, m) else Raise AttributeError.
Proof.
  intros ((rs & Ers & Hrs) & (ra & Era & Hra) & (y & Ert) & _) Err.
  cbv zeta in *.
  destruct (Qltb _ _) eqn:Egate.
  { assert (Hgate : below_threshold (RArray x) (reward_threshold (self m)) = Ok true).
    { unfold below_threshold. simpl. by rewrite Egate. }
    unfold write_trace. mred. rewrite Err, Hgate.
    unfold time_strftime. reflexivity. }
  destruct m as [a dk hp ck].
  destruct a as [e T i td ep th ss asp tb rb sb ab rs0 ra0 rt rr ag ar].
  agent_simpl. subst.
  unfold write_trace. do 3 mstep.
  mstep_by ltac:(unfold below_threshold; simpl; rewrite Egate; reflexivity).
  mstep. unfold bind at 1.
  erewrite (for_each_modify record_states set_record_states
             (fun a => append_slice (states_buffers a) T));
    [ | done | done | by intros [] | done | | reflexivity ]; cycle 1.
  { intros name m0 d Hd. mred. rewrite Hd. unfold append_slice.
    destruct (dict_get name d) as [rec|]; [|reflexivity]. cbv beta iota.
    destruct (getattr_append rec); [|reflexivity]. cbv beta iota.
    destruct (states_buffers (self m0)) as [bufs|]; [|reflexivity]. cbv beta iota.
    destruct (dict_get name bufs) as [buf|]; [|reflexivity]. cbv beta iota.
    destruct (getslice buf 0 _); [|reflexivity]. cbv beta iota.
    destruct (append rec _); reflexivity. }
  agent_simpl. rewrite (append_loop_on_arrays _ _ _ _ Hrs).
  destruct (keys ss); [|reflexivity]. agent_simpl.
  mstep. unfold bind at 1.
  erewrite (for_each_modify record_actions set_record_actions
             (fun a => append_slice (actions_buffers a) T));
    [ | done | done | by intros [] | done | | reflexivity ]; cycle 1.
  { intros name m0 d Hd. mred. rewrite Hd. unfold append_slice.
    destruct (dict_get name d) as [rec|]; [|reflexivity]. cbv beta iota.
    destruct (getattr_append rec); [|reflexivity]. cbv beta iota.
    destruct (actions_buffers (self m0)) as [bufs|]; [|reflexivity]. cbv beta iota.
    destruct (dict_get name bufs) as [buf|]; [|reflexivity]. cbv beta iota.
    destruct (getslice buf 0 _); [|reflexivity]. cbv beta iota.
    destruct (append rec _); reflexivity. }
  agent_simpl. rewrite (append_loop_on_arrays _ _ _ _ Hra).
  destruct (keys asp); [|reflexivity]. agent_simpl.
  mstep. reflexivity.
Qed.

(** X7.  One trace per [reset].  After [write_trace] has stored an archive
    the accumulators are arrays, and a further [write_trace] without [reset]
    stores nothing: either its test, now on the rewards already stored,
    rejects and nothing changes, or the first [append] raises
    [AttributeError]. *)
Theorem second_flush_without_reset (m : Machine) :
  recording m -> accumulating m -> accepted m -> storable m ->
  exists m' x,
    write_trace m = Ok (tt, m')
    /\ record_reward (self m') = Some (RArray x)
    /\ write_trace m' =
         if Qltb (Qsum x)
                 (reward_threshold (self m) * inject_Z (Z.of_nat (length x)))
         then Ok (tt, m') else Raise AttributeError.
Proof.
  intros Hrec Hacc Hok Hst.
  destruct (write_trace_accepts m Hrec Hacc Hok Hst)
    as (dir & rsc & rac & lt & lr & trow & rrow & _ & Elt & Elr & Etb & Erb
        & Htl & Hrl & Hkc & Hkac & Hsin & Hain & Hrun).
  eexists. exists (concat (lr ++ [rrow])). split; [exact Hrun|].
  split; [reflexivity|].
  rewrite (write_trace_on_arrays _ (concat (lr ++ [rrow]))); [reflexivity| |reflexivity].
  unfold archived. agent_simpl.
  split; [eexists; split; [reflexivity|]|].
  { apply Forall_forall. intros name Hn.
    destruct (Hsin name Hn) as (l & row & _ & _ & _ & Hget). eauto. }
  split; [eexists; split; [reflexivity|]|].
  { apply Forall_forall. intros name Hn.
    destruct (Hain name Hn) as (l & row & _ & _ & _ & Hget). eauto. }
  split; by eexists.
Qed.

(** ** An episode from [reset] to the stored trace *)

Lemma one_row_opt_intro {A} (T : nat) (row : list A) :
  length row = T -> one_row_opt T (Some [row]).
Proof. done. Qed.

(** The steps of a terminal [observe] before [write_trace]. *)
Lemma observe_terminal_run (m : Machine) (reward : Q) rrow trow ab crow vrow old :
  reward_buffers (self m) = Some [rrow] ->
  terminal_buffers (self m) = Some [trow] ->
  (index (self m) < length rrow)%nat ->
  (index (self m) < length trow)%nat ->
  actions_buffers (self m) = Some ab ->
  dict_get "control" ab = Some [crow] ->
  dict_get "validity" ab = Some [vrow] ->
  vrow !! 0%nat = Some old ->
  observe reward true m =
    write_trace
      (with_self
         (set_actions_buffers
            (Some (dict_set "validity" [<[0%nat := map (fun _ => 1%Q) old]> vrow] ab))
            (set_episodes (episodes (self m) + 1)
               (set_index (index (self m) + 1)
                  (set_terminal_buffers (Some [<[index (self m) := 1%Q]> trow])
                     (set_reward_buffers (Some [<[index (self m) := reward]> rrow])
                        (self m)))))) m).
Proof.
  intros Hr Ht Hir Hit Hab Hc Hv Ho.
  destruct m as [a dk hp ck].
  destruct a as [e T i td ep th ss asp tb rb sb ab0 rs ra rt rr ag ar].
  agent_simpl. subst. unfold observe.
  do 2 mstep. mstep_by ltac:(rewrite setitem_one_row by done; reflexivity).
  do 3 mstep. mstep_by ltac:(rewrite setitem_one_row by done; reflexivity).
  do 3 mstep.
  erewrite bind_ok; [reflexivity|].
  erewrite compute_action_validity_run; [reflexivity|reflexivity|exact Hc|exact Hv|exact Ho].
Qed.

(** The archive of an accepted [write_trace], for the proofs below. *)
Lemma write_trace_archive (m : Machine) :
  recording m -> accumulating m -> accepted m -> storable m ->
  exists m' dir contents,
    write_trace m = Ok (tt, m')
    /\ traces_dir (self m) = Some dir
    /\ dir ∈ dirs (disk m')
    /\ dirs (disk m') = (if bool_decide (dir ∈ dirs (disk m))
                         then dirs (disk m) else dir :: dirs (disk m))
    /\ files (disk m')
         = dict_set
             (os_path_join dir
                ("trace-" ++ pretty (episodes (self m)) ++ "-" ++ clock m ++ ".npz"))
             contents (files (disk m))
    /\ keys contents = (keys (states_spec (self m))
                        ++ keys (actions_spec (self m))
                        ++ ["terminal"; "reward"])%list
    /\ (forall name, name ∈ keys (states_spec (self m)) ->
          exists l row, component (record_states (self m)) name = Some (RList l)
            /\ component (states_buffers (self m)) name = Some [row]
            /\ dict_get name contents = Some (NpyN (concat (l ++ [row]))))
    /\ (forall name, name ∈ keys (actions_spec (self m)) ->
          exists l row, component (record_actions (self m)) name = Some (RList l)
            /\ component (actions_buffers (self m)) name = Some [row]
            /\ dict_get name contents = Some (NpyN (concat (l ++ [row]))))
    /\ (exists l row, record_terminal (self m) = Some (RList l)
          /\ terminal_buffers (self m) = Some [row]
          /\ dict_get "terminal" contents = Some (Npy1 (concat (l ++ [row]))))
    /\ (exists l row, record_reward (self m) = Some (RList l)
          /\ reward_buffers (self m) = Some [row]
          /\ dict_get "reward" contents = Some (Npy1 (concat (l ++ [row])))).
Proof.
  intros Hrec Hacc Hok Hst.
  destruct (write_trace_accepts m Hrec Hacc Hok Hst)
    as (dir & rsc & rac & lt & lr & trow & rrow & Edir & Elt & Elr & Etb & Erb
        & Htl & Hrl & Hkc & Hkac & Hsin & Hain & Hrun).
  destruct Hst as [_ Hkw]. apply NoDup_cons in Hkw as [_ Hkw].
  apply NoDup_app in Hkw as (_ & Hsa & Hkw).
  apply NoDup_app in Hkw as (_ & Hat & _).
  assert (Hs_none : forall name, name ∈ keys (actions_spec (self m))
                      \/ name = "terminal" \/ name = "reward" ->
            dict_get name (map (fun kv => (kv.1, npy_of_cells kv.2)) rsc) = None).
  { intros name Hn. apply dict_get_None. intros Hin.
    assert (Hin' : name ∈ keys (states_spec (self m))).
    { rewrite <- Hkc. unfold keys in *. rewrite <- list_fmap_compose in Hin.
      exact Hin. }
    apply (Hsa _ Hin'). rewrite elem_of_app.
    destruct Hn as [?|[->| ->]]; [by left| |]; right.
    - apply list_elem_of_here.
    - apply list_elem_of_further, list_elem_of_here. }
  assert (Ha_none : forall name, name = "terminal" \/ name = "reward" ->
            dict_get name (map (fun kv => (kv.1, npy_of_cells kv.2)) rac) = None).
  { intros name Hn. apply dict_get_None. intros Hin.
    assert (Hin' : name ∈ keys (actions_spec (self m))).
    { rewrite <- Hkac. unfold keys in *. rewrite <- list_fmap_compose in Hin.
      exact Hin. }
    apply (Hat _ Hin'). destruct Hn as [->| ->].
    - apply list_elem_of_here.
    - apply list_elem_of_further, list_elem_of_here. }
  eexists. exists dir. eexists. split; [exact Hrun|]. agent_simpl.
  split; [exact Edir|]. split.
  { destruct (bool_decide (dir ∈ dirs (disk m))) eqn:E.
    - by apply bool_decide_eq_true in E.
    - left. }
  split; [reflexivity|]. split; [reflexivity|].
  split; [by rewrite keys_archive, Hkc, Hkac|]. unfold archive. split.
  { intros name Hn. destruct (Hsin name Hn) as (l & row & Hl & Hrow & _ & Hget).
    exists l, row. split; [done|]. split; [done|].
    by rewrite dict_get_app, dict_get_map, Hget. }
  split.
  { intros name Hn. destruct (Hain name Hn) as (l & row & Hl & Hrow & _ & Hget).
    exists l, row. split; [done|]. split; [done|].
    rewrite dict_get_app, Hs_none by (by left).
    by rewrite dict_get_app, dict_get_map, Hget. }
  split.
  { exists lt, trow. split; [done|]. split; [done|].
    rewrite dict_get_app, Hs_none by (right; by left).
    rewrite dict_get_app, Ha_none by (by left). reflexivity. }
  exists lr, rrow. split; [done|]. split; [done|].
  rewrite dict_get_app, Hs_none by (right; by right).
  rewrite dict_get_app, Ha_none by (by right). reflexivity.
Qed.

(** A terminal [observe] on a ready agent, for the two theorems below. *)
Lemma terminal_observe_archive (m : Machine) (reward : Q) :
  ready m ->
  (index (self m) < max_timesteps (self m))%nat ->
  exists m' dir contents,
    observe reward true m = Ok (tt, m')
    /\ index (self m') = (index (self m) + 1)%nat
    /\ episodes (self m') = (episodes (self m) + 1)%nat
    /\ traces_dir (self m) = Some dir
    /\ files (disk m')
         = dict_set
             (os_path_join dir
                (trace_filename (episodes (self m) + 1) (clock m)))
             contents (files (disk m))
    /\ (exists l row, record_reward (self m) = Some (RList l)
          /\ reward_buffers (self m) = Some [row]
          /\ dict_get "reward" contents
               = Some (Npy1 (concat (l ++ [<[index (self m) := reward]> row]))))
    /\ (exists l row, record_terminal (self m) = Some (RList l)
          /\ terminal_buffers (self m) = Some [row]
          /\ dict_get "terminal" contents
               = Some (Npy1 (concat (l ++ [<[index (self m) := 1%Q]> row]))))
    /\ (exists l row old,
          component (record_actions (self m)) "validity" = Some (RList l)
          /\ component (actions_buffers (self m)) "validity" = Some [row]
          /\ row !! 0%nat = Some old
          /\ dict_get "validity" contents
               = Some (NpyN (concat (l ++ [<[0%nat := map (fun _ => 1%Q) old]> row])))).
Proof.
  intros (Hrec & Hacc & Hok & Hst & Hc & Hv) Hi.
  pose proof Hrec as (Hag & Hnds & Hnda & Hrb & Htb & Hssb & [ab Eab] & Hsb & Hab).
  cbv zeta in *.
  destruct (one_row_opt_inv _ _ Hrb) as (rrow & Errow & Hrlen).
  destruct (one_row_opt_inv _ _ Htb) as (trow & Etrow & Htlen).
  rewrite Eab in Hab. simpl in Hab. rewrite Forall_forall in Hab.
  destruct (one_row_opt_inv _ _ (Hab _ Hc)) as (crow & Ecrow & Hclen).
  destruct (one_row_opt_inv _ _ (Hab _ Hv)) as (vrow & Evrow & Hvlen).
  destruct (vrow !! 0%nat) as [old|] eqn:Eold;
    [|apply lookup_ge_None_1 in Eold; lia].
  rewrite (observe_terminal_run m reward rrow trow ab crow vrow old)
    by (done || lia).
  set (m3 := with_self _ m).
  assert (Hrec3 : recording m3).
  { unfold recording, m3. agent_simpl. simpl.
    split; [done|]. split; [done|]. split; [done|].
    split; [by rewrite length_insert|]. split; [by rewrite length_insert|].
    split; [done|]. split; [by eexists|]. split; [done|].
    apply Forall_forall. intros name Hn.
    destruct (decide ("validity" = name)) as [<-|Hne].
    - rewrite dict_get_set_eq. simpl. by rewrite length_insert.
    - rewrite dict_get_set_ne by done. by apply Hab. }
  assert (Hacc3 : accumulating m3) by exact Hacc.
  assert (Hok3 : accepted m3) by exact Hok.
  assert (Hst3 : storable m3) by exact Hst.
  destruct (write_trace_archive m3 Hrec3 Hacc3 Hok3 Hst3)
    as (m' & dir & contents & Hrun & Edir & _ & _ & Hfiles & _ & _ & Hain & Ht & Hr).
  exists m', dir, contents. split; [exact Hrun|].
  destruct (write_trace_accepts m3 Hrec3 Hacc3 Hok3 Hst3)
    as (dir' & rsc & rac & lt & lr & trow' & rrow' & _ & _ & _ & _ & _ & _ & _
        & _ & _ & _ & _ & Hrun').
  rewrite Hrun in Hrun'. injection Hrun' as ->.
  split; [reflexivity|]. split; [reflexivity|]. split; [exact Edir|].
  split; [exact Hfiles|].
  destruct Hr as (l & row & El & Erow & Hget).
  destruct Ht as (l' & row' & El' & Erow' & Hget').
  destruct (Hain "validity" Hv) as (lv & rowv & Elv & Erowv & Hgetv).
  unfold m3 in El, Erow, El', Erow', Elv, Erowv. agent_simpl.
  injection Erow as <-. injection Erow' as <-.
  cbn [component] in Erowv. rewrite dict_get_set_eq in Erowv.
  injection Erowv as <-.
  split; [by exists l, rrow|]. split; [by exists l', trow|].
  exists lv, vrow, old. rewrite Eab. simpl. done.
Qed.

(** X8.  The last step of an episode.  A terminal [observe] on a ready
    agent whose cursor is within the capacity returns; it advances the cursor
    and the episode counter by one and stores one archive, named after the
    new counter, whose [reward] and [terminal] arrays are the buffer rows with
    this step's reward and the flag 1 at the cursor, and whose [validity]
    array is the recorded row with 1 in slot 0. *)
Theorem terminal_observe_stores_episode (m : Machine) (reward : Q) :
  ready m ->
  (index (self m) < max_timesteps (self m))%nat ->
  exists m' dir contents,
    observe reward true m = Ok (tt, m')
    /\ index (self m') = (index (self m) + 1)%nat
    /\ episodes (self m') = (episodes (self m) + 1)%nat
    /\ traces_dir (self m) = Some dir
    /\ files (disk m')
         = dict_set
             (os_path_join dir
                (trace_filename (episodes (self m) + 1) (clock m)))
             contents (files (disk m))
    /\ (exists l row, record_reward (self m) = Some (RList l)
          /\ reward_buffers (self m) = Some [row]
          /\ dict_get "reward" contents
               = Some (Npy1 (concat (l ++ [<[index (self m) := reward]> row]))))
    /\ (exists l row, record_terminal (self m) = Some (RList l)
          /\ terminal_buffers (self m) = Some [row]
          /\ dict_get "terminal" contents
               = Some (Npy1 (concat (l ++ [<[index (self m) := 1%Q]> row]))))
    /\ (exists l row old,
          component (record_actions (self m)) "validity" = Some (RList l)
          /\ component (actions_buffers (self m)) "validity" = Some [row]
          /\ row !! 0%nat = Some old
          /\ dict_get "validity" contents
               = Some (NpyN (concat (l ++ [<[0%nat := map (fun _ => 1%Q) old]> row])))).
Proof. exact (terminal_observe_archive m reward). Qed.

Lemma run_app (cs1 cs2 : list call) (m : Machine) :
  run (cs1 ++ cs2) m =
    match run cs1 m with
    | Ok (_, m1) => run cs2 m1
    | Raise e => Raise e
    end.
Proof.
  unfold run. revert m. induction cs1 as [|c cs1 IH]; intros m; [done|].
  simpl. unfold bind. destruct (step c m) as [[[] m1]|e]; [apply IH | done].
Qed.

(** The recording loops of [act] keep the shape of the buffers. *)
Lemma record_all_one_row (values : odict cell) (i T : nat) (names : list string)
    (d d' : odict (ndarray cell)) :
  NoDup names ->
  (i < T)%nat ->
  names ⊆ keys values ->
  Forall (fun name => one_row_opt T (dict_get name d)) names ->
  modify_each (record_at values i) names d = Ok d' ->
  Forall (fun name => one_row_opt T (dict_get name d')) names.
Proof.
  intros Hnd Hi Hsub Hall Hrun.
  destruct (record_all_ok values i T names d Hnd Hi Hsub Hall)
    as (d'' & Hrun' & Hin & _).
  rewrite Hrun in Hrun'. injection Hrun' as <-.
  rewrite Forall_forall in *. intros name Hn.
  destruct (Hin name Hn) as (v & row & _ & Hrow & ->).
  specialize (Hall name Hn). rewrite Hrow in Hall. simpl in *.
  by rewrite length_insert.
Qed.

(** One non-terminal tick on a ready agent. *)
Lemma tick_ready (m : Machine) (states pa : odict cell) (reward : Q) :
  ready m ->
  (index (self m) < max_timesteps (self m))%nat ->
  keys (states_spec (self m)) ⊆ keys states ->
  keys (actions_spec (self m)) ⊆ keys pa ->
  exists sb' ab' rrow trow,
    reward_buffers (self m) = Some [rrow]
    /\ terminal_buffers (self m) = Some [trow]
    /\ length rrow = max_timesteps (self m)
    /\ let m2 := with_self
                   (set_index (index (self m) + 1)
                      (set_terminal_buffers (Some [<[index (self m) := 0%Q]> trow])
                         (set_reward_buffers (Some [<[index (self m) := reward]> rrow])
                            (set_actions_buffers (Some ab')
                               (set_states_buffers (Some sb') (self m)))))) m in
       run [Act states pa; Observe reward false] m = Ok (tt, m2) /\ ready m2.
Proof.
  intros (Hrec & Hacc & Hok & Hst & Hc & Hv) Hi Hks Hka.
  pose proof Hrec as (Hag & Hnds & Hnda & Hrb & Htb & [sb Esb] & [ab Eab] & Hsb & Hab).
  cbv zeta in *. rewrite Esb in Hsb. rewrite Eab in Hab. simpl in Hsb, Hab.
  destruct (one_row_opt_inv _ _ Hrb) as (rrow & Errow & Hrlen).
  destruct (one_row_opt_inv _ _ Htb) as (trow & Etrow & Htlen).
  destruct (record_all_ok states _ _ _ sb Hnds Hi Hks Hsb) as (sb' & Hs & _).
  destruct (record_all_ok pa _ _ _ ab Hnda Hi Hka Hab) as (ab' & Ha & _).
  assert (Hrec2 : recording
            (with_self
               (set_index (index (self m) + 1)
                  (set_terminal_buffers (Some [<[index (self m) := 0%Q]> trow])
                     (set_reward_buffers (Some [<[index (self m) := reward]> rrow])
                        (set_actions_buffers (Some ab')
                           (set_states_buffers (Some sb') (self m)))))) m)).
  { unfold recording. agent_simpl. simpl.
    split; [done|]. split; [done|]. split; [done|].
    split; [rewrite length_insert; lia|]. split; [rewrite length_insert; lia|].
    split; [by eexists|]. split; [by eexists|]. split.
    - by apply (record_all_one_row states (index (self m)) _ _ sb).
    - by apply (record_all_one_row pa (index (self m)) _ _ ab). }
  exists sb', ab', rrow, trow. do 3 (split; [done|]).
  split.
  - unfold run, for_each, step.
    erewrite bind_ok; cycle 1.
    { erewrite bind_ok by apply (act_run m states pa sb ab sb' ab' Hag Esb Eab Hs Ha).
      reflexivity. }
    erewrite bind_ok; [reflexivity|].
    rewrite (observe_run _ reward rrow trow) by (done || (agent_simpl; lia)).
    reflexivity.
  - split; [exact Hrec2|]. split; [exact Hacc|]. split; [exact Hok|].
    split; [exact Hst|]. split; [exact Hc | exact Hv].
Qed.

Lemma take_insert_snoc {A} (i : nat) (x : A) (row : list A) :
  (i < length row)%nat -> take (i + 1) (<[i := x]> row) = (take i row ++ [x])%list.
Proof.
  revert i. induction row as [|y row IH]; intros [|i] Hl; simpl in *; try lia.
  - by rewrite take_0.
  - f_equal. apply IH. lia.
Qed.

(** A run of non-terminal ticks on a ready agent: the rewards fill the
    reward row from the cursor on, in order. *)
Lemma play_ready (ticks : list (odict cell * odict cell * Q)) :
  forall m : Machine,
  ready m ->
  (index (self m) + length ticks <= max_timesteps (self m))%nat ->
  Forall (fun t => keys (states_spec (self m)) ⊆ keys t.1.1
                   /\ keys (actions_spec (self m)) ⊆ keys t.1.2) ticks ->
  exists m' row row',
    run (play ticks) m = Ok (tt, m')
    /\ ready m'
    /\ index (self m') = (index (self m) + length ticks)%nat
    /\ unset (self m') = unset (self m)
    /\ record_reward (self m') = record_reward (self m)
    /\ disk m' = disk m /\ clock m' = clock m
    /\ reward_buffers (self m) = Some [row]
    /\ reward_buffers (self m') = Some [row']
    /\ take (index (self m')) row'
         = (take (index (self m)) row ++ map snd ticks)%list.
Proof.
  induction ticks as [|[[s a] r] ticks IH]; intros m Hready Hlen Hkeys.
  - pose proof Hready as ((_ & _ & _ & Hrb & _) & _). cbv zeta in Hrb.
    destruct (one_row_opt_inv _ _ Hrb) as (row & Erow & _).
    exists m, row, row. split; [done|]. split; [done|]. simpl.
    rewrite Nat.add_0_r, app_nil_r. done.
  - apply Forall_cons in Hkeys as [[Hks Hka] Hkeys]. simpl in Hks, Hka, Hlen.
    destruct (tick_ready m s a r Hready ltac:(lia) Hks Hka)
      as (sb' & ab' & rrow & trow & Errow & Etrow & Hrlen & Hrun & Hready2).
    cbv zeta in Hrun, Hready2.
    set (m2 := with_self _ m) in *.
    destruct (IH m2 Hready2) as (m' & row2 & row' & Hrun' & Hready' & Hi' & Hcfg
                                 & Hrr & Hdisk & Hclock & Erow2 & Erow' & Htake).
    { unfold m2. agent_simpl. lia. }
    { exact Hkeys. }
    unfold m2 in Hi', Hcfg, Hrr, Hdisk, Hclock, Erow2, Htake. agent_simpl.
    injection Erow2 as <-.
    exists m', rrow, row'.
    split.
    { change (play ((s, a, r) :: ticks))
        with (([Act s a; Observe r false] ++ play ticks)%list).
      by rewrite run_app, Hrun. }
    split; [exact Hready'|]. split; [simpl; lia|].
    split; [rewrite Hcfg; by destruct m as [[] ? ? ?]|].
    split; [done|]. split; [done|]. split; [done|]. split; [done|].
    split; [done|].
    rewrite Htake, take_insert_snoc by lia. simpl. by rewrite <- app_assoc.
Qed.

Lemma act_ready (m : Machine) (states pa : odict cell) :
  ready m ->
  (index (self m) < max_timesteps (self m))%nat ->
  keys (states_spec (self m)) ⊆ keys states ->
  keys (actions_spec (self m)) ⊆ keys pa ->
  exists sb' ab',
    let m1 := with_self (set_actions_buffers (Some ab')
                           (set_states_buffers (Some sb') (self m))) m in
    act states pa m = Ok (pa, m1) /\ ready m1.
Proof.
  intros (Hrec & Hacc & Hok & Hst & Hc & Hv) Hi Hks Hka.
  pose proof Hrec as (Hag & Hnds & Hnda & Hrb & Htb & [sb Esb] & [ab Eab] & Hsb & Hab).
  cbv zeta in *. rewrite Esb in Hsb. rewrite Eab in Hab. simpl in Hsb, Hab.
  destruct (record_all_ok states _ _ _ sb Hnds Hi Hks Hsb) as (sb' & Hs & Hsin & _).
  destruct (record_all_ok pa _ _ _ ab Hnda Hi Hka Hab) as (ab' & Ha & Hain & _).
  exists sb', ab'.
  split; [exact (act_run m states pa sb ab sb' ab' Hag Esb Eab Hs Ha)|].
  split; [|split; [exact Hacc|split; [exact Hok|split; [exact Hst|by split]]]].
  unfold recording. agent_simpl. simpl.
  split; [done|]. split; [done|]. split; [done|].
  split; [done|]. split; [done|]. split; [by eexists|]. split; [by eexists|].
  split; apply Forall_forall; intros name Hn.
  - destruct (Hsin name Hn) as (v & row & _ & Hrow & ->).
    rewrite Forall_forall in Hsb. specialize (Hsb name Hn).
    rewrite Hrow in Hsb. simpl in *. by rewrite length_insert.
  - destruct (Hain name Hn) as (v & row & _ & Hrow & ->).
    rewrite Forall_forall in Hab. specialize (Hab name Hn).
    rewrite Hrow in Hab. simpl in *. by rewrite length_insert.
Qed.

Lemma reset_ready (m : Machine) :
  NoDup (keys (states_spec (self m))) ->
  NoDup (keys (actions_spec (self m))) ->
  storable m ->
  "control" ∈ keys (actions_spec (self m)) ->
  "validity" ∈ keys (actions_spec (self m)) ->
  reset m = Ok (tt, after reset m)
  /\ ready (after reset m)
  /\ index (self (after reset m)) = 0%nat
  /\ record_reward (self (after reset m)) = Some (RList [])
  /\ unset (self (after reset m)) = unset (self m)
  /\ disk (after reset m) = disk m
  /\ clock (after reset m) = clock m.
Proof.
  intros Hs Ha Hst Hc Hv.
  pose proof (reset_recording m Hs Ha) as Hrec.
  destruct (reset_accepting m Hs Ha) as [Hacc Hok].
  unfold after in *. rewrite reset_run in *.
  split; [reflexivity|]. split.
  { split; [exact Hrec|]. split; [exact Hacc|]. split; [exact Hok|].
    split; [exact Hst|]. split; [exact Hc | exact Hv]. }
  split; [reflexivity|]. split; [reflexivity|].
  split; [by destruct m as [[] ? ? ?]|]. split; reflexivity.
Qed.

(** X9.  From [reset] to the stored trace.  After a [reset], an episode of
    fewer than [max_timesteps] non-terminal ticks followed by a terminal one
    is stored, whatever its rewards and whatever the threshold: the counter
    of episodes has advanced by one, one archive named after it is in the
    configured directory, and its [reward] array is a whole row of
    [max_timesteps] slots that starts with the rewards of the episode in
    order. *)
Theorem episode_is_stored (m : Machine)
    (ticks : list (odict cell * odict cell * Q))
    (states pa : odict cell) (reward : Q) :
  NoDup (keys (states_spec (self m))) ->
  NoDup (keys (actions_spec (self m))) ->
  storable m ->
  "control" ∈ keys (actions_spec (self m)) ->
  "validity" ∈ keys (actions_spec (self m)) ->
  (length ticks < max_timesteps (self m))%nat ->
  Forall (fun t => keys (states_spec (self m)) ⊆ keys t.1.1
                   /\ keys (actions_spec (self m)) ⊆ keys t.1.2) ticks ->
  keys (states_spec (self m)) ⊆ keys states ->
  keys (actions_spec (self m)) ⊆ keys pa ->
  exists m' dir contents tail,
    run (Reset :: play ticks ++ [Act states pa; Observe reward true]) m = Ok (tt, m')
    /\ traces_dir (self m) = Some dir
    /\ episodes (self m') = (episodes (self m) + 1)%nat
    /\ files (disk m')
         = dict_set
             (os_path_join dir (trace_filename (episodes (self m) + 1) (clock m)))
             contents (files (disk m))
    /\ dict_get "reward" contents
         = Some (Npy1 (map snd ticks ++ [reward] ++ tail))
    /\ length (map snd ticks ++ [reward] ++ tail) = max_timesteps (self m).
Proof.
  intros Hs Ha Hst Hc Hv Hlen Hkeys Hks Hka.
  destruct (reset_ready m Hs Ha Hst Hc Hv)
    as (Hreset & Hready0 & Hi0 & Hrr0 & Hcfg0 & Hdisk0 & Hclock0).
  set (m0 := after reset m) in *.
  assert (Hfields : forall m1 : Machine, unset (self m1) = unset (self m) ->
            max_timesteps (self m1) = max_timesteps (self m)
            /\ states_spec (self m1) = states_spec (self m)
            /\ actions_spec (self m1) = actions_spec (self m)
            /\ episodes (self m1) = episodes (self m)
            /\ traces_dir (self m1) = traces_dir (self m)).
  { intros m1 H.
    split; [exact (f_equal max_timesteps H)|].
    split; [exact (f_equal states_spec H)|].
    split; [exact (f_equal actions_spec H)|].
    split; [exact (f_equal episodes H) | exact (f_equal traces_dir H)]. }
  destruct (Hfields m0 Hcfg0) as (HT0 & Hss0 & Has0 & Hep0 & Htd0).
  destruct (play_ready ticks m0 Hready0)
    as (mk & row0 & rowk & Hplay & Hreadyk & Hik & Hcfgk & Hrrk & Hdiskk & Hclockk
        & Erow0 & Erowk & Htake).
  { rewrite Hi0, HT0. lia. }
  { by rewrite Hss0, Has0. }
  assert (Hcfgk' : unset (self mk) = unset (self m)) by congruence.
  destruct (Hfields mk Hcfgk') as (HTk & Hssk & Hask & Hepk & Htdk).
  destruct (act_ready mk states pa Hreadyk) as (sb' & ab' & Hact & Hreadya).
  { rewrite Hik, Hi0, HTk. lia. }
  { by rewrite Hssk. }
  { by rewrite Hask. }
  cbv zeta in Hact, Hreadya. set (ma := with_self _ mk) in *.
  destruct (terminal_observe_archive ma reward Hreadya)
    as (m' & dir & contents & Hobs & _ & Hep' & Edir & Hfiles
        & (l & row & El & Erow & Hget) & _).
  { unfold ma. agent_simpl. rewrite Hik, Hi0, HTk. lia. }
  unfold ma in Hep', Edir, Hfiles, El, Erow, Hget. agent_simpl.
  rewrite Hrrk, Hrr0 in El. injection El as <-.
  rewrite Erowk in Erow. injection Erow as <-.
  rewrite Hik, Hi0 in *. change (0 + length ticks)%nat with (length ticks) in *.
  rewrite take_0, app_nil_l in Htake.
  pose proof Hreadyk as ((_ & _ & _ & Hrbk & _) & _). cbv zeta in Hrbk.
  rewrite Erowk in Hrbk. simpl in Hrbk.
  exists m', dir, contents, (drop (length ticks + 1) (<[length ticks := reward]> rowk)).
  split.
  { change (Reset :: play ticks ++ [Act states pa; Observe reward true])%list
      with ([Reset] ++ play ticks ++ [Act states pa; Observe reward true])%list.
    rewrite run_app.
    replace (run [Reset] m) with (Ok (tt, m0)); cycle 1.
    { unfold run, for_each, step. by erewrite bind_ok by exact Hreset. }
    rewrite run_app, Hplay. unfold run, for_each, step.
    erewrite bind_ok; cycle 1.
    { erewrite bind_ok by exact Hact. reflexivity. }
    erewrite bind_ok by exact Hobs. reflexivity. }
  split; [by rewrite <- Htdk|].
  split; [by rewrite Hep', Hepk|].
  split; [by rewrite Hfiles, Hepk, Hclockk, Hclock0, Hdiskk, Hdisk0|].
  assert (Hsplit : <[length ticks := reward]> rowk
                   = (map snd ticks ++ [reward]
                      ++ drop (length ticks + 1) (<[length ticks := reward]> rowk))%list).
  { rewrite <- (take_drop (length ticks + 1) (<[length ticks := reward]> rowk)) at 1.
    rewrite take_insert_snoc by (rewrite Hrbk, HTk; lia).
    rewrite Htake. by rewrite <- app_assoc. }
  split.
  - rewrite Hget. simpl. rewrite app_nil_r. by rewrite Hsplit at 1.
  - rewrite <- Hsplit, length_insert. by rewrite Hrbk, HTk.
Qed.

(** ** Concrete machines for the properties above *)

Ltac concrete_recording :=
  unfold recording; cbv zeta;
  split; [vm_compute; eexists; reflexivity|];
  split; [by_evaluation|]; split; [by_evaluation|];
  split; [vm_compute; reflexivity|]; split; [vm_compute; reflexivity|];
  split; [vm_compute; eexists; reflexivity|];
  split; [vm_compute; eexists; reflexivity|];
  split; vm_compute; repeat constructor.

Ltac concrete_accumulating :=
  unfold accumulating; cbv zeta;
  split; [eexists; split; [vm_compute; reflexivity|];
          split; [vm_compute; reflexivity | vm_compute; repeat constructor]|];
  split; [eexists; split; [vm_compute; reflexivity|];
          split; [vm_compute; reflexivity | vm_compute; repeat constructor]|];
  split; eexists; vm_compute; reflexivity.

Ltac concrete_accepted := eexists; split; vm_compute; reflexivity.

Lemma write_trace_without_directory_witness :
  write_trace (after reset (boot_env (env_T 5) None 15 7)) = Raise TypeError.
Proof.
  apply write_trace_without_directory.
  - concrete_recording.
  - concrete_accumulating.
  - concrete_accepted.
  - vm_compute. reflexivity.
Defined.

Lemma write_trace_directory_is_a_file_witness :
  let m0 := boot 5 15 7 in
  let m := after reset {| self := self m0;
                          disk := {| dirs := []; files := [("data/traces", [])] |};
                          heap := heap m0; clock := clock m0 |} in
  write_trace m = Raise FileExistsError.
Proof.
  intros m0 m. subst m0 m.
  apply (write_trace_directory_is_a_file _ "data/traces").
  - concrete_recording.
  - concrete_accumulating.
  - concrete_accepted.
  - vm_compute. reflexivity.
  - by_evaluation.
  - by_evaluation.
Defined.

Lemma write_trace_keyword_clash_witness :
  write_trace (after reset (boot_env env_clash (Some "data/traces") 15 7))
  = Raise TypeError.
Proof.
  apply (write_trace_keyword_clash _ "data/traces").
  - concrete_recording.
  - concrete_accumulating.
  - concrete_accepted.
  - vm_compute. reflexivity.
  - right. by_evaluation.
  - by_evaluation.
Defined.

Lemma second_flush_without_reset_witness :
  let m := after (run episode_abandoned) (boot 5 15 7) in
  exists m', write_trace m = Ok (tt, m')
    /\ (write_trace m' = Ok (tt, m') \/ write_trace m' = Raise AttributeError).
Proof.
  intros m.
  destruct two_steps_recorded as (Hrec & Hacc & Hok & Hst).
  destruct (second_flush_without_reset m Hrec Hacc Hok Hst)
    as (m' & x & Hrun & Hx & Hagain).
  exists m'. split; [exact Hrun|]. rewrite Hagain.
  destruct (Qltb _ _); [by left | by right].
Defined.

Lemma two_steps_ready :
  ready (after (run episode_abandoned) (boot 5 15 7)).
Proof.
  destruct two_steps_recorded as (Hrec & Hacc & Hok & Hst).
  split; [exact Hrec|]. split; [exact Hacc|]. split; [exact Hok|].
  split; [exact Hst|]. split; by_evaluation.
Qed.

Lemma terminal_observe_stores_episode_witness :
  let m := after (run episode_abandoned) (boot 5 15 7) in
  exists m' contents,
    observe 9 true m = Ok (tt, m')
    /\ index (self m') = 3%nat
    /\ files (disk m') = [("data/traces/trace-1-20200101-000000.npz", contents)]
    /\ dict_get "reward" contents = Some (Npy1 [1%Q; 2%Q; 9%Q; 7%Q; 7%Q]).
Proof.
  intros m.
  destruct (terminal_observe_stores_episode m 9 two_steps_ready)
    as (m' & dir & contents & Hobs & Hi & _ & Edir & Hfiles
        & (l & row & El & Erow & Hget) & _).
  - vm_compute. lia.
  - vm_compute in Edir, El, Erow. injection Edir as <-. injection El as <-.
    injection Erow as <-.
    exists m', contents. split; [exact Hobs|].
    split; [rewrite Hi; vm_compute; reflexivity|].
    split; [rewrite Hfiles; vm_compute; reflexivity|].
    rewrite Hget. vm_compute. reflexivity.
Defined.

Lemma episode_is_stored_witness :
  let s := [("speed", [0%Q])] in
  let a := [("control", [1%Q]); ("validity", [0%Q])] in
  exists m' contents tail,
    run (Reset :: play [(s, a, 1%Q); (s, a, 2%Q)] ++ [Act s a; Observe 3 true])
        (boot 5 15 7) = Ok (tt, m')
    /\ files (disk m') = [("data/traces/trace-1-20200101-000000.npz", contents)]
    /\ dict_get "reward" contents = Some (Npy1 ([1%Q; 2%Q; 3%Q] ++ tail)).
Proof.
  intros s a.
  destruct (episode_is_stored (boot 5 15 7) [(s, a, 1%Q); (s, a, 2%Q)] s a 3)
    as (m' & dir & contents & tail & Hrun & Edir & _ & Hfiles & Hget & _).
  - by_evaluation.
  - by_evaluation.
  - split; [|by_evaluation].
    eexists. split; [vm_compute; reflexivity|]. right. by_evaluation.
  - by_evaluation.
  - by_evaluation.
  - vm_compute. lia.
  - constructor; [split; by_evaluation|].
    constructor; [split; by_evaluation|]. constructor.
  - by_evaluation.
  - by_evaluation.
  - vm_compute in Edir. injection Edir as <-.
    exists m', contents, tail. split; [exact Hrun|].
    split; [rewrite Hfiles; vm_compute; reflexivity|]. exact Hget.
Defined.

(** ** What no call changes, and what the calls count *)

Lemma keeps_ret {B A} (g : ValidityPretrainAgent -> B) (x : A) : keeps g (ret x).
Proof. intros m y m' H. unfold ret in H. by simplify_eq. Qed.

Lemma keeps_raise {B A} (g : ValidityPretrainAgent -> B) (e : exn) :
  keeps g (@raise A e).
Proof. intros m y m' H. unfold raise in H. done. Qed.

Lemma keeps_bind {B A C} (g : ValidityPretrainAgent -> B) (c : M A) (k : A -> M C) :
  keeps g c -> (forall x, keeps g (k x)) -> keeps g (bind c k).
Proof.
  intros Hc Hk m y m' H. unfold bind in H.
  destruct (c m) as [[x m1]|e] eqn:E; [|done].
  rewrite (Hk x _ _ _ H). by eapply Hc.
Qed.

Lemma keeps_lift {B A} (g : ValidityPretrainAgent -> B) (r : result A) :
  keeps g (lift r).
Proof. intros m y m' H. unfold lift in H. destruct r; by simplify_eq. Qed.

Lemma keeps_attr {B A} (g : ValidityPretrainAgent -> B)
    (f : ValidityPretrainAgent -> A) : keeps g (attr f).
Proof. intros m y m' H. unfold attr in H. by simplify_eq. Qed.

Lemma keeps_not_none {B A} (g : ValidityPretrainAgent -> B) e
    (f : ValidityPretrainAgent -> option A) : keeps g (not_none e f).
Proof.
  intros m y m' H. unfold not_none in H. destruct (f (self m)); by simplify_eq.
Qed.

Lemma keeps_update {B} (g : ValidityPretrainAgent -> B) f :
  (forall a, g (f a) = g a) -> keeps g (update f).
Proof. intros Hf m y m' H. unfold update in H. simplify_eq. apply Hf. Qed.

Lemma keeps_subscript {B V} (g : ValidityPretrainAgent -> B) (d : odict V) k :
  keeps g (subscript d k).
Proof.
  unfold subscript. destruct (dict_get k d); [apply keeps_ret | apply keeps_raise].
Qed.

Lemma keeps_np_ndarray {B} (g : ValidityPretrainAgent -> B) T shape :
  keeps g (np_ndarray T shape).
Proof. intros m y m' H. unfold np_ndarray in H. by simplify_eq. Qed.

Lemma keeps_np_ndarray_flat {B} (g : ValidityPretrainAgent -> B) T :
  keeps g (np_ndarray_flat T).
Proof. intros m y m' H. unfold np_ndarray_flat in H. by simplify_eq. Qed.

Lemma keeps_time_strftime {B} (g : ValidityPretrainAgent -> B) :
  keeps g time_strftime.
Proof. intros m y m' H. unfold time_strftime in H. by simplify_eq. Qed.

Lemma keeps_os_path_isdir {B} (g : ValidityPretrainAgent -> B) p :
  keeps g (os_path_isdir p).
Proof. intros m y m' H. unfold os_path_isdir in H. by simplify_eq. Qed.

Lemma keeps_os_makedirs {B} (g : ValidityPretrainAgent -> B) p :
  keeps g (os_makedirs p).
Proof.
  intros m y m' H. unfold os_makedirs in H.
  destruct (_ || _); by simplify_eq.
Qed.

Lemma keeps_np_savez_compressed {B} (g : ValidityPretrainAgent -> B) file kwds :
  keeps g (np_savez_compressed file kwds).
Proof.
  intros m y m' H. unfold np_savez_compressed in H.
  destruct (bool_decide _); by simplify_eq.
Qed.

Lemma keeps_for_each {B A} (g : ValidityPretrainAgent -> B) (xs : list A)
    (body : A -> M unit) :
  (forall x, keeps g (body x)) -> keeps g (for_each xs body).
Proof.
  intros Hb. induction xs as [|x xs IH]; simpl.
  - apply keeps_ret.
  - apply keeps_bind; [apply Hb | intros _; apply IH].
Qed.

Lemma keeps_if {B A} (g : ValidityPretrainAgent -> B) (b : bool) (c1 c2 : M A) :
  keeps g c1 -> keeps g c2 -> keeps g (if b then c1 else c2).
Proof. by destruct b. Qed.

Ltac keeps_step :=
  first [ apply keeps_ret | apply keeps_raise | apply keeps_lift | apply keeps_attr
        | apply keeps_not_none | apply keeps_subscript
        | apply keeps_np_ndarray | apply keeps_np_ndarray_flat
        | apply keeps_time_strftime | apply keeps_os_path_isdir
        | apply keeps_os_makedirs | apply keeps_np_savez_compressed
        | apply keeps_update; intros ?; reflexivity
        | apply keeps_for_each; intros ?
        | apply keeps_if
        | apply keeps_bind; [|intros ?] ].

Lemma keeps_scan_forward {B} (g : ValidityPretrainAgent -> B) cb i js v rs :
  (forall x a, g (set_reward_buffers x a) = g a) ->
  keeps g (scan_forward cb i js v rs).
Proof.
  intros Hg. revert v rs. induction js as [|j js IH]; intros v rs; simpl.
  - apply keeps_ret.
  - do 3 (apply keeps_bind; [keeps_step|intros ?]).
    apply keeps_if.
    + do 2 (apply keeps_bind; [keeps_step|intros ?]). apply IH.
    + do 3 (apply keeps_bind; [keeps_step|intros ?]).
      apply keeps_bind; [apply keeps_update; intros ?; apply Hg | intros ?].
      apply keeps_ret.
Qed.

Lemma keeps_compute_action_validity {B} (g : ValidityPretrainAgent -> B) :
  (forall x a, g (set_reward_buffers x a) = g a) ->
  (forall x a, g (set_actions_buffers x a) = g a) ->
  keeps g _compute_action_validity.
Proof.
  intros Hr Ha. unfold _compute_action_validity.
  do 2 (apply keeps_bind; [keeps_step|intros ?]).
  apply keeps_for_each. intros i.
  apply keeps_bind; [by apply keeps_scan_forward|intros ?].
  do 3 (apply keeps_bind; [keeps_step|intros ?]).
  apply keeps_update. intros ?. apply Ha.
Qed.

Lemma keeps_write_trace {B} (g : ValidityPretrainAgent -> B) :
  (forall x a, g (set_record_states x a) = g a) ->
  (forall x a, g (set_record_actions x a) = g a) ->
  (forall x a, g (set_record_terminal x a) = g a) ->
  (forall x a, g (set_record_reward x a) = g a) ->
  keeps g write_trace.
Proof.
  intros H1 H2 H3 H4. unfold write_trace. cbv zeta.
  repeat first
    [ apply keeps_update; intros ?; first [apply H1|apply H2|apply H3|apply H4]
    | keeps_step ].
Qed.

Lemma keeps_configuration_step (c : call) : keeps configuration (step c).
Proof.
  destruct c as [|s a|r t]; simpl.
  - unfold reset, init_buffers, init_records. repeat keeps_step.
  - apply keeps_bind; [|intros ?; apply keeps_ret].
    unfold act. cbv zeta. repeat keeps_step.
  - unfold observe.
    do 9 (apply keeps_bind; [keeps_step|intros ?]).
    apply keeps_if; [|apply keeps_ret].
    apply keeps_bind; [keeps_step|intros ?].
    apply keeps_bind; [|intros ?].
    + by apply keeps_compute_action_validity.
    + by apply keeps_write_trace.
Qed.

(** X10.  No call changes what the constructor fixed: over any sequence of
    [reset], [act] and [observe] that returns, the environment, the
    capacity, the directory, the threshold, the two specifications and the
    planner's arguments are as at the start. *)
Theorem run_keeps_configuration (cs : list call) (m m' : Machine) :
  run cs m = Ok (tt, m') ->
  configuration (self m') = configuration (self m).
Proof.
  intros H.
  apply (keeps_for_each configuration cs step keeps_configuration_step _ _ _ H).
Qed.

Lemma run_keeps_configuration_witness :
  let m := boot 5 15 7 in
  configuration (self (after (run episode_A) m)) = configuration (self m).
Proof.
  intros m. apply (run_keeps_configuration episode_A m).
  vm_compute. reflexivity.
Defined.

Lemma bind_inv {A C} (c : M A) (k : A -> M C) (m m' : Machine) (y : C) :
  bind c k m = Ok (y, m') ->
  exists x m1, c m = Ok (x, m1) /\ k x m1 = Ok (y, m').
Proof.
  unfold bind. destruct (c m) as [[x m1]|e]; [|done]. intros H. by exists x, m1.
Qed.

(** Inverting one statement of a method body that returned. *)
Ltac inv_step H :=
  let x := fresh "x" in
  let m1 := fresh "m" in
  let H1 := fresh "H" in
  apply bind_inv in H as (x & m1 & H1 & H);
  unfold not_none, attr, lift, update, ret in H1; simpl in H1;
  repeat match type of H1 with
         | context [match ?o with _ => _ end] => destruct o eqn:?
         end;
  simplify_eq.

Lemma observe_counts (reward : Q) (terminal : bool) (m m' : Machine) :
  observe reward terminal m = Ok (tt, m') ->
  index (self m') = (index (self m) + 1)%nat
  /\ episodes (self m') = (episodes (self m) + if terminal then 1 else 0)%nat.
Proof.
  intros H. unfold observe in H.
  assert (Hk : forall (c : M unit) (m1 m2 : Machine) u,
            keeps (fun a => (index a, episodes a)) c -> c m1 = Ok (u, m2) ->
            index (self m2) = index (self m1)
            /\ episodes (self m2) = episodes (self m1)).
  { intros c m1 m2 u Hc Hrun. specialize (Hc _ _ _ Hrun). by simplify_eq. }
  do 9 inv_step H.
  destruct terminal.
  - inv_step H.
    apply bind_inv in H as ([] & m11 & H11 & H).
    apply (Hk _ _ _ _ (keeps_compute_action_validity (fun a => (index a, episodes a))
                         (fun _ _ => eq_refl) (fun _ _ => eq_refl))) in H11.
    apply (Hk _ _ _ _ (keeps_write_trace (fun a => (index a, episodes a))
                         (fun _ _ => eq_refl) (fun _ _ => eq_refl)
                         (fun _ _ => eq_refl) (fun _ _ => eq_refl))) in H.
    simpl in *. lia.
  - unfold ret in H. simplify_eq. simpl. lia.
Qed.

(** X11.  What the two counters count.  Over any sequence of calls that
    returns, the cursor is the number of [observe] calls since the last
    [reset] (added to the starting cursor if there was none), and the
    counter of episodes has grown by the number of terminal [observe]
    calls; [reset] does not touch it. *)
Theorem run_counts (cs : list call) (m m' : Machine) :
  run cs m = Ok (tt, m') ->
  index (self m') = cursor_after cs (index (self m))
  /\ episodes (self m') = (episodes (self m) + terminals cs)%nat.
Proof.
  unfold run. revert m. induction cs as [|c cs IH]; intros m H; simpl in H.
  - unfold ret in H. simplify_eq. simpl. lia.
  - apply bind_inv in H as ([] & m1 & Hstep & H). apply IH in H as [Hi He].
    rewrite Hi, He. destruct c as [|s a|r t]; simpl in Hstep |- *.
    + rewrite reset_run in Hstep. simplify_eq. simpl.
      split; [done|]. unfold cleared, allocated. simpl. done.
    + apply bind_inv in Hstep as (x & m2 & Hact & Hret).
      unfold ret in Hret. simplify_eq.
      assert (keeps (fun a => (index a, episodes a)) (act s a)) as Hk.
      { unfold act. cbv zeta. repeat keeps_step. }
      specialize (Hk _ _ _ Hact). simpl in Hk. by injection Hk as -> ->.
    + apply observe_counts in Hstep as [-> ->]. destruct t; simpl; [|split; [done|lia]].
      split; [done|lia].
Qed.

Lemma run_counts_witness :
  let m := boot 5 15 7 in
  let m' := after (run (episode_A ++ episode_abandoned)) m in
  index (self m') = 2%nat /\ episodes (self m') = 1%nat.
Proof.
  intros m m'.
  destruct (run_counts (episode_A ++ episode_abandoned) m m') as [Hi He].
  - vm_compute. reflexivity.
  - rewrite Hi, He. vm_compute. split; reflexivity.
Defined.

(** ** [ValidityPretrainAgentNoSkill] against its parent *)

Lemma no_skill_observe_terminal_run (m : Machine) (reward : Q) rrow trow :
  reward_buffers (self m) = Some [rrow] ->
  terminal_buffers (self m) = Some [trow] ->
  (index (self m) < length rrow)%nat ->
  (index (self m) < length trow)%nat ->
  ValidityPretrainAgentNoSkill.observe reward true m =
    write_trace
      (with_self
         (set_episodes (episodes (self m) + 1)
            (set_index (index (self m) + 1)
               (set_terminal_buffers (Some [<[index (self m) := 1%Q]> trow])
                  (set_reward_buffers (Some [<[index (self m) := reward]> rrow])
                     (self m))))) m).
Proof.
  intros Hr Ht Hir Hit.
  destruct m as [a dk hp ck].
  destruct a as [e T i td ep th ss asp tb rb sb ab0 rs ra rt rr ag ar].
  agent_simpl. subst. unfold ValidityPretrainAgentNoSkill.observe.
  do 2 mstep. mstep_by ltac:(rewrite setitem_one_row by done; reflexivity).
  do 3 mstep. mstep_by ltac:(rewrite setitem_one_row by done; reflexivity).
  do 3 mstep. reflexivity.
Qed.

(** X12.  The one difference between the two classes at the end of an
    episode: the parent's terminal [observe] does what the subclass's does on
    the agent whose [validity[0, 0]] has been set to 1. *)
Theorem observe_is_no_skill_after_validity (m : Machine) (reward : Q)
    ab crow vrow old :
  recording m ->
  (index (self m) < max_timesteps (self m))%nat ->
  actions_buffers (self m) = Some ab ->
  dict_get "control" ab = Some [crow] ->
  dict_get "validity" ab = Some [vrow] ->
  vrow !! 0%nat = Some old ->
  observe reward true m =
    ValidityPretrainAgentNoSkill.observe reward true
      (with_self
         (set_actions_buffers
            (Some (dict_set "validity" [<[0%nat := map (fun _ => 1%Q) old]> vrow] ab))
            (self m)) m).
Proof.
  intros (_ & _ & _ & Hrb & Htb & _) Hi Hab Hc Hv Ho. cbv zeta in *.
  destruct (one_row_opt_inv _ _ Hrb) as (rrow & Errow & Hrlen).
  destruct (one_row_opt_inv _ _ Htb) as (trow & Etrow & Htlen).
  rewrite (observe_terminal_run m reward rrow trow ab crow vrow old) by (done || lia).
  rewrite (no_skill_observe_terminal_run _ reward rrow trow) by (done || (simpl; lia)).
  by destruct m as [[] ? ? ?].
Qed.

(** X13.  The parent's terminal [observe] needs the action components
    [control] and [validity]: without a [control] buffer, or with one and
    without a [validity] buffer, it raises [KeyError] before any trace is
    written. *)
Theorem observe_needs_control_and_validity (m : Machine) (reward : Q) :
  recording m ->
  (index (self m) < max_timesteps (self m))%nat ->
  component (actions_buffers (self m)) "control" = None
  \/ ("control" ∈ keys (actions_spec (self m))
      /\ component (actions_buffers (self m)) "validity" = None) ->
  observe reward true m = Raise KeyError.
Proof.
  intros (_ & _ & _ & Hrb & Htb & _ & [ab Eab] & _ & Hab) Hi Hmiss. cbv zeta in *.
  destruct (one_row_opt_inv _ _ Hrb) as (rrow & Errow & Hrlen).
  destruct (one_row_opt_inv _ _ Htb) as (trow & Etrow & Htlen).
  rewrite Eab in Hab, Hmiss. simpl in Hab, Hmiss.
  destruct m as [a dk hp ck].
  destruct a as [e T i td ep th ss asp tb rb sb ab0 rs ra rt rr ag ar].
  agent_simpl. subst. unfold observe.
  do 2 mstep. mstep_by ltac:(rewrite setitem_one_row by lia; reflexivity).
  do 3 mstep. mstep_by ltac:(rewrite setitem_one_row by lia; reflexivity).
  do 3 mstep. unfold bind at 1. unfold _compute_action_validity.
  mstep. unfold bind at 1, subscript.
  destruct Hmiss as [Hc|[Hc Hv]].
  - by rewrite Hc.
  - rewrite Forall_forall in Hab.
    destruct (one_row_opt_inv _ _ (Hab _ Hc)) as (crow & -> & _).
    cbn [ret len length seq for_each Nat.sub scan_forward]. mred. agent_simpl.
    by rewrite Hv.
Qed.

(** X14.  The subclass needs neither component.  Its terminal [observe] on
    an agent that is recording into empty accumulators returns, advances the
    cursor and the episode counter by one, leaves the action buffers as [act]
    filled them, and stores one archive in which the array of every named
    action is the recorded row. *)
Theorem no_skill_observe_stores_episode (m : Machine) (reward : Q) :
  recording m -> accumulating m -> accepted m -> storable m ->
  (index (self m) < max_timesteps (self m))%nat ->
  exists m' dir contents,
    ValidityPretrainAgentNoSkill.observe reward true m = Ok (tt, m')
    /\ index (self m') = (index (self m) + 1)%nat
    /\ episodes (self m') = (episodes (self m) + 1)%nat
    /\ actions_buffers (self m') = actions_buffers (self m)
    /\ traces_dir (self m) = Some dir
    /\ files (disk m')
         = dict_set
             (os_path_join dir
                (trace_filename (episodes (self m) + 1) (clock m)))
             contents (files (disk m))
    /\ (forall name, name ∈ keys (actions_spec (self m)) ->
          exists l row, component (record_actions (self m)) name = Some (RList l)
            /\ component (actions_buffers (self m)) name = Some [row]
            /\ dict_get name contents = Some (NpyN (concat (l ++ [row]))))
    /\ (exists l row, record_reward (self m) = Some (RList l)
          /\ reward_buffers (self m) = Some [row]
          /\ dict_get "reward" contents
               = Some (Npy1 (concat (l ++ [<[index (self m) := reward]> row])))).
Proof.
  intros Hrec Hacc Hok Hst Hi.
  pose proof Hrec as (Hag & Hnds & Hnda & Hrb & Htb & Hssb & Hsab & Hsb & Hab).
  cbv zeta in *.
  destruct (one_row_opt_inv _ _ Hrb) as (rrow & Errow & Hrlen).
  destruct (one_row_opt_inv _ _ Htb) as (trow & Etrow & Htlen).
  rewrite (no_skill_observe_terminal_run m reward rrow trow) by (done || lia).
  set (m3 := with_self _ m).
  assert (Hrec3 : recording m3).
  { unfold recording, m3. agent_simpl. simpl.
    split; [done|]. split; [done|]. split; [done|].
    split; [by rewrite length_insert|]. split; [by rewrite length_insert|].
    split; [done|]. split; [done|]. split; done. }
  assert (Hacc3 : accumulating m3) by exact Hacc.
  assert (Hok3 : accepted m3) by exact Hok.
  assert (Hst3 : storable m3) by exact Hst.
  destruct (write_trace_archive m3 Hrec3 Hacc3 Hok3 Hst3)
    as (m' & dir & contents & Hrun & Edir & _ & _ & Hfiles & _ & _ & Hain & _ & Hr).
  exists m', dir, contents. split; [exact Hrun|].
  destruct (write_trace_accepts m3 Hrec3 Hacc3 Hok3 Hst3)
    as (dir' & rsc & rac & lt & lr & trow' & rrow' & _ & _ & _ & _ & _ & _ & _
        & _ & _ & _ & _ & Hrun').
  rewrite Hrun in Hrun'. injection Hrun' as ->.
  split; [reflexivity|]. split; [reflexivity|]. split; [reflexivity|].
  split; [exact Edir|]. split; [exact Hfiles|].
  split; [exact Hain|].
  destruct Hr as (l & row & El & Erow & Hget).
  unfold m3 in El, Erow. agent_simpl. injection Erow as <-.
  by exists l, rrow.
Qed.

(** ** Concrete machines for the two classes *)

Lemma observe_is_no_skill_after_validity_witness :
  let m := after (run episode_abandoned) (boot 5 15 7) in
  exists ab vrow old,
    actions_buffers (self m) = Some ab
    /\ dict_get "validity" ab = Some [vrow]
    /\ vrow !! 0%nat = Some old
    /\ observe 9 true m =
         ValidityPretrainAgentNoSkill.observe 9 true
           (with_self
              (set_actions_buffers
                 (Some (dict_set "validity" [<[0%nat := map (fun _ => 1%Q) old]> vrow] ab))
                 (self m)) m).
Proof.
  intros m. destruct two_steps_recorded as (Hrec & _).
  eexists _, _, _.
  split; [vm_compute; reflexivity|].
  split; [vm_compute; reflexivity|].
  split; [vm_compute; reflexivity|].
  eapply (observe_is_no_skill_after_validity m 9 _ _ _ _ Hrec);
    vm_compute; (lia || reflexivity).
Defined.

Lemma plain_recorded :
  let m := after (run [Reset; Act [("speed", [0%Q])] [("steer", [1%Q])]])
                 (boot_env env_plain (Some "data/traces") 15 7) in
  recording m /\ accumulating m /\ accepted m /\ storable m.
Proof.
  intros m. subst m. split; [concrete_recording|]. split; [concrete_accumulating|].
  split; [concrete_accepted|]. split; [|by_evaluation].
  eexists. split; [vm_compute; reflexivity|]. right. by_evaluation.
Qed.

Lemma observe_needs_control_and_validity_witness :
  let m := after (run [Reset; Act [("speed", [0%Q])] [("steer", [1%Q])]])
                 (boot_env env_plain (Some "data/traces") 15 7) in
  observe 3 true m = Raise KeyError.
Proof.
  intros m. destruct plain_recorded as (Hrec & _).
  apply (observe_needs_control_and_validity m 3 Hrec).
  - vm_compute. lia.
  - left. vm_compute. reflexivity.
Defined.

Lemma no_skill_observe_stores_episode_witness :
  let m := after (run [Reset; Act [("speed", [0%Q])] [("steer", [1%Q])]])
                 (boot_env env_plain (Some "data/traces") 15 7) in
  exists m' contents,
    ValidityPretrainAgentNoSkill.observe 3 true m = Ok (tt, m')
    /\ files (disk m') = [("data/traces/trace-1-20200101-000000.npz", contents)]
    /\ dict_get "steer" contents = Some (NpyN [[1%Q]; [7%Q]])
    /\ dict_get "reward" contents = Some (Npy1 [3%Q; 7%Q]).
Proof.
  intros m. destruct plain_recorded as (Hrec & Hacc & Hok & Hst).
  destruct (no_skill_observe_stores_episode m 3 Hrec Hacc Hok Hst)
    as (m' & dir & contents & Hobs & _ & _ & _ & Edir & Hfiles & Hain
        & (l & row & El & Erow & Hget)).
  - vm_compute. lia.
  - destruct (Hain "steer") as (la & rowa & Ela & Erowa & Hgeta); [by_evaluation|].
    vm_compute in Edir, El, Erow, Ela, Erowa.
    injection Edir as <-. injection El as <-. injection Erow as <-.
    injection Ela as <-. injection Erowa as <-.
    exists m', contents. split; [exact Hobs|].
    split; [rewrite Hfiles; vm_compute; reflexivity|].
    split; [rewrite Hgeta | rewrite Hget]; vm_compute; reflexivity.
Defined.

(** * [KeyboardAgent] *)

Lemma round_half_even_bounds (x : Q) (lo hi : Z) :
  (inject_Z lo <= x)%Q -> (x <= inject_Z hi)%Q ->
  (lo <= Keyboard.round_half_even x <= hi)%Z.
Proof.
  intros Hlo Hhi. unfold Keyboard.round_half_even.
  pose proof (Qfloor_le x) as Hf.
  assert (Hl : (lo <= Qfloor x)%Z).
  { rewrite <- (Qfloor_Z lo). by apply Qfloor_resp_le. }
  assert (Hh : (Qfloor x <= hi)%Z).
  { rewrite <- (Qfloor_Z hi). by apply Qfloor_resp_le. }
  assert (Hcase : (Qfloor x < hi)%Z \/ (x - inject_Z (Qfloor x) == 0)%Q).
  { destruct (Z.eq_dec (Qfloor x) hi) as [E|E]; [right | left; lia].
    rewrite E in *.
    assert (Hx : (x == inject_Z hi)%Q) by (by apply Qle_antisym).
    rewrite Hx. ring. }
  destruct (Qcompare_spec (x - inject_Z (Qfloor x)) (1 # 2)) as [E|E|E].
  - destruct Hcase as [?|E0]; [destruct (Z.even _); lia|].
    rewrite E0 in E. discriminate E.
  - lia.
  - destruct Hcase as [?|E0]; [lia|].
    rewrite E0 in E. discriminate E.
Qed.

Lemma round1_bounds (x : Q) (lo hi : Z) :
  (inject_Z lo <= x)%Q -> (x <= inject_Z hi)%Q ->
  (inject_Z lo <= Keyboard.round1 x)%Q /\ (Keyboard.round1 x <= inject_Z hi)%Q.
Proof.
  intros Hlo Hhi. unfold Keyboard.round1.
  destruct (round_half_even_bounds (x * 10) (lo * 10) (hi * 10)) as [H1 H2].
  - rewrite inject_Z_mult. apply Qmult_le_compat_r; done.
  - rewrite inject_Z_mult. apply Qmult_le_compat_r; done.
  - split.
    + apply Qle_shift_div_l; [done|]. change 10%Q with (inject_Z 10).
      by rewrite <- inject_Z_mult, <- Zle_Qle.
    + apply Qle_shift_div_r; [done|]. change 10%Q with (inject_Z 10).
      by rewrite <- inject_Z_mult, <- Zle_Qle.
Qed.

Lemma clamp_bounds (x : Q) :
  (inject_Z (-1) <= Qmin 1 (Qmax (-1) x))%Q /\ (Qmin 1 (Qmax (-1) x) <= inject_Z 1)%Q.
Proof.
  split.
  - apply Q.min_glb; [done | apply Q.le_max_l].
  - apply Q.le_min_l.
Qed.

Lemma clamp_nonpos (x : Q) : (x <= 0)%Q -> (Qmin 1 (Qmax (-1) x) <= inject_Z 0)%Q.
Proof.
  intros Hx. eapply Qle_trans; [apply Q.le_min_r|]. by apply Q.max_lub.
Qed.

Lemma clamp_nonneg (x : Q) : (0 <= x)%Q -> (inject_Z 0 <= Qmin 1 (Qmax (-1) x))%Q.
Proof.
  intros Hx. apply Q.min_glb; [done|].
  eapply Qle_trans; [exact Hx | apply Q.le_max_r].
Qed.

Lemma Qltb_false (a b : Q) : Qltb a b = false -> (b <= a)%Q.
Proof.
  unfold Qltb. intros H. apply negb_false_iff in H. by apply Qle_bool_iff.
Qed.

Lemma act_inv (io : Keyboard.Pygame) (self self' : Keyboard.KeyboardAgent)
    (acts : Keyboard.actions) :
  Keyboard.act io self = Some (acts, self') ->
  exists self1,
    Keyboard.handle_events (Keyboard.key_get_mods io) (Keyboard.event_get io) self
      = Some self1
    /\ Keyboard._parse_vehicle_keys io self1 = (acts, self').
Proof.
  unfold Keyboard.act, Keyboard._parse_events.
  destruct (Keyboard.handle_events _ _ _) as [self1|]; [|done].
  intros H. exists self1. split; [done | congruence].
Qed.

(** X15.  Steering stays in range.  Whatever the steering cache was and
    however long the frame, after an [act] that returns the cache is within
    [-1, 1], and so is the steering value returned. *)
Theorem steering_stays_in_range (io : Keyboard.Pygame)
    (self self' : Keyboard.KeyboardAgent) (acts : Keyboard.actions) :
  Keyboard.act io self = Some (acts, self') ->
  (-1 <= Keyboard._steer_cache self' <= 1)%Q
  /\ (-1 <= Keyboard.steer_of acts <= 1)%Q.
Proof.
  intros H. destruct (act_inv _ _ _ _ H) as (self1 & _ & Hk).
  unfold Keyboard._parse_vehicle_keys in Hk. cbv zeta in Hk.
  injection Hk as <- <-. cbn [Keyboard._steer_cache Keyboard.steer_of fst snd].
  set (c := Qmin 1 (Qmax (-1) _)).
  destruct (clamp_bounds
    (if Keyboard.key_get_pressed io Keyboard.K_LEFT
        || Keyboard.key_get_pressed io Keyboard.K_a
     then if Qltb 0 (Keyboard._steer_cache self1) then 0
          else Keyboard._steer_cache self1
               - (5 # 10000) * inject_Z (Keyboard.clock_get_time io)
     else if Keyboard.key_get_pressed io Keyboard.K_RIGHT
             || Keyboard.key_get_pressed io Keyboard.K_d
          then if Qltb (Keyboard._steer_cache self1) 0 then 0
               else Keyboard._steer_cache self1
                    + (5 # 10000) * inject_Z (Keyboard.clock_get_time io)
          else 0)%Q) as [Hlo Hhi].
  fold c in Hlo, Hhi. split; [done|].
  by apply (round1_bounds c (-1) 1).
Qed.

(** X16.  The side of the steering follows the keys held in this frame, not
    the steering so far.  When the frame's length is not negative: with left
    (or [a]) held the cache and the steering are at most 0, also when right
    is held too; with right (or [d]) held alone they are at least 0; with
    neither they are 0. *)
Theorem steering_follows_keys (io : Keyboard.Pygame)
    (self self' : Keyboard.KeyboardAgent) (acts : Keyboard.actions) :
  (0 <= Keyboard.clock_get_time io)%Z ->
  Keyboard.act io self = Some (acts, self') ->
  let keys := Keyboard.key_get_pressed io in
  let left := keys Keyboard.K_LEFT || keys Keyboard.K_a in
  let right := keys Keyboard.K_RIGHT || keys Keyboard.K_d in
  (if left then
     Keyboard._steer_cache self' <= 0 /\ Keyboard.steer_of acts <= 0
   else if right then
     0 <= Keyboard._steer_cache self' /\ 0 <= Keyboard.steer_of acts
   else
     Keyboard._steer_cache self' == 0 /\ Keyboard.steer_of acts == 0)%Q.
Proof.
  intros Hms H. cbv zeta.
  destruct (act_inv _ _ _ _ H) as (self1 & _ & Hk). clear H.
  unfold Keyboard._parse_vehicle_keys in Hk. cbv zeta in Hk.
  injection Hk as <- <-. cbn [Keyboard._steer_cache Keyboard.steer_of fst snd].
  assert (Hinc : (0 <= (5 # 10000) * inject_Z (Keyboard.clock_get_time io))%Q).
  { apply Qmult_le_0_compat; [done|]. change 0%Q with (inject_Z 0).
    by rewrite <- Zle_Qle. }
  set (inc := ((5 # 10000) * inject_Z (Keyboard.clock_get_time io))%Q) in *.
  set (c := Keyboard._steer_cache self1).
  destruct (Keyboard.key_get_pressed io Keyboard.K_LEFT
            || Keyboard.key_get_pressed io Keyboard.K_a).
  - assert (Hc : ((if Qltb 0 c then 0 else c - inc) <= 0)%Q).
    { destruct (Qltb 0 c) eqn:E; [done|]. apply Qltb_false in E.
      change (c + - inc <= 0 + 0)%Q. apply Qplus_le_compat; [exact E|].
      by apply (Qopp_le_compat 0 inc). }
    pose proof (clamp_nonpos _ Hc) as Hhi.
    destruct (clamp_bounds (if Qltb 0 c then 0 else c - inc)%Q) as [Hlo _].
    split; [exact Hhi|]. by apply (round1_bounds _ (-1) 0).
  - destruct (Keyboard.key_get_pressed io Keyboard.K_RIGHT
              || Keyboard.key_get_pressed io Keyboard.K_d).
    + assert (Hc : (0 <= (if Qltb c 0 then 0 else c + inc))%Q).
      { destruct (Qltb c 0) eqn:E; [done|]. apply Qltb_false in E.
        change (0 + 0 <= c + inc)%Q. by apply Qplus_le_compat. }
      pose proof (clamp_nonneg _ Hc) as Hlo.
      destruct (clamp_bounds (if Qltb c 0 then 0 else c + inc)%Q) as [_ Hhi].
      split; [exact Hlo|]. by apply (round1_bounds _ 0 1).
    + split; reflexivity.
Qed.

Lemma handle_events_closes (mods : Z) (events : list Keyboard.event) :
  forall self : Keyboard.KeyboardAgent,
  Keyboard.handle_events mods events self = None
  <-> existsb (Keyboard.closes mods) events = true.
Proof.
  induction events as [|ev events IH]; intros self; simpl.
  - split; discriminate.
  - destruct ev as [|k|]; simpl.
    + done.
    + destruct (Keyboard._is_quit_shortcut mods k); [done|]. simpl.
      destruct (bool_decide (k = Keyboard.K_q)); apply IH.
    + apply IH.
Qed.

(** X17.  An [act] closes the agent (raises) exactly when one of the queued
    events is a window QUIT, or the release of ESCAPE, or the release of [q]
    with a control key held. *)
Theorem act_closes_on_quit (io : Keyboard.Pygame) (self : Keyboard.KeyboardAgent) :
  Keyboard.act io self = None
  <-> Exists (fun ev =>
        ev = Keyboard.QUIT
        \/ ev = Keyboard.KEYUP Keyboard.K_ESCAPE
        \/ (ev = Keyboard.KEYUP Keyboard.K_q
            /\ Z.land (Keyboard.key_get_mods io) Keyboard.KMOD_CTRL <> 0%Z))
       (Keyboard.event_get io).
Proof.
  unfold Keyboard.act, Keyboard._parse_events.
  pose proof (handle_events_closes (Keyboard.key_get_mods io)
                (Keyboard.event_get io) self) as Hc.
  assert (Hiff : existsb (Keyboard.closes (Keyboard.key_get_mods io))
                   (Keyboard.event_get io) = true
                 <-> Exists (fun ev =>
                       ev = Keyboard.QUIT
                       \/ ev = Keyboard.KEYUP Keyboard.K_ESCAPE
                       \/ (ev = Keyboard.KEYUP Keyboard.K_q
                           /\ Z.land (Keyboard.key_get_mods io) Keyboard.KMOD_CTRL
                              <> 0%Z))
                      (Keyboard.event_get io)).
  { rewrite existsb_exists, Exists_exists. split.
    - intros (ev & Hin & Hev). exists ev. split; [by apply list_elem_of_In|].
      destruct ev as [|k|]; simpl in Hev; [by left| |done].
      unfold Keyboard._is_quit_shortcut in Hev.
      apply orb_true_iff in Hev as [Hev|Hev].
      + apply bool_decide_eq_true in Hev as ->. right. by left.
      + apply andb_true_iff in Hev as [Hq Hm].
        apply bool_decide_eq_true in Hq as ->. right. right. split; [done|].
        apply negb_true_iff, Z.eqb_neq in Hm. exact Hm.
    - intros (ev & Hin & Hev). exists ev. split; [by apply list_elem_of_In|].
      destruct Hev as [->|[->|[-> Hm]]]; simpl; [done|done|].
      unfold Keyboard._is_quit_shortcut. simpl.
      apply negb_true_iff, Z.eqb_neq. exact Hm. }
  rewrite <- Hiff, <- Hc.
  destruct (Keyboard.handle_events _ _ _); split; done.
Qed.

Lemma handle_events_gear (mods : Z) (events : list Keyboard.event) :
  forall self : Keyboard.KeyboardAgent,
  existsb (Keyboard.closes mods) events = false ->
  Keyboard.handle_events mods events self =
    Some {| Keyboard.control :=
              {| Keyboard.reverse := Keyboard.reverse (Keyboard.control self);
                 Keyboard.gear :=
                   if existsb (fun ev => match ev with
                                         | Keyboard.KEYUP k =>
                                             bool_decide (k = Keyboard.K_q)
                                         | _ => false
                                         end) events
                   then (if Keyboard.reverse (Keyboard.control self)
                         then 1 else (-1))%Z
                   else Keyboard.gear (Keyboard.control self) |};
            Keyboard._steer_cache := Keyboard._steer_cache self |}.
Proof.
  induction events as [|ev events IH]; intros [[r g] c]; simpl.
  - done.
  - destruct ev as [|k|]; simpl; [done| |apply IH].
    destruct (Keyboard._is_quit_shortcut mods k); [done|]. simpl. intros Hno.
    destruct (bool_decide (k = Keyboard.K_q)); simpl.
    + rewrite (IH _ Hno). simpl.
      by match goal with |- context [if existsb ?f events then _ else _] =>
           destruct (existsb f events) end.
    + by rewrite (IH _ Hno).
Qed.

(** One [act] with no closing event queued. *)
Lemma act_returns (io : Keyboard.Pygame) (self : Keyboard.KeyboardAgent) :
  existsb (Keyboard.closes (Keyboard.key_get_mods io)) (Keyboard.event_get io)
    = false ->
  exists acts self',
    Keyboard.act io self = Some (acts, self')
    /\ Keyboard.control self' =
         (if Keyboard.q_released io
          then {| Keyboard.reverse := negb (Keyboard.reverse (Keyboard.control self));
                  Keyboard.gear := if Keyboard.reverse (Keyboard.control self)
                                   then 1%Z else (-1)%Z |}
          else {| Keyboard.reverse := (Keyboard.gear (Keyboard.control self) <? 0)%Z;
                  Keyboard.gear := Keyboard.gear (Keyboard.control self) |})
    /\ Keyboard.reverse_of acts
       = (if Keyboard.reverse (Keyboard.control self') then 1%Q else 0%Q).
Proof.
  intros Hno. unfold Keyboard.act, Keyboard._parse_events.
  rewrite (handle_events_gear _ _ self Hno).
  eexists _, _. split; [reflexivity|].
  cbn [Keyboard._parse_vehicle_keys Keyboard.control Keyboard.gear
       Keyboard.reverse Keyboard.reverse_of fst snd].
  unfold Keyboard.q_released. split; [|reflexivity].
  clear Hno.
  destruct (existsb _ (Keyboard.event_get io)); [|reflexivity].
  by destruct (Keyboard.reverse (Keyboard.control self)).
Qed.

(** X18.  Releasing [q] toggles reverse once per frame.  With no closing
    event queued, [act] returns; when [q] was released in the frame, however
    many times, reverse is the opposite of what it was and the gear is 1 or
    -1 accordingly; when it was not, the gear is kept and reverse says
    whether the gear is negative.  The returned flag is the new reverse. *)
Theorem q_toggles_reverse_once (io : Keyboard.Pygame) (self : Keyboard.KeyboardAgent) :
  existsb (Keyboard.closes (Keyboard.key_get_mods io)) (Keyboard.event_get io)
    = false ->
  exists acts self',
    Keyboard.act io self = Some (acts, self')
    /\ Keyboard.control self' =
         (if Keyboard.q_released io
          then {| Keyboard.reverse := negb (Keyboard.reverse (Keyboard.control self));
                  Keyboard.gear := if Keyboard.reverse (Keyboard.control self)
                                   then 1%Z else (-1)%Z |}
          else {| Keyboard.reverse := (Keyboard.gear (Keyboard.control self) <? 0)%Z;
                  Keyboard.gear := Keyboard.gear (Keyboard.control self) |})
    /\ Keyboard.reverse_of acts
       = (if Keyboard.reverse (Keyboard.control self') then 1%Q else 0%Q).
Proof. exact (act_returns io self). Qed.

Lemma drive_reverse (frames : list Keyboard.Pygame) :
  forall self : Keyboard.KeyboardAgent,
  Forall (fun io => existsb (Keyboard.closes (Keyboard.key_get_mods io))
                      (Keyboard.event_get io) = false) frames ->
  Keyboard.reverse (Keyboard.control self)
    = (Keyboard.gear (Keyboard.control self) <? 0)%Z ->
  exists self',
    Keyboard.drive frames self = Some self'
    /\ Keyboard.reverse (Keyboard.control self')
       = xorb (Keyboard.reverse (Keyboard.control self))
              (Nat.odd (Keyboard.q_releases frames))
    /\ Keyboard.reverse (Keyboard.control self')
       = (Keyboard.gear (Keyboard.control self') <? 0)%Z.
Proof.
  induction frames as [|io frames IH]; intros self Hall Hinv.
  - exists self. split; [done|]. split; [|done]. simpl. by rewrite xorb_false_r.
  - apply Forall_cons in Hall as [Hno Hall].
    destruct (act_returns io self Hno) as (acts & self1 & Hact & Hc & _).
    assert (Hinv1 : Keyboard.reverse (Keyboard.control self1)
                    = (Keyboard.gear (Keyboard.control self1) <? 0)%Z).
    { rewrite Hc. destruct (Keyboard.q_released io); [|done].
      by destruct (Keyboard.reverse (Keyboard.control self)). }
    destruct (IH self1 Hall Hinv1) as (self' & Hrun & Hrev & Hinv').
    exists self'. cbn [Keyboard.drive]. rewrite Hact.
    split; [exact Hrun|]. split; [|exact Hinv'].
    rewrite Hrev, Hc. cbn [Keyboard.q_releases].
    destruct (Keyboard.q_released io); cbn [Keyboard.reverse].
    + change (1 + Keyboard.q_releases frames)%nat
        with (S (Keyboard.q_releases frames)).
      rewrite Nat.odd_succ, <- Nat.negb_odd.
      by destruct (Keyboard.reverse (Keyboard.control self)),
                  (Nat.odd (Keyboard.q_releases frames)).
    + rewrite <- Hinv. reflexivity.
Qed.

(** X19.  Over a drive.  From [reset], over any frames none of which queues
    a closing event, every [act] returns, and the vehicle is in reverse
    exactly when the number of frames in which [q] was released is odd. *)
Theorem reverse_is_parity_of_q_frames (frames : list Keyboard.Pygame)
    (self : Keyboard.KeyboardAgent) :
  Forall (fun io => existsb (Keyboard.closes (Keyboard.key_get_mods io))
                      (Keyboard.event_get io) = false) frames ->
  exists self',
    Keyboard.drive frames (Keyboard.reset self) = Some self'
    /\ Keyboard.reverse (Keyboard.control self')
       = Nat.odd (Keyboard.q_releases frames).
Proof.
  intros Hall.
  destruct (drive_reverse frames (Keyboard.reset self) Hall eq_refl)
    as (self' & Hrun & Hrev & _).
  exists self'. split; [exact Hrun|]. by rewrite Hrev.
Qed.

(** ** Concrete frames *)

Lemma steering_stays_in_range_witness :
  let io := Keyboard.frame [] 0 [Keyboard.K_RIGHT] 100 in
  let self := {| Keyboard.control := Keyboard.VehicleControl_default;
                 Keyboard._steer_cache := 99 # 100 |} in
  exists acts self',
    Keyboard.act io self = Some (acts, self')
    /\ (-1 <= Keyboard._steer_cache self' <= 1)%Q
    /\ (-1 <= Keyboard.steer_of acts <= 1)%Q.
Proof.
  intros io self. eexists _, _. split; [vm_compute; reflexivity|].
  apply (steering_stays_in_range io self). vm_compute. reflexivity.
Defined.

Lemma steering_follows_keys_witness :
  let io := Keyboard.frame [] 0 [Keyboard.K_LEFT; Keyboard.K_RIGHT] 100 in
  let self := {| Keyboard.control := Keyboard.VehicleControl_default;
                 Keyboard._steer_cache := 1 # 2 |} in
  exists acts self',
    Keyboard.act io self = Some (acts, self')
    /\ (Keyboard._steer_cache self' <= 0)%Q
    /\ (Keyboard.steer_of acts <= 0)%Q.
Proof.
  intros io self. eexists _, _. split; [vm_compute; reflexivity|].
  apply (steering_follows_keys io self); [vm_compute; discriminate|].
  vm_compute. reflexivity.
Defined.

Lemma act_closes_on_quit_witness :
  Keyboard.act
    (Keyboard.frame [Keyboard.other_event; Keyboard.KEYUP Keyboard.K_q] 64 [] 33)
    Keyboard.__init__ = None.
Proof.
  apply act_closes_on_quit. apply Exists_cons_tl, Exists_cons_hd.
  right. right. split; [reflexivity|]. vm_compute. discriminate.
Defined.

Lemma q_toggles_reverse_once_witness :
  let io := Keyboard.frame
              [Keyboard.KEYUP Keyboard.K_q; Keyboard.other_event;
               Keyboard.KEYUP Keyboard.K_q] 0 [] 33 in
  exists acts self',
    Keyboard.act io Keyboard.__init__ = Some (acts, self')
    /\ Keyboard.control self'
       = {| Keyboard.reverse := true; Keyboard.gear := (-1)%Z |}
    /\ Keyboard.reverse_of acts = 1%Q.
Proof.
  intros io.
  destruct (q_toggles_reverse_once io Keyboard.__init__)
    as (acts & self' & Hact & Hc & Hr); [vm_compute; reflexivity|].
  exists acts, self'. split; [exact Hact|].
  split; [rewrite Hc; vm_compute; reflexivity|].
  rewrite Hr, Hc. vm_compute. reflexivity.
Defined.

Lemma reverse_is_parity_of_q_frames_witness :
  let q := Keyboard.frame [Keyboard.KEYUP Keyboard.K_q] 0 [] 33 in
  let idle := Keyboard.frame [] 0 [Keyboard.K_UP] 33 in
  exists self',
    Keyboard.drive [q; idle; q; q] (Keyboard.reset Keyboard.__init__) = Some self'
    /\ Keyboard.reverse (Keyboard.control self') = true.
Proof.
  intros q idle.
  destruct (reverse_is_parity_of_q_frames [q; idle; q; q] Keyboard.__init__)
    as (self' & Hrun & Hrev).
  - repeat constructor.
  - exists self'. split; [exact Hrun|]. rewrite Hrev. vm_compute. reflexivity.
Defined.
